(** * GPU framebuffer / render-target layer (gpu_framebuffer.c)

    A shallow embedding of source/blender/gpu/intern/gpu_framebuffer.c:
    the C heap holding GPUFrameBuffer, GPUTexture and GPURenderBuffer
    structs is a triple of finite maps, the file-static [GG.currentfb] is a
    field of the program state, and every OpenGL entry point the file calls
    is recorded, in order, in a call trace.  A run either finishes with a
    value and a new state, stops at a failed [BLI_assert], or has undefined
    behaviour (NULL or dangling dereference, out-of-bounds array index). *)

From Stdlib Require Import ZArith Lia.
From stdpp Require Import base option list gmap strings.

Local Open Scope Z_scope.

(** ** OpenGL constants

    Enumerant values of the OpenGL headers.  The [EXT]-suffixed names the
    file also uses are the same entry points and the same values. *)

Definition GL_NONE : Z := 0.
Definition GL_NO_ERROR : Z := 0.
Definition GL_INVALID_OPERATION : Z := 0x0502.
Definition GL_FRAMEBUFFER : Z := 0x8D40.
Definition GL_READ_FRAMEBUFFER : Z := 0x8CA8.
Definition GL_DRAW_FRAMEBUFFER : Z := 0x8CA9.
Definition GL_RENDERBUFFER : Z := 0x8D41.
Definition GL_COLOR_ATTACHMENT0 : Z := 0x8CE0.
Definition GL_DEPTH_ATTACHMENT : Z := 0x8D00.
Definition GL_DEPTH_STENCIL_ATTACHMENT : Z := 0x821A.
Definition GL_FRAMEBUFFER_COMPLETE : Z := 0x8CD5.
Definition GL_FRAMEBUFFER_INCOMPLETE_ATTACHMENT : Z := 0x8CD6.
Definition GL_FRAMEBUFFER_INCOMPLETE_MISSING_ATTACHMENT : Z := 0x8CD7.
Definition GL_FRAMEBUFFER_INCOMPLETE_DRAW_BUFFER : Z := 0x8CDB.
Definition GL_FRAMEBUFFER_INCOMPLETE_READ_BUFFER : Z := 0x8CDC.
Definition GL_FRAMEBUFFER_UNSUPPORTED : Z := 0x8CDD.
Definition GL_FRAMEBUFFER_INCOMPLETE_MULTISAMPLE : Z := 0x8D56.
Definition GL_FRAMEBUFFER_UNDEFINED : Z := 0x8219.
Definition GL_COLOR_BUFFER_BIT : Z := 0x4000.
Definition GL_DEPTH_BUFFER_BIT : Z := 0x0100.
Definition GL_NEAREST : Z := 0x2600.
Definition GL_DEPTH_COMPONENT : Z := 0x1902.
Definition GL_RGBA8 : Z := 0x8058.
Definition GL_RGBA16F : Z := 0x881A.
Definition GL_RGBA32F : Z := 0x8814.
Definition GL_TEXTURE_2D : Z := 0x0DE1.
Definition GL_TEXTURE_2D_MULTISAMPLE : Z := 0x9100.

(** Modelled from the spec: the [GPUOffScreenMode] flags of GPU_framebuffer.h,
    a header this development does not have.  The mode flags select,
    independently for colour and for depth, a renderbuffer instead of a
    sampled texture; they are distinct bits. *)
Definition GPU_OFFSCREEN_RENDERBUFFER_COLOR : Z := 1.
Definition GPU_OFFSCREEN_RENDERBUFFER_DEPTH : Z := 2.
Definition GPU_OFFSCREEN_DEPTH_COMPARE : Z := 4.

(** Number of maximum output slots. *)
Definition GPU_FB_MAX_SLOTS : Z := 4.

(** The pixel formats [GPU_renderbuffer_create] tells apart (any other one
    takes its [default] case) and the two renderbuffer types. *)
Inductive GPUTextureFormat := GPU_RGBA8 | GPU_RGBA16F | GPU_RGBA32F | GPU_FORMAT_OTHER.
Inductive GPURenderBufferType := GPU_RENDERBUFFER_COLOR | GPU_RENDERBUFFER_DEPTH.

(** ** The structs

    A pointer is [option positive]: [None] is NULL, [Some a] an address. *)

Record GPUFrameBuffer := mkFB {
  fb_object : Z;
  colortex : list (option positive);
  depthtex : option positive;
  colorrb : list (option positive);
  depthrb : option positive
}.

Record GPURenderBuffer := mkRB {
  rb_width : Z;
  rb_height : Z;
  rb_samples : Z;
  rb_fb : option positive;
  rb_fb_attachment : Z;
  rb_depth : bool;
  rb_bindcode : Z
}.

(** Modelled from the spec: the [GPUTexture] struct of gpu_texture.c, a file
    this development does not have.  The spec gives a RenderSurface its
    width, height, device handle, depth/stencil flags and the optional
    back-reference {owning FramebufferTarget, slot index}; the field names
    [fb], [fb_attachment] and [bindcode] are the ones this file itself uses
    on [ofs->color], and [GPURenderBuffer] above is the sibling struct. *)
Record GPUTexture := mkTex {
  tex_w : Z;
  tex_h : Z;
  tex_target : Z;
  tex_bindcode : Z;
  tex_number : Z;
  tex_depth : bool;
  tex_stencil : bool;
  tex_fb : option positive;
  tex_fb_attachment : Z
}.

Record GPUOffScreen := mkOfs {
  ofs_fb : option positive;
  ofs_color : option positive;
  ofs_depth : option positive;
  ofs_rbcolor : option positive;
  ofs_rbdepth : option positive;
  ofs_samples : Z
}.

#[global] Instance GPUFrameBuffer_eq_dec : EqDecision GPUFrameBuffer.
Proof. solve_decision. Defined.
#[global] Instance GPURenderBuffer_eq_dec : EqDecision GPURenderBuffer.
Proof. solve_decision. Defined.
#[global] Instance GPUTexture_eq_dec : EqDecision GPUTexture.
Proof. solve_decision. Defined.

(** ** OpenGL calls issued by the file *)

Inductive glcall :=
| glGenFramebuffers (name : Z)
| glGenRenderbuffers (name : Z)
| glGenTextures (name : Z)
| glBindFramebuffer (target fbo : Z)
| glBindRenderbuffer (target rbo : Z)
| glReadBuffer (mode : Z)
| glDrawBuffer (mode : Z)
| glDrawBuffers (n : Z) (bufs : list Z)
| glFramebufferTexture (target attachment texture level : Z)
| glFramebufferRenderbuffer (target attachment rbtarget rbo : Z)
| glRenderbufferStorage (target internalformat w h : Z)
| glRenderbufferStorageMultisample (target samples internalformat w h : Z)
| glCheckFramebufferStatus (target : Z)
| glViewport (x y w h : Z)
| glDeleteFramebuffers (fbo : Z)
| glDeleteRenderbuffers (rbo : Z)
| glDeleteTextures (tex : Z)
| glBlitFramebuffer (sx0 sy0 sx1 sy1 dx0 dy0 dx1 dy1 mask filter : Z).

(** The device: its capability flags and the answers it gives, each a
    function of the calls made so far. *)
Record device := mkDev {
  GLEW_EXT_framebuffer_multisample : bool;
  GLEW_ARB_texture_multisample : bool;
  GLEW_EXT_framebuffer_blit : bool;
  dev_gen_framebuffer : list glcall → Z;
  dev_gen_renderbuffer : list glcall → Z;
  dev_gen_texture : list glcall → Z;
  dev_attach_error : list glcall → Z;
  dev_framebuffer_status : list glcall → Z
}.

(** ** Program state *)

Record state := mkSt {
  fbs : gmap positive GPUFrameBuffer;
  texs : gmap positive GPUTexture;
  rbs : gmap positive GPURenderBuffer;
  next_addr : positive;
  GG_currentfb : Z;
  G_debug : bool;
  gl_errors : list Z;
  gl_trace : list glcall;
  stderr : list string
}.

Definition set_fbs (f : gmap positive GPUFrameBuffer) (s : state) : state :=
  mkSt f (texs s) (rbs s) (next_addr s) (GG_currentfb s) (G_debug s)
       (gl_errors s) (gl_trace s) (stderr s).
Definition set_texs (t : gmap positive GPUTexture) (s : state) : state :=
  mkSt (fbs s) t (rbs s) (next_addr s) (GG_currentfb s) (G_debug s)
       (gl_errors s) (gl_trace s) (stderr s).
Definition set_rbs (r : gmap positive GPURenderBuffer) (s : state) : state :=
  mkSt (fbs s) (texs s) r (next_addr s) (GG_currentfb s) (G_debug s)
       (gl_errors s) (gl_trace s) (stderr s).
Definition set_next_addr (n : positive) (s : state) : state :=
  mkSt (fbs s) (texs s) (rbs s) n (GG_currentfb s) (G_debug s)
       (gl_errors s) (gl_trace s) (stderr s).
Definition set_currentfb (c : Z) (s : state) : state :=
  mkSt (fbs s) (texs s) (rbs s) (next_addr s) c (G_debug s)
       (gl_errors s) (gl_trace s) (stderr s).
Definition set_gl_errors (e : list Z) (s : state) : state :=
  mkSt (fbs s) (texs s) (rbs s) (next_addr s) (GG_currentfb s) (G_debug s)
       e (gl_trace s) (stderr s).
Definition set_gl_trace (t : list glcall) (s : state) : state :=
  mkSt (fbs s) (texs s) (rbs s) (next_addr s) (GG_currentfb s) (G_debug s)
       (gl_errors s) t (stderr s).
Definition set_stderr (e : list string) (s : state) : state :=
  mkSt (fbs s) (texs s) (rbs s) (next_addr s) (GG_currentfb s) (G_debug s)
       (gl_errors s) (gl_trace s) e.

(** ** The monad of runs *)

Inductive outcome (A : Type) :=
| Ok (a : A) (s : state)
| AssertFailed
| Fault.
Arguments Ok {A} a s.
Arguments AssertFailed {A}.
Arguments Fault {A}.

Definition M (A : Type) : Type := state → outcome A.

Definition ret {A} (a : A) : M A := λ s, Ok a s.
Definition bind {A B} (m : M A) (k : A → M B) : M B :=
  λ s, match m s with
       | Ok a s' => k a s'
       | AssertFailed => AssertFailed
       | Fault => Fault
       end.

Notation "'do' x <- m ; k" := (bind m (λ x, k))
  (at level 10, x name, m at level 100, k at level 200,
   format "'[v' 'do'  x  <-  m ; '/' k ']'").
Notation "m ;;; k" := (bind m (λ _, k))
  (at level 100, k at level 200, right associativity).

Definition fault {A} : M A := λ _, Fault.
Definition get_state : M state := λ s, Ok s s.
Definition modify (f : state → state) : M unit := λ s, Ok tt (f s).

(** [if (c) body] with no else branch. *)
Definition when (c : bool) (body : M unit) : M unit :=
  if c then body else ret tt.

(** Modelled from the spec: [BLI_assert] of BLI_utildefines.h, a header this
    development does not have.  The spec treats a violated requirement as
    an error of the operation (its [InvalidArgumentError]), so a false
    assertion stops the run. *)
Definition BLI_assert (c : bool) : M unit :=
  if c then ret tt else λ _, AssertFailed.

Definition fprintf_stderr (msg : string) : M unit :=
  modify (λ s, set_stderr (stderr s ++ [msg]) s).

Definition gl (c : glcall) : M unit :=
  modify (λ s, set_gl_trace (gl_trace s ++ [c]) s).

(** Dereferencing: NULL and dangling pointers have undefined behaviour. *)
Definition load_fb (p : option positive) : M GPUFrameBuffer :=
  λ s, match p with
       | Some a => match fbs s !! a with Some v => Ok v s | None => Fault end
       | None => Fault
       end.
Definition load_tex (p : option positive) : M GPUTexture :=
  λ s, match p with
       | Some a => match texs s !! a with Some v => Ok v s | None => Fault end
       | None => Fault
       end.
Definition load_rb (p : option positive) : M GPURenderBuffer :=
  λ s, match p with
       | Some a => match rbs s !! a with Some v => Ok v s | None => Fault end
       | None => Fault
       end.

Definition update_fb (p : option positive) (f : GPUFrameBuffer → GPUFrameBuffer) : M unit :=
  do v <- load_fb p;
  match p with
  | Some a => modify (λ s, set_fbs (<[a := f v]> (fbs s)) s)
  | None => fault
  end.
Definition update_tex (p : option positive) (f : GPUTexture → GPUTexture) : M unit :=
  do v <- load_tex p;
  match p with
  | Some a => modify (λ s, set_texs (<[a := f v]> (texs s)) s)
  | None => fault
  end.
Definition update_rb (p : option positive) (f : GPURenderBuffer → GPURenderBuffer) : M unit :=
  do v <- load_rb p;
  match p with
  | Some a => modify (λ s, set_rbs (<[a := f v]> (rbs s)) s)
  | None => fault
  end.

(** [MEM_callocN]: a fresh address. *)
Definition MEM_callocN : M positive :=
  λ s, Ok (next_addr s) (set_next_addr (Pos.succ (next_addr s)) s).

(** Indexing a [GPU_FB_MAX_SLOTS]-element array with a C [int]. *)
Definition slot_index (slot : Z) : option nat :=
  if (0 <=? slot) && (slot <? GPU_FB_MAX_SLOTS) then Some (Z.to_nat slot) else None.

Definition arr_read (l : list (option positive)) (slot : Z) : M (option positive) :=
  match slot_index slot with
  | Some i => match l !! i with Some v => ret v | None => fault end
  | None => fault
  end.

Definition arr_write (l : list (option positive)) (slot : Z) (v : option positive)
  : M (list (option positive)) :=
  match slot_index slot with
  | Some i => if decide (i < length l)%nat then ret (<[i := v]> l) else fault
  | None => fault
  end.

Definition is_null (p : option positive) : bool :=
  match p with Some _ => false | None => true end.

Fixpoint for_loop (i n : nat) (body : nat → M unit) : M unit :=
  match n with
  | O => ret tt
  | S n' => body i ;;; for_loop (S i) n' body
  end.

Fixpoint for_acc {A} (i n : nat) (body : nat → A → M A) (a : A) : M A :=
  match n with
  | O => ret a
  | S n' => do a' <- body i a; for_acc (S i) n' body a'
  end.

(** ** GPUTexture accessors *)

(** Modelled from the spec: [GPU_texture_target] of gpu_texture.c, a file this
    development does not have, reads the texture target of the surface; like
    every accessor below it dereferences [tex], as its [GPU_renderbuffer_*]
    siblings in this file do. *)
Definition GPU_texture_target (tex : option positive) : M Z :=
  do t <- load_tex tex; ret (tex_target t).

(** Modelled from the spec: [GPU_texture_width] (gpu_texture.c) is the width
    query of the surface. *)
Definition GPU_texture_width (tex : option positive) : M Z :=
  do t <- load_tex tex; ret (tex_w t).

(** Modelled from the spec: [GPU_texture_height] (gpu_texture.c) is the
    height query of the surface. *)
Definition GPU_texture_height (tex : option positive) : M Z :=
  do t <- load_tex tex; ret (tex_h t).

(** Modelled from the spec: [GPU_texture_depth] (gpu_texture.c) is the
    is-depth query of the surface. *)
Definition GPU_texture_depth (tex : option positive) : M bool :=
  do t <- load_tex tex; ret (tex_depth t).

(** Modelled from the spec: [GPU_texture_stencil] (gpu_texture.c) tells a
    depth+stencil surface from a plain depth one. *)
Definition GPU_texture_stencil (tex : option positive) : M bool :=
  do t <- load_tex tex; ret (tex_stencil t).

(** Modelled from the spec: [GPU_texture_opengl_bindcode] (gpu_texture.c) is
    the device handle of the surface. *)
Definition GPU_texture_opengl_bindcode (tex : option positive) : M Z :=
  do t <- load_tex tex; ret (tex_bindcode t).

(** Modelled from the spec: [GPU_texture_bound_number] (gpu_texture.c) is the
    texture unit the surface is bound to as a readable texture, -1 for
    none: the is-bound-as-readable-elsewhere query. *)
Definition GPU_texture_bound_number (tex : option positive) : M Z :=
  do t <- load_tex tex; ret (tex_number t).

(** Modelled from the spec: [GPU_texture_framebuffer] (gpu_texture.c) reads
    the owning framebuffer of the back-reference. *)
Definition GPU_texture_framebuffer (tex : option positive) : M (option positive) :=
  do t <- load_tex tex; ret (tex_fb t).

(** Modelled from the spec: [GPU_texture_framebuffer_attachment]
    (gpu_texture.c) reads the slot index of the back-reference. *)
Definition GPU_texture_framebuffer_attachment (tex : option positive) : M Z :=
  do t <- load_tex tex; ret (tex_fb_attachment t).

Definition tex_set_fb (fb : option positive) (attachment : Z) (t : GPUTexture) : GPUTexture :=
  mkTex (tex_w t) (tex_h t) (tex_target t) (tex_bindcode t) (tex_number t)
        (tex_depth t) (tex_stencil t) fb attachment.

(** Modelled from the spec: [GPU_texture_framebuffer_set] (gpu_texture.c)
    writes the back-reference {owning framebuffer, slot index}, as
    [GPU_renderbuffer_framebuffer_set] below does for a renderbuffer. *)
Definition GPU_texture_framebuffer_set (tex fb : option positive) (attachment : Z) : M unit :=
  update_tex tex (tex_set_fb fb attachment).

(** ** GPURenderBuffer accessors *)

Definition GPU_renderbuffer_framebuffer (rb : option positive) : M (option positive) :=
  do r <- load_rb rb; ret (rb_fb r).
Definition GPU_renderbuffer_framebuffer_attachment (rb : option positive) : M Z :=
  do r <- load_rb rb; ret (rb_fb_attachment r).
Definition GPU_renderbuffer_bindcode (rb : option positive) : M Z :=
  do r <- load_rb rb; ret (rb_bindcode r).
Definition GPU_renderbuffer_depth (rb : option positive) : M bool :=
  do r <- load_rb rb; ret (rb_depth r).
Definition GPU_renderbuffer_width (rb : option positive) : M Z :=
  do r <- load_rb rb; ret (rb_width r).
Definition GPU_renderbuffer_height (rb : option positive) : M Z :=
  do r <- load_rb rb; ret (rb_height r).

Definition rb_set_fb (fb : option positive) (attachment : Z) (r : GPURenderBuffer) : GPURenderBuffer :=
  mkRB (rb_width r) (rb_height r) (rb_samples r) fb attachment (rb_depth r) (rb_bindcode r).

Definition GPU_renderbuffer_framebuffer_set (rb fb : option positive) (attachment : Z) : M unit :=
  update_rb rb (rb_set_fb fb attachment).

(** ** GPUFrameBuffer *)

Definition with_object (o : Z) (f : GPUFrameBuffer) : GPUFrameBuffer :=
  mkFB o (colortex f) (depthtex f) (colorrb f) (depthrb f).
Definition with_colortex (l : list (option positive)) (f : GPUFrameBuffer) : GPUFrameBuffer :=
  mkFB (fb_object f) l (depthtex f) (colorrb f) (depthrb f).
Definition with_depthtex (t : option positive) (f : GPUFrameBuffer) : GPUFrameBuffer :=
  mkFB (fb_object f) (colortex f) t (colorrb f) (depthrb f).
Definition with_colorrb (l : list (option positive)) (f : GPUFrameBuffer) : GPUFrameBuffer :=
  mkFB (fb_object f) (colortex f) (depthtex f) l (depthrb f).
Definition with_depthrb (r : option positive) (f : GPUFrameBuffer) : GPUFrameBuffer :=
  mkFB (fb_object f) (colortex f) (depthtex f) (colorrb f) r.

(** [fb->colortex[slot] = tex] and [fb->colorrb[slot] = rb]. *)
Definition store_colortex (fb : option positive) (slot : Z) (tex : option positive) : M unit :=
  do f <- load_fb fb;
  do l <- arr_write (colortex f) slot tex;
  update_fb fb (with_colortex l).
Definition store_colorrb (fb : option positive) (slot : Z) (rb : option positive) : M unit :=
  do f <- load_fb fb;
  do l <- arr_write (colorrb f) slot rb;
  update_fb fb (with_colorrb l).
Definition load_colortex (fb : option positive) (slot : Z) : M (option positive) :=
  do f <- load_fb fb; arr_read (colortex f) slot.
Definition load_colorrb (fb : option positive) (slot : Z) : M (option positive) :=
  do f <- load_fb fb; arr_read (colorrb f) slot.

Definition status_name (status : Z) : string :=
  if status =? GL_FRAMEBUFFER_COMPLETE then "GL_FRAMEBUFFER_COMPLETE"
  else if status =? GL_FRAMEBUFFER_INCOMPLETE_ATTACHMENT then "GL_FRAMEBUFFER_INCOMPLETE_ATTACHMENT"
  else if status =? GL_FRAMEBUFFER_INCOMPLETE_MISSING_ATTACHMENT then "GL_FRAMEBUFFER_INCOMPLETE_MISSING_ATTACHMENT"
  else if status =? GL_FRAMEBUFFER_UNSUPPORTED then "GL_FRAMEBUFFER_UNSUPPORTED"
  else if status =? GL_FRAMEBUFFER_INCOMPLETE_DRAW_BUFFER then "GL_FRAMEBUFFER_INCOMPLETE_DRAW_BUFFER"
  else if status =? GL_FRAMEBUFFER_INCOMPLETE_READ_BUFFER then "GL_FRAMEBUFFER_INCOMPLETE_READ_BUFFER"
  else if status =? GL_FRAMEBUFFER_INCOMPLETE_MULTISAMPLE then "GL_FRAMEBUFFER_INCOMPLETE_MULTISAMPLE"
  else if status =? GL_FRAMEBUFFER_UNDEFINED then "GL_FRAMEBUFFER_UNDEFINED"
  else "unknown".

(** The message goes to [err_out] when the caller passed one and to stderr
    otherwise; both are the one log here. *)
Definition gpu_print_framebuffer_error (status : Z) : M unit :=
  fprintf_stderr ("GPUFrameBuffer: framebuffer status " +:+ status_name status).

Definition slot_unsupported_msg : string :=
  "Attaching to index %d framebuffer slot unsupported. Use at most %d".
Definition feedback_loop_msg : string :=
  "Feedback loop warning!: Attempting to attach texture to framebuffer while still bound to texture unit for drawing!".

(** The core-profile build: without [WITH_GL_PROFILE_COMPAT] the attach
    call is [glFramebufferTexture] and [target] is not used. *)
Definition GPU_framebuffer_texture_attach_target
    (fb tex : option positive) (target slot mip : Z) : M bool :=
  if GPU_FB_MAX_SLOTS <=? slot then
    fprintf_stderr slot_unsupported_msg ;;;
    ret false
  else
    do s <- get_state;
    when (G_debug s)
      (do n <- GPU_texture_bound_number tex;
       when (negb (n =? -1)) (fprintf_stderr feedback_loop_msg)) ;;;
    do f <- load_fb fb;
    gl (glBindFramebuffer GL_FRAMEBUFFER (fb_object f)) ;;;
    modify (set_currentfb (fb_object f)) ;;;
    do st <- GPU_texture_stencil tex;
    do d <- GPU_texture_depth tex;
    let attachment :=
      if st && d then GL_DEPTH_STENCIL_ATTACHMENT
      else if d then GL_DEPTH_ATTACHMENT
      else GL_COLOR_ATTACHMENT0 + slot in
    do bindcode <- GPU_texture_opengl_bindcode tex;
    gl (glFramebufferTexture GL_FRAMEBUFFER attachment bindcode mip) ;;;
    do d <- GPU_texture_depth tex;
    (if d then update_fb fb (with_depthtex tex)
     else store_colortex fb slot tex) ;;;
    GPU_texture_framebuffer_set tex fb slot ;;;
    ret true.

Definition GPU_framebuffer_texture_attach (fb tex : option positive) (slot mip : Z) : M bool :=
  do target <- GPU_texture_target tex;
  GPU_framebuffer_texture_attach_target fb tex target slot mip.

Definition GPU_framebuffer_texture_detach_target (tex : option positive) (target : Z) : M unit :=
  do fb <- GPU_texture_framebuffer tex;
  do fb_attachment <- GPU_texture_framebuffer_attachment tex;
  if is_null fb then ret tt
  else
    do f <- load_fb fb;
    do s <- get_state;
    when (negb (GG_currentfb s =? fb_object f))
      (gl (glBindFramebuffer GL_FRAMEBUFFER (fb_object f)) ;;;
       modify (set_currentfb (fb_object f))) ;;;
    do st <- GPU_texture_stencil tex;
    do d <- GPU_texture_depth tex;
    do attachment <-
      (if st && d then
         update_fb fb (with_depthtex None) ;;;
         ret GL_DEPTH_STENCIL_ATTACHMENT
       else if d then
         update_fb fb (with_depthtex None) ;;;
         ret GL_DEPTH_ATTACHMENT
       else
         do cur <- load_colortex fb fb_attachment;
         BLI_assert (bool_decide (cur = tex)) ;;;
         store_colortex fb fb_attachment None ;;;
         ret (GL_COLOR_ATTACHMENT0 + fb_attachment));
    gl (glFramebufferTexture GL_FRAMEBUFFER attachment 0 0) ;;;
    GPU_texture_framebuffer_set tex None (-1).

Definition GPU_framebuffer_texture_detach (tex : option positive) : M unit :=
  do target <- GPU_texture_target tex;
  GPU_framebuffer_texture_detach_target tex target.

(** Accumulator of the slot loop of [GPU_framebuffer_bind]:
    [attachments[0..numslots)], [tex] and [readattachement]. *)
Record bind_locals := mkBindLocals {
  bl_attachments : list Z;
  bl_tex : option positive;
  bl_readattachement : Z
}.

Definition bind_loop_body (fb : option positive) (i : nat) (acc : bind_locals) : M bind_locals :=
  do t <- load_colortex fb (Z.of_nat i);
  if is_null t then ret acc
  else ret (mkBindLocals
              (bl_attachments acc ++ [GL_COLOR_ATTACHMENT0 + Z.of_nat i])
              t
              (if bl_readattachement acc =? 0 then GL_COLOR_ATTACHMENT0 + Z.of_nat i
               else bl_readattachement acc)).

(** [tex] starts uninitialised in the source; it is written by the loop when
    a colour slot is occupied and by [tex = fb->depthtex] otherwise, so the
    placeholder [None] below is never the value read. *)
Definition GPU_framebuffer_bind (fb : option positive) : M unit :=
  do acc <- for_acc 0 4 (bind_loop_body fb) (mkBindLocals [] None 0);
  let numslots := Z.of_nat (length (bl_attachments acc)) in
  do f <- load_fb fb;
  gl (glBindFramebuffer GL_FRAMEBUFFER (fb_object f)) ;;;
  do tex <-
    (if numslots =? 0 then
       gl (glDrawBuffer GL_NONE) ;;;
       gl (glReadBuffer GL_NONE) ;;;
       ret (depthtex f)
     else
       gl (glDrawBuffers numslots (bl_attachments acc)) ;;;
       gl (glReadBuffer (bl_readattachement acc)) ;;;
       ret (bl_tex acc));
  do w <- GPU_texture_width tex;
  do h <- GPU_texture_height tex;
  gl (glViewport 0 0 w h) ;;;
  modify (set_currentfb (fb_object f)).

Definition GPU_framebuffer_bind_simple (fb : option positive) : M unit :=
  do f <- load_fb fb;
  gl (glBindFramebuffer GL_FRAMEBUFFER (fb_object f)) ;;;
  gl (glDrawBuffer GL_COLOR_ATTACHMENT0) ;;;
  gl (glReadBuffer GL_COLOR_ATTACHMENT0) ;;;
  modify (set_currentfb (fb_object f)).

Definition GPU_framebuffer_bound (fb : option positive) : M bool :=
  do f <- load_fb fb;
  do s <- get_state;
  ret (fb_object f =? GG_currentfb s).

Definition GPU_framebuffer_restore : M unit :=
  do s <- get_state;
  when (negb (GG_currentfb s =? 0))
    (gl (glBindFramebuffer GL_FRAMEBUFFER 0) ;;;
     modify (set_currentfb 0)).

(** [glGetError] returns one pending error flag and clears it. *)
Definition glGetError : M Z :=
  λ s, match gl_errors s with
       | [] => Ok GL_NO_ERROR s
       | e :: q => Ok e (set_gl_errors q s)
       end.

(** [while (glGetError() != GL_NO_ERROR) {}] *)
Fixpoint drain_errors (q : list Z) : list Z :=
  match q with
  | [] => []
  | e :: q' => if e =? GL_NO_ERROR then q' else drain_errors q'
  end.

Definition clean_gl_errors : M unit :=
  modify (λ s, set_gl_errors (drain_errors (gl_errors s)) s).

Definition GPU_framebuffer_renderbuffer_detach (rb : option positive) : M unit :=
  do fb <- GPU_renderbuffer_framebuffer rb;
  do fb_attachment <- GPU_renderbuffer_framebuffer_attachment rb;
  if is_null fb then ret tt
  else
    do f <- load_fb fb;
    do s <- get_state;
    when (negb (GG_currentfb s =? fb_object f))
      (gl (glBindFramebuffer GL_FRAMEBUFFER (fb_object f)) ;;;
       modify (set_currentfb (fb_object f))) ;;;
    do d <- GPU_renderbuffer_depth rb;
    do attachment <-
      (if d then
         update_fb fb (with_depthrb None) ;;;
         ret GL_DEPTH_ATTACHMENT
       else
         do cur <- load_colorrb fb fb_attachment;
         BLI_assert (bool_decide (cur = rb)) ;;;
         store_colorrb fb fb_attachment None ;;;
         ret (GL_COLOR_ATTACHMENT0 + fb_attachment));
    gl (glFramebufferRenderbuffer GL_FRAMEBUFFER attachment GL_RENDERBUFFER 0) ;;;
    GPU_renderbuffer_framebuffer_set rb None (-1).

Definition MEM_freeN_fb (fb : option positive) : M unit :=
  do _ <- load_fb fb;
  match fb with
  | Some a => modify (λ s, set_fbs (delete a (fbs s)) s)
  | None => fault
  end.
Definition MEM_freeN_tex (tex : option positive) : M unit :=
  do _ <- load_tex tex;
  match tex with
  | Some a => modify (λ s, set_texs (delete a (texs s)) s)
  | None => fault
  end.
Definition MEM_freeN_rb (rb : option positive) : M unit :=
  do _ <- load_rb rb;
  match rb with
  | Some a => modify (λ s, set_rbs (delete a (rbs s)) s)
  | None => fault
  end.

Definition free_detach_colortex (fb : option positive) (i : nat) : M unit :=
  do t <- load_colortex fb (Z.of_nat i);
  when (negb (is_null t)) (GPU_framebuffer_texture_detach t).

Definition free_detach_colorrb (fb : option positive) (i : nat) : M unit :=
  do r <- load_colorrb fb (Z.of_nat i);
  when (negb (is_null r)) (GPU_framebuffer_renderbuffer_detach r).

(** The part of [GPU_framebuffer_free] before [if (fb->object)]: the
    force-detach of every attachment. *)
Definition free_detach_all (fb : option positive) : M unit :=
  do f <- load_fb fb;
  when (negb (is_null (depthtex f))) (GPU_framebuffer_texture_detach (depthtex f)) ;;;
  for_loop 0 4 (free_detach_colortex fb) ;;;
  do f <- load_fb fb;
  when (negb (is_null (depthrb f))) (GPU_framebuffer_renderbuffer_detach (depthrb f)) ;;;
  for_loop 0 4 (free_detach_colorrb fb).

(** The rest of it: release of the device handle and of the struct. *)
Definition free_release (fb : option positive) : M unit :=
  do f <- load_fb fb;
  when (negb (fb_object f =? 0))
    (gl (glDeleteFramebuffers (fb_object f)) ;;;
     do s <- get_state;
     when (GG_currentfb s =? fb_object f)
       (gl (glBindFramebuffer GL_FRAMEBUFFER 0) ;;;
        modify (set_currentfb 0))) ;;;
  MEM_freeN_fb fb.

Definition GPU_framebuffer_free (fb : option positive) : M unit :=
  free_detach_all fb ;;;
  free_release fb.

Section Device.

Variable dev : device.

Definition GPU_framebuffer_create : M (option positive) :=
  do a <- MEM_callocN;
  let fb := Some a in
  modify (λ s, set_fbs (<[a := mkFB 0 (replicate 4 None) None (replicate 4 None) None]> (fbs s)) s) ;;;
  do s <- get_state;
  let name := dev_gen_framebuffer dev (gl_trace s) in
  gl (glGenFramebuffers name) ;;;
  update_fb fb (with_object name) ;;;
  if name =? 0 then
    fprintf_stderr "GPUFFrameBuffer: framebuffer gen failed." ;;;
    GPU_framebuffer_free fb ;;;
    ret None
  else
    gl (glBindFramebuffer GL_FRAMEBUFFER name) ;;;
    gl (glReadBuffer GL_NONE) ;;;
    gl (glDrawBuffer GL_NONE) ;;;
    gl (glBindFramebuffer GL_FRAMEBUFFER 0) ;;;
    ret fb.

Definition GPU_framebuffer_check_valid (fb : option positive) : M bool :=
  do f <- load_fb fb;
  gl (glBindFramebuffer GL_FRAMEBUFFER (fb_object f)) ;;;
  modify (set_currentfb (fb_object f)) ;;;
  do s <- get_state;
  let status := dev_framebuffer_status dev (gl_trace s) in
  gl (glCheckFramebufferStatus GL_FRAMEBUFFER) ;;;
  if negb (status =? GL_FRAMEBUFFER_COMPLETE) then
    GPU_framebuffer_restore ;;;
    gpu_print_framebuffer_error status ;;;
    ret false
  else ret true.

(** [glFramebufferRenderbufferEXT]: the call, and the error flag the device
    raises for it, if any. *)
Definition glFramebufferRenderbufferEXT (target attachment rbtarget rbo : Z) : M unit :=
  do s <- get_state;
  let e := dev_attach_error dev (gl_trace s) in
  gl (glFramebufferRenderbuffer target attachment rbtarget rbo) ;;;
  when (negb (e =? GL_NO_ERROR))
    (modify (λ s, set_gl_errors (gl_errors s ++ [e]) s)).

Definition GPU_framebuffer_renderbuffer_attach (fb rb : option positive) (slot : Z) : M bool :=
  if GPU_FB_MAX_SLOTS <=? slot then
    fprintf_stderr slot_unsupported_msg ;;;
    ret false
  else
    do d <- GPU_renderbuffer_depth rb;
    let attachement := if d then GL_DEPTH_ATTACHMENT else GL_COLOR_ATTACHMENT0 + slot in
    do f <- load_fb fb;
    gl (glBindFramebuffer GL_FRAMEBUFFER (fb_object f)) ;;;
    modify (set_currentfb (fb_object f)) ;;;
    clean_gl_errors ;;;
    do bindcode <- GPU_renderbuffer_bindcode rb;
    glFramebufferRenderbufferEXT GL_FRAMEBUFFER attachement GL_RENDERBUFFER bindcode ;;;
    do error <- glGetError;
    if error =? GL_INVALID_OPERATION then
      GPU_framebuffer_restore ;;;
      gpu_print_framebuffer_error error ;;;
      ret false
    else
      do d <- GPU_renderbuffer_depth rb;
      (if d then update_fb fb (with_depthrb rb)
       else store_colorrb fb slot rb) ;;;
      GPU_renderbuffer_framebuffer_set rb fb slot ;;;
      ret true.

End Device.

(** ** GPURenderBuffer *)

Definition GPU_renderbuffer_free (rb : option positive) : M unit :=
  do r <- load_rb rb;
  when (negb (rb_bindcode r =? 0)) (gl (glDeleteRenderbuffers (rb_bindcode r))) ;;;
  MEM_freeN_rb rb.

Definition renderbuffer_internalformat (data_type : GPUTextureFormat) : Z :=
  match data_type with
  | GPU_RGBA8 => GL_RGBA8
  | GPU_RGBA16F => GL_RGBA16F
  | GPU_RGBA32F => GL_RGBA32F
  | GPU_FORMAT_OTHER => GL_RGBA8
  end.

Section DeviceSurfaces.

Variable dev : device.

Definition GPU_renderbuffer_create (width height samples : Z)
    (data_type : GPUTextureFormat) (type : GPURenderBufferType) : M (option positive) :=
  do a <- MEM_callocN;
  let rb := Some a in
  do s <- get_state;
  let name := dev_gen_renderbuffer dev (gl_trace s) in
  modify (λ s, set_rbs (<[a := mkRB 0 0 0 None 0 false name]> (rbs s)) s) ;;;
  gl (glGenRenderbuffers name) ;;;
  if name =? 0 then
    do _ <- glGetError;
    fprintf_stderr "GPURenderBuffer: render buffer creation failed: %d" ;;;
    GPU_renderbuffer_free rb ;;;
    ret None
  else
    gl (glBindRenderbuffer GL_RENDERBUFFER name) ;;;
    let internalformat :=
      match type with
      | GPU_RENDERBUFFER_DEPTH => GL_DEPTH_COMPONENT
      | GPU_RENDERBUFFER_COLOR => renderbuffer_internalformat data_type
      end in
    (if 0 <? samples then
       gl (glRenderbufferStorageMultisample GL_RENDERBUFFER samples internalformat width height)
     else
       gl (glRenderbufferStorage GL_RENDERBUFFER internalformat width height)) ;;;
    update_rb rb (λ _, mkRB width height samples None 0
                            (match type with
                             | GPU_RENDERBUFFER_DEPTH => true
                             | GPU_RENDERBUFFER_COLOR => false
                             end) name) ;;;
    gl (glBindRenderbuffer GL_RENDERBUFFER 0) ;;;
    ret rb.

(** Modelled from the spec: the texture constructors of gpu_texture.c, a file
    this development does not have.  The RenderSurface provider creates a 2D
    image of the given dimensions and sample count with a device handle, or
    fails; a new surface is attached nowhere. *)
Definition texture_create (width height samples : Z) (depth : bool) : M (option positive) :=
  do s <- get_state;
  let name := dev_gen_texture dev (gl_trace s) in
  gl (glGenTextures name) ;;;
  if name =? 0 then
    fprintf_stderr "GPUTexture: texture create failed" ;;;
    ret None
  else
    do a <- MEM_callocN;
    modify (λ s, set_texs
      (<[a := mkTex width height
                    (if 0 <? samples then GL_TEXTURE_2D_MULTISAMPLE else GL_TEXTURE_2D)
                    name (-1) depth false None (-1)]> (texs s)) s) ;;;
    ret (Some a).

(** Modelled from the spec: [GPU_texture_create_2D_custom] (gpu_texture.c)
    creates a colour surface. *)
Definition GPU_texture_create_2D_custom (width height channels : Z)
    (data_type : GPUTextureFormat) (samples : Z) : M (option positive) :=
  texture_create width height samples false.

(** Modelled from the spec: [GPU_texture_create_depth_multisample]
    (gpu_texture.c) creates a depth surface. *)
Definition GPU_texture_create_depth_multisample (width height samples : Z) : M (option positive) :=
  texture_create width height samples true.

(** Modelled from the spec: [GPU_texture_compare_mode] (gpu_texture.c) sets
    a sampling parameter of the surface and touches nothing modelled here. *)
Definition GPU_texture_compare_mode (tex : option positive) (use_compare : bool) : M unit :=
  do _ <- load_tex tex; ret tt.

(** Modelled from the spec: [GPU_texture_free] (gpu_texture.c) destroys the
    surface; a surface destroyed while attached is force-detached first. *)
Definition GPU_texture_free (tex : option positive) : M unit :=
  do t <- load_tex tex;
  when (negb (is_null (tex_fb t))) (GPU_framebuffer_texture_detach tex) ;;;
  when (negb (tex_bindcode t =? 0)) (gl (glDeleteTextures (tex_bindcode t))) ;;;
  MEM_freeN_tex tex.

(** ** GPUOffScreen

    The [GPUOffScreen] struct is only ever reached through the one pointer
    its creator holds, so it is passed by value; [NULL] is [None]. *)

Definition ofs_with_fb (p : option positive) (o : GPUOffScreen) : GPUOffScreen :=
  mkOfs p (ofs_color o) (ofs_depth o) (ofs_rbcolor o) (ofs_rbdepth o) (ofs_samples o).
Definition ofs_with_color (p : option positive) (o : GPUOffScreen) : GPUOffScreen :=
  mkOfs (ofs_fb o) p (ofs_depth o) (ofs_rbcolor o) (ofs_rbdepth o) (ofs_samples o).
Definition ofs_with_depth (p : option positive) (o : GPUOffScreen) : GPUOffScreen :=
  mkOfs (ofs_fb o) (ofs_color o) p (ofs_rbcolor o) (ofs_rbdepth o) (ofs_samples o).
Definition ofs_with_rbcolor (p : option positive) (o : GPUOffScreen) : GPUOffScreen :=
  mkOfs (ofs_fb o) (ofs_color o) (ofs_depth o) p (ofs_rbdepth o) (ofs_samples o).
Definition ofs_with_rbdepth (p : option positive) (o : GPUOffScreen) : GPUOffScreen :=
  mkOfs (ofs_fb o) (ofs_color o) (ofs_depth o) (ofs_rbcolor o) p (ofs_samples o).
Definition ofs_with_samples (n : Z) (o : GPUOffScreen) : GPUOffScreen :=
  mkOfs (ofs_fb o) (ofs_color o) (ofs_depth o) (ofs_rbcolor o) (ofs_rbdepth o) n.

Definition GPU_offscreen_free (ofs : GPUOffScreen) : M unit :=
  when (negb (is_null (ofs_fb ofs))) (GPU_framebuffer_free (ofs_fb ofs)) ;;;
  when (negb (is_null (ofs_color ofs))) (GPU_texture_free (ofs_color ofs)) ;;;
  when (negb (is_null (ofs_depth ofs))) (GPU_texture_free (ofs_depth ofs)) ;;;
  when (negb (is_null (ofs_rbcolor ofs))) (GPU_renderbuffer_free (ofs_rbcolor ofs)) ;;;
  when (negb (is_null (ofs_rbdepth ofs))) (GPU_renderbuffer_free (ofs_rbdepth ofs)).

(** [mode & flag] as a C condition. *)
Definition mode_has (mode flag : Z) : bool := negb (Z.land mode flag =? 0).

(** The capability test of [GPU_offscreen_create] that sends [samples] to 0. *)
Definition multisample_unsupported (mode : Z) : bool :=
  negb (GLEW_EXT_framebuffer_multisample dev)
  || (negb (GLEW_ARB_texture_multisample dev)
      && (negb (mode_has mode GPU_OFFSCREEN_RENDERBUFFER_COLOR)
          || negb (mode_has mode GPU_OFFSCREEN_RENDERBUFFER_DEPTH)))
  || negb (GLEW_EXT_framebuffer_blit dev).

Definition clamp_samples (samples mode : Z) : Z :=
  if negb (samples =? 0) then
    if multisample_unsupported mode then 0 else samples
  else samples.

(** [GPU_offscreen_free(ofs); return NULL;] *)
Definition free_and_fail (ofs : GPUOffScreen) : M (option GPUOffScreen) :=
  GPU_offscreen_free ofs ;;;
  ret None.

(** The colour half of [GPU_offscreen_create]: [None] after a failure,
    which has freed everything. *)
Definition offscreen_create_color (width height samples : Z)
    (data_type : GPUTextureFormat) (mode : Z) (ofs : GPUOffScreen) : M (option GPUOffScreen) :=
  if mode_has mode GPU_OFFSCREEN_RENDERBUFFER_COLOR then
    do rb <- GPU_renderbuffer_create width height samples data_type GPU_RENDERBUFFER_COLOR;
    let ofs := ofs_with_rbcolor rb ofs in
    if is_null rb then free_and_fail ofs
    else
      do ok <- GPU_framebuffer_renderbuffer_attach dev (ofs_fb ofs) (ofs_rbcolor ofs) 0;
      if negb ok then free_and_fail ofs else ret (Some ofs)
  else
    do t <- GPU_texture_create_2D_custom width height 4 data_type samples;
    let ofs := ofs_with_color t ofs in
    if is_null t then free_and_fail ofs
    else
      do ok <- GPU_framebuffer_texture_attach (ofs_fb ofs) (ofs_depth ofs) 0 0;
      if negb ok then free_and_fail ofs else ret (Some ofs).

(** The depth half. *)
Definition offscreen_create_depth (width height samples : Z)
    (data_type : GPUTextureFormat) (mode : Z) (ofs : GPUOffScreen) : M (option GPUOffScreen) :=
  if mode_has mode GPU_OFFSCREEN_RENDERBUFFER_DEPTH then
    do rb <- GPU_renderbuffer_create width height samples data_type GPU_RENDERBUFFER_DEPTH;
    let ofs := ofs_with_rbdepth rb ofs in
    if is_null rb then free_and_fail ofs
    else
      do ok <- GPU_framebuffer_renderbuffer_attach dev (ofs_fb ofs) (ofs_rbdepth ofs) 0;
      if negb ok then free_and_fail ofs else ret (Some ofs)
  else
    do t <- GPU_texture_create_depth_multisample width height samples;
    let ofs := ofs_with_depth t ofs in
    if is_null t then free_and_fail ofs
    else
      GPU_texture_compare_mode (ofs_depth ofs) (mode_has mode GPU_OFFSCREEN_DEPTH_COMPARE) ;;;
      do ok <- GPU_framebuffer_texture_attach (ofs_fb ofs) (ofs_color ofs) 0 0;
      if negb ok then free_and_fail ofs else ret (Some ofs).

(** The validity check at the very end. *)
Definition offscreen_create_finish (ofs : GPUOffScreen) : M (option GPUOffScreen) :=
  do ok <- GPU_framebuffer_check_valid dev (ofs_fb ofs);
  if negb ok then free_and_fail ofs
  else
    GPU_framebuffer_restore ;;;
    ret (Some ofs).

Definition GPU_offscreen_create (width height samples : Z)
    (data_type : GPUTextureFormat) (mode : Z) : M (option GPUOffScreen) :=
  let ofs := mkOfs None None None None None 0 in
  do fb <- GPU_framebuffer_create dev;
  let ofs := ofs_with_fb fb ofs in
  if is_null fb then free_and_fail ofs
  else
    let samples := clamp_samples samples mode in
    let ofs := ofs_with_samples samples ofs in
    do r <- offscreen_create_color width height samples data_type mode ofs;
    match r with
    | None => ret None
    | Some ofs =>
        do r <- offscreen_create_depth width height samples data_type mode ofs;
        match r with
        | None => ret None
        | Some ofs => offscreen_create_finish ofs
        end
    end.

End DeviceSurfaces.

Definition GPU_offscreen_width (ofs : GPUOffScreen) : M Z :=
  if negb (is_null (ofs_color ofs)) then GPU_texture_width (ofs_color ofs)
  else if negb (is_null (ofs_rbcolor ofs)) then GPU_renderbuffer_width (ofs_rbcolor ofs)
  else ret 0.

Definition GPU_offscreen_height (ofs : GPUOffScreen) : M Z :=
  if negb (is_null (ofs_color ofs)) then GPU_texture_height (ofs_color ofs)
  else if negb (is_null (ofs_rbcolor ofs)) then GPU_renderbuffer_height (ofs_rbcolor ofs)
  else ret 0.

Definition GPU_offscreen_samples (ofs : GPUOffScreen) : Z := ofs_samples ofs.

(** Modelled from the spec: [min_ff] of BLI_math_base, a header this
    development does not have: the minimum of its two arguments.  It is
    declared on C floats; surface dimensions are far below 2^24, where the
    conversion of an [int] to [float] and back is the identity. *)
Definition min_ff (a b : Z) : Z := Z.min a b.

Definition blit_mask (color depth : bool) : Z :=
  let mask := 0 in
  let mask := if color then Z.lor mask GL_COLOR_BUFFER_BIT else mask in
  let mask := if depth then Z.lor mask GL_DEPTH_BUFFER_BIT else mask in
  mask.

Definition GPU_offscreen_blit (srcofs dstofs : GPUOffScreen) (color depth : bool) : M unit :=
  BLI_assert (color || depth) ;;;
  do sf <- load_fb (ofs_fb srcofs);
  gl (glBindFramebuffer GL_READ_FRAMEBUFFER (fb_object sf)) ;;;
  do df <- load_fb (ofs_fb dstofs);
  gl (glBindFramebuffer GL_DRAW_FRAMEBUFFER (fb_object df)) ;;;
  gl (glDrawBuffer GL_COLOR_ATTACHMENT0) ;;;
  gl (glReadBuffer GL_COLOR_ATTACHMENT0) ;;;
  do hs <- GPU_offscreen_height srcofs;
  do hd <- GPU_offscreen_height dstofs;
  let height := min_ff hs hd in
  do ws <- GPU_offscreen_width srcofs;
  do wd <- GPU_offscreen_width dstofs;
  let width := min_ff ws wd in
  let mask := blit_mask color depth in
  gl (glBlitFramebuffer 0 0 width height 0 0 width height mask GL_NEAREST) ;;;
  GPU_framebuffer_bind_simple (ofs_fb dstofs).

(** * Specification vocabulary *)

(** The framebuffer struct after [tex] (whose struct is [tv]) went into its
    role's slot, and after it was taken out of the slot its back-reference
    records. *)
Definition fb_attach_tex (tv : GPUTexture) (tex : positive) (slot : Z)
    (fv : GPUFrameBuffer) : GPUFrameBuffer :=
  if tex_depth tv then with_depthtex (Some tex) fv
  else with_colortex (<[Z.to_nat slot := Some tex]> (colortex fv)) fv.

Definition fb_detach_tex (tv : GPUTexture) (fv : GPUFrameBuffer) : GPUFrameBuffer :=
  if tex_depth tv then with_depthtex None fv
  else with_colortex (<[Z.to_nat (tex_fb_attachment tv) := None]> (colortex fv)) fv.

(** The forward entry of [fv] for the role of [tv] at [slot]. *)
Definition fb_slot_entry (tv : GPUTexture) (slot : Z) (fv : GPUFrameBuffer)
  : option (option positive) :=
  if tex_depth tv then Some (depthtex fv) else colortex fv !! Z.to_nat slot.

(** A surface with no back-reference: what [GPU_texture_framebuffer_set(tex,
    NULL, -1)] leaves. *)
Definition tex_unattached (tv : GPUTexture) : Prop :=
  tex_fb tv = None ∧ tex_fb_attachment tv = -1.

Definition tex_detached (s : state) (t : positive) : Prop :=
  ∃ tv, texs s !! t = Some tv ∧ tex_unattached tv.

Definition rb_detached (s : state) (r : positive) : Prop :=
  ∃ rv, rbs s !! r = Some rv ∧ rb_fb rv = None ∧ rb_fb_attachment rv = -1.

(** Indices of the occupied colour slots, in ascending order. *)
Definition occupied_slots (l : list (option positive)) : list nat :=
  filter (λ i, is_Some (mjoin (l !! i))) (seq 0 4).

Definition color_attachment (i : nat) : Z := GL_COLOR_ATTACHMENT0 + Z.of_nat i.

(** The texture whose size [GPU_framebuffer_bind] hands to [glViewport]. *)
Definition bind_viewport_tex (fv : GPUFrameBuffer) : option positive :=
  match last (occupied_slots (colortex fv)) with
  | Some i => mjoin (colortex fv !! i)
  | None => depthtex fv
  end.

(** The texture in the first occupied colour slot, else the depth texture. *)
Definition first_surface (fv : GPUFrameBuffer) : option positive :=
  match head (occupied_slots (colortex fv)) with
  | Some i => mjoin (colortex fv !! i)
  | None => depthtex fv
  end.

Definition bind_calls (fv : GPUFrameBuffer) (w h : Z) : list glcall :=
  let slots := occupied_slots (colortex fv) in
  [glBindFramebuffer GL_FRAMEBUFFER (fb_object fv)] ++
  (match slots with
   | [] => [glDrawBuffer GL_NONE; glReadBuffer GL_NONE]
   | i :: _ => [glDrawBuffers (Z.of_nat (length slots)) (color_attachment <$> slots);
                glReadBuffer (color_attachment i)]
   end) ++
  [glViewport 0 0 w h].

(** Forward and back references of one framebuffer agree. *)
Record fb_consistent (s : state) (fb : positive) (fv : GPUFrameBuffer) : Prop := {
  fc_lookup : fbs s !! fb = Some fv;
  fc_len_tex : length (colortex fv) = 4%nat;
  fc_len_rb : length (colorrb fv) = 4%nat;
  fc_colortex : ∀ i t, colortex fv !! i = Some (Some t) →
    ∃ tv, texs s !! t = Some tv ∧ tex_fb tv = Some fb
          ∧ tex_fb_attachment tv = Z.of_nat i ∧ tex_depth tv = false;
  fc_depthtex : ∀ t, depthtex fv = Some t →
    ∃ tv, texs s !! t = Some tv ∧ tex_fb tv = Some fb ∧ tex_depth tv = true;
  fc_colorrb : ∀ i r, colorrb fv !! i = Some (Some r) →
    ∃ rv, rbs s !! r = Some rv ∧ rb_fb rv = Some fb
          ∧ rb_fb_attachment rv = Z.of_nat i ∧ rb_depth rv = false;
  fc_depthrb : ∀ r, depthrb fv = Some r →
    ∃ rv, rbs s !! r = Some rv ∧ rb_fb rv = Some fb ∧ rb_depth rv = true
}.

(** Some texture or renderbuffer is attached. *)
Definition has_attachment (fv : GPUFrameBuffer) : bool :=
  negb (is_null (depthtex fv)) || existsb (λ o, negb (is_null o)) (colortex fv)
  || negb (is_null (depthrb fv)) || existsb (λ o, negb (is_null o)) (colorrb fv).

(** The size of an offscreen buffer as [GPU_offscreen_width] and
    [GPU_offscreen_height] report it. *)
Definition ofs_size (s : state) (ofs : GPUOffScreen) (w h : Z) : Prop :=
  match ofs_color ofs with
  | Some c => ∃ tv, texs s !! c = Some tv ∧ tex_w tv = w ∧ tex_h tv = h
  | None =>
      match ofs_rbcolor ofs with
      | Some r => ∃ rv, rbs s !! r = Some rv ∧ rb_width rv = w ∧ rb_height rv = h
      | None => w = 0 ∧ h = 0
      end
  end.

(** A place of a framebuffer that holds a surface: the depth slot or colour
    slot [i]. *)
Inductive place := PDepth | PColor (i : nat).

#[global] Instance place_eq_dec : EqDecision place.
Proof. solve_decision. Defined.

Definition tex_at (fv : GPUFrameBuffer) (p : place) : option (option positive) :=
  match p with
  | PDepth => Some (depthtex fv)
  | PColor i => colortex fv !! i
  end.

Definition rb_at (fv : GPUFrameBuffer) (p : place) : option (option positive) :=
  match p with
  | PDepth => Some (depthrb fv)
  | PColor i => colorrb fv !! i
  end.

Definition clear_tex (p : place) (fv : GPUFrameBuffer) : GPUFrameBuffer :=
  match p with
  | PDepth => with_depthtex None fv
  | PColor i => with_colortex (<[i := None]> (colortex fv)) fv
  end.

Definition clear_rb (p : place) (fv : GPUFrameBuffer) : GPUFrameBuffer :=
  match p with
  | PDepth => with_depthrb None fv
  | PColor i => with_colorrb (<[i := None]> (colorrb fv)) fv
  end.

(** The back-reference of texture [t] (renderbuffer [r]) names place [p] of
    framebuffer [fb]. *)
Definition tex_good (s : state) (fb : positive) (p : place) (t : positive) : Prop :=
  ∃ tv, texs s !! t = Some tv ∧ tex_fb tv = Some fb
        ∧ match p with
          | PDepth => tex_depth tv = true
          | PColor i => tex_depth tv = false ∧ tex_fb_attachment tv = Z.of_nat i
          end.

Definition rb_good (s : state) (fb : positive) (p : place) (r : positive) : Prop :=
  ∃ rv, rbs s !! r = Some rv ∧ rb_fb rv = Some fb
        ∧ match p with
          | PDepth => rb_depth rv = true
          | PColor i => rb_depth rv = false ∧ rb_fb_attachment rv = Z.of_nat i
          end.

(** What holds between the force-detaches of [GPU_framebuffer_free], started
    in state [s0] on framebuffer [fb] with struct [fv0]: each place is either
    as it was, with its surface untouched, or emptied, with its surface
    detached; the bound handle changed only if something was detached. *)
Record free_inv (s0 : state) (fb : positive) (fv0 : GPUFrameBuffer)
    (s : state) (fv : GPUFrameBuffer) : Prop := {
  fi_lookup : fbs s !! fb = Some fv;
  fi_object : fb_object fv = fb_object fv0;
  fi_len_tex : length (colortex fv) = 4%nat;
  fi_len_rb : length (colorrb fv) = 4%nat;
  fi_tex : ∀ p t, tex_at fv0 p = Some (Some t) →
    (tex_at fv p = Some (Some t) ∧ texs s !! t = texs s0 !! t)
    ∨ (tex_at fv p = Some None ∧ tex_detached s t);
  fi_tex_none : ∀ p, tex_at fv0 p = Some None → tex_at fv p = Some None;
  fi_rb : ∀ p r, rb_at fv0 p = Some (Some r) →
    (rb_at fv p = Some (Some r) ∧ rbs s !! r = rbs s0 !! r)
    ∨ (rb_at fv p = Some None ∧ rb_detached s r);
  fi_rb_none : ∀ p, rb_at fv0 p = Some None → rb_at fv p = Some None;
  fi_bound :
    (GG_currentfb s = GG_currentfb s0 ∧ fv = fv0)
    ∨ (GG_currentfb s = fb_object fv0 ∧ has_attachment fv0 = true)
}.

(** No texture (no renderbuffer) is left in the framebuffer. *)
Definition tex_cleared (fv : GPUFrameBuffer) : Prop :=
  depthtex fv = None ∧ ∀ i, (i < 4)%nat → colortex fv !! i = Some None.

Definition rb_cleared (fv : GPUFrameBuffer) : Prop :=
  depthrb fv = None ∧ ∀ i, (i < 4)%nat → colorrb fv !! i = Some None.

(** The calls [free_release] makes for a framebuffer with handle [obj] when
    [cur] is the bound handle. *)
Definition release_calls (obj cur : Z) : list glcall :=
  if obj =? 0 then []
  else glDeleteFramebuffers obj ::
       (if cur =? obj then [glBindFramebuffer GL_FRAMEBUFFER 0] else []).

(** ** Concrete devices and states used in the examples *)

Definition fresh_name (t : list glcall) : Z := 1 + Z.of_nat (length t).

Definition dev_full : device :=
  mkDev true true true fresh_name fresh_name fresh_name
        (λ _, GL_NO_ERROR) (λ _, GL_FRAMEBUFFER_COMPLETE).

Definition dev_no_blit : device :=
  mkDev true true false fresh_name fresh_name fresh_name
        (λ _, GL_NO_ERROR) (λ _, GL_FRAMEBUFFER_COMPLETE).

Definition dev_no_texture_multisample : device :=
  mkDev true false true fresh_name fresh_name fresh_name
        (λ _, GL_NO_ERROR) (λ _, GL_FRAMEBUFFER_COMPLETE).

(** Both surfaces renderbuffer-backed. *)
Definition mode_renderbuffers : Z :=
  Z.lor GPU_OFFSCREEN_RENDERBUFFER_COLOR GPU_OFFSCREEN_RENDERBUFFER_DEPTH.

Definition st_empty : state := mkSt ∅ ∅ ∅ 1%positive 0 false [] [] [].

Definition ex_color_tex (w h : Z) (fb : option positive) (att : Z) : GPUTexture :=
  mkTex w h GL_TEXTURE_2D 21 (-1) false false fb att.
Definition ex_depth_tex (w h : Z) (fb : option positive) (att : Z) : GPUTexture :=
  mkTex w h GL_TEXTURE_2D 22 (-1) true false fb att.

Definition ex_fb_empty (obj : Z) : GPUFrameBuffer :=
  mkFB obj [None; None; None; None] None [None; None; None; None] None.

(** Framebuffers 1 (handle 11, texture 3 in slot 0) and 2 (handle 12, empty);
    texture 3 points back to (1, 0). *)
Definition st_two_targets : state :=
  mkSt {[ 1%positive := mkFB 11 [Some 3%positive; None; None; None] None
                              [None; None; None; None] None;
          2%positive := ex_fb_empty 12 ]}
       {[ 3%positive := ex_color_tex 64 64 (Some 1%positive) 0 ]}
       ∅ 4%positive 11 false [] [] [].

(** Framebuffer 1 (handle 11) with a 64x64 texture in slot 0 and a 128x256
    texture in slot 1. *)
Definition st_two_sizes : state :=
  mkSt {[ 1%positive := mkFB 11 [Some 2%positive; Some 3%positive; None; None] None
                              [None; None; None; None] None ]}
       {[ 2%positive := ex_color_tex 64 64 (Some 1%positive) 0;
          3%positive := ex_color_tex 128 256 (Some 1%positive) 1 ]}
       ∅ 4%positive 0 false [] [] [].

(** Framebuffer 1 (handle 11, empty), an unattached colour texture 2 and an
    unattached depth texture 3; handle 7 is bound. *)
Definition st_unattached : state :=
  mkSt {[ 1%positive := ex_fb_empty 11 ]}
       {[ 2%positive := ex_color_tex 64 64 None (-1);
          3%positive := ex_depth_tex 64 64 None (-1) ]}
       ∅ 4%positive 7 false [] [] [].

(** Framebuffer 1 (handle 11) holding colour texture 2 in slot 1, depth
    texture 3 and colour renderbuffer 4 in slot 0; handle 7 is bound. *)
Definition st_attached : state :=
  mkSt {[ 1%positive := mkFB 11 [None; Some 2%positive; None; None] (Some 3%positive)
                              [Some 4%positive; None; None; None] None ]}
       {[ 2%positive := ex_color_tex 64 64 (Some 1%positive) 1;
          3%positive := ex_depth_tex 64 64 (Some 1%positive) 0 ]}
       {[ 4%positive := mkRB 64 64 0 (Some 1%positive) 0 false 31 ]}
       5%positive 7 false [] [] [].

(** Two renderbuffer-backed offscreen buffers, 64x32 and 48x40. *)
Definition st_two_offscreens : state :=
  mkSt {[ 1%positive := mkFB 11 [None; None; None; None] None
                              [Some 3%positive; None; None; None] None;
          2%positive := mkFB 12 [None; None; None; None] None
                              [Some 4%positive; None; None; None] None ]}
       ∅
       {[ 3%positive := mkRB 64 32 0 (Some 1%positive) 0 false 31;
          4%positive := mkRB 48 40 0 (Some 2%positive) 0 false 32 ]}
       5%positive 0 false [] [] [].
Definition ex_ofs_src : GPUOffScreen :=
  mkOfs (Some 1%positive) None None (Some 3%positive) None 0.
Definition ex_ofs_dst : GPUOffScreen :=
  mkOfs (Some 2%positive) None None (Some 4%positive) None 0.

(** * Further operations of the file *)

Definition GPU_framebuffer_bind_no_save (fb : option positive) (slot : Z) : M unit :=
  do f <- load_fb fb;
  gl (glBindFramebuffer GL_FRAMEBUFFER (fb_object f)) ;;;
  gl (glDrawBuffer (GL_COLOR_ATTACHMENT0 + slot)) ;;;
  gl (glReadBuffer (GL_COLOR_ATTACHMENT0 + slot)) ;;;
  do tex <- load_colortex fb slot;
  do w <- GPU_texture_width tex;
  do h <- GPU_texture_height tex;
  gl (glViewport 0 0 w h) ;;;
  modify (set_currentfb (fb_object f)).

(** Body of the slot loop of [GPU_framebuffer_bind_all_attachments]; the
    accumulator is [attachments[0..slots)]. *)
Definition bind_all_loop_body (fb : option positive) (i : nat) (attachments : list Z)
  : M (list Z) :=
  do t <- load_colortex fb (Z.of_nat i);
  if is_null t then ret attachments
  else ret (attachments ++ [GL_COLOR_ATTACHMENT0 + Z.of_nat i]).

Definition GPU_framebuffer_bind_all_attachments (fb : option positive) : M unit :=
  do attachments <- for_acc 0 4 (bind_all_loop_body fb) [];
  let slots := Z.of_nat (length attachments) in
  do f <- load_fb fb;
  gl (glBindFramebuffer GL_FRAMEBUFFER (fb_object f)) ;;;
  gl (glDrawBuffers slots attachments) ;;;
  gl (glReadBuffer GL_COLOR_ATTACHMENT0) ;;;
  modify (set_currentfb (fb_object f)).

Definition GPU_offscreen_bind_simple (ofs : GPUOffScreen) : M unit :=
  GPU_framebuffer_bind_simple (ofs_fb ofs).

Definition GPU_offscreen_color_texture (ofs : GPUOffScreen) : M Z :=
  GPU_texture_opengl_bindcode (ofs_color ofs).

Definition GPU_offscreen_texture (ofs : GPUOffScreen) : option positive := ofs_color ofs.

Definition GPU_offscreen_depth_texture (ofs : GPUOffScreen) : option positive := ofs_depth ofs.

(** ** More specification vocabulary *)

(** The attachment point a texture goes to: its role decides, the slot only
    counts for a colour texture. *)
Definition attachment_point (tv : GPUTexture) (slot : Z) : Z :=
  if tex_stencil tv && tex_depth tv then GL_DEPTH_STENCIL_ATTACHMENT
  else if tex_depth tv then GL_DEPTH_ATTACHMENT
  else GL_COLOR_ATTACHMENT0 + slot.

Definition rb_attachment_point (rv : GPURenderBuffer) (slot : Z) : Z :=
  if rb_depth rv then GL_DEPTH_ATTACHMENT else GL_COLOR_ATTACHMENT0 + slot.

Definition fb_attach_rb (rv : GPURenderBuffer) (rb : positive) (slot : Z)
    (fv : GPUFrameBuffer) : GPUFrameBuffer :=
  if rb_depth rv then with_depthrb (Some rb) fv
  else with_colorrb (<[Z.to_nat slot := Some rb]> (colorrb fv)) fv.

Definition fb_detach_rb (rv : GPURenderBuffer) (fv : GPUFrameBuffer) : GPUFrameBuffer :=
  if rb_depth rv then with_depthrb None fv
  else with_colorrb (<[Z.to_nat (rb_fb_attachment rv) := None]> (colorrb fv)) fv.

Definition fb_rb_entry (rv : GPURenderBuffer) (slot : Z) (fv : GPUFrameBuffer)
  : option (option positive) :=
  if rb_depth rv then Some (depthrb fv) else colorrb fv !! Z.to_nat slot.

(** Every pending error flag is a real error. *)
Definition errors_pending (q : list Z) : Prop := Forall (λ e, e ≠ GL_NO_ERROR) q.

(** The warning [GPU_framebuffer_texture_attach_target] prints in debug mode
    for a texture that is bound to a texture unit. *)
Definition feedback_warning (s : state) (tv : GPUTexture) : list string :=
  if G_debug s && negb (tex_number tv =? -1) then [feedback_loop_msg] else [].

(** The bind call a detach makes when the framebuffer is not the current
    one. *)
Definition rebind_calls (s : state) (fv : GPUFrameBuffer) : list glcall :=
  if GG_currentfb s =? fb_object fv then []
  else [glBindFramebuffer GL_FRAMEBUFFER (fb_object fv)].

(** A new framebuffer struct with device name [name]. *)
Definition fb_new (name : Z) : GPUFrameBuffer :=
  mkFB name [None; None; None; None] None [None; None; None; None] None.

Definition rb_storage_call (width height samples internalformat : Z) : glcall :=
  if 0 <? samples then
    glRenderbufferStorageMultisample GL_RENDERBUFFER samples internalformat width height
  else glRenderbufferStorage GL_RENDERBUFFER internalformat width height.

Definition rb_type_format (data_type : GPUTextureFormat) (type : GPURenderBufferType) : Z :=
  match type with
  | GPU_RENDERBUFFER_DEPTH => GL_DEPTH_COMPONENT
  | GPU_RENDERBUFFER_COLOR => renderbuffer_internalformat data_type
  end.

Definition rb_type_depth (type : GPURenderBufferType) : bool :=
  match type with
  | GPU_RENDERBUFFER_DEPTH => true
  | GPU_RENDERBUFFER_COLOR => false
  end.

(** The struct of the framebuffer inside an offscreen buffer whose surfaces
    are renderbuffers: colour renderbuffer [c] in slot 0 and depth
    renderbuffer [d], either of them possibly not attached yet. *)
Definition ofs_fb_struct (name : Z) (c d : option positive) : GPUFrameBuffer :=
  mkFB name [None; None; None; None] None [c; None; None; None] d.

(** The renderbuffer pointer [ptr] of an offscreen buffer and the entry
    [held] of its framebuffer [fb] agree: no renderbuffer at all, one that
    is attached nowhere, or one attached to [fb] at slot 0. *)
Definition rb_owned (s : state) (fb : positive) (depth : bool)
    (held ptr : option positive) : Prop :=
  match ptr with
  | None => held = None
  | Some r =>
      ∃ rv, rbs s !! r = Some rv ∧ rb_depth rv = depth
        ∧ ((held = None ∧ rb_fb rv = None)
           ∨ (held = Some r ∧ rb_fb rv = Some fb ∧ rb_fb_attachment rv = 0))
  end.

(** The heap without the struct that [p] points to, if [p] is not NULL. *)
Definition delete_opt {A} (p : option positive) (m : gmap positive A) : gmap positive A :=
  match p with
  | Some a => delete a m
  | None => m
  end.

(** ** More concrete devices and states *)

(** A device that cannot allocate anything. *)
Definition dev_no_alloc : device :=
  mkDev true true true (λ _, 0) (λ _, 0) (λ _, 0)
        (λ _, GL_NO_ERROR) (λ _, GL_FRAMEBUFFER_COMPLETE).

(** A device that rejects every renderbuffer attachment. *)
Definition dev_reject_attach : device :=
  mkDev true true true fresh_name fresh_name fresh_name
        (λ _, GL_INVALID_OPERATION) (λ _, GL_FRAMEBUFFER_COMPLETE).

(** A device that finds every framebuffer incomplete. *)
Definition dev_incomplete : device :=
  mkDev true true true fresh_name fresh_name fresh_name
        (λ _, GL_NO_ERROR) (λ _, GL_FRAMEBUFFER_INCOMPLETE_MISSING_ATTACHMENT).

(** Framebuffer 1 (handle 11, empty) and an unattached colour renderbuffer 2
    and depth renderbuffer 3; handle 7 is bound and a stale error is
    pending. *)
Definition st_rb_unattached : state :=
  mkSt {[ 1%positive := ex_fb_empty 11 ]}
       ∅
       {[ 2%positive := mkRB 64 64 0 None (-1) false 31;
          3%positive := mkRB 64 64 0 None (-1) true 32 ]}
       4%positive 7 false [GL_INVALID_OPERATION] [] [].

(** As [st_unattached], in debug mode and with texture 2 bound to texture
    unit 0. *)
Definition st_debug_bound : state :=
  mkSt {[ 1%positive := ex_fb_empty 11 ]}
       {[ 2%positive := mkTex 64 64 GL_TEXTURE_2D 21 0 false false None (-1);
          3%positive := ex_depth_tex 64 64 None (-1) ]}
       ∅ 4%positive 7 true [] [] [].

(** Framebuffer 1 holds texture 2 in slot 0; texture 3 is attached nowhere. *)
Definition st_slot_taken : state :=
  mkSt {[ 1%positive := mkFB 11 [Some 2%positive; None; None; None] None
                              [None; None; None; None] None ]}
       {[ 2%positive := ex_color_tex 64 64 (Some 1%positive) 0;
          3%positive := ex_color_tex 32 32 None (-1) ]}
       ∅ 4%positive 11 false [] [] [].

(** * Running the embedding symbolically *)

Ltac unfold_m :=
  unfold bind, ret, fault, get_state, modify, when, gl, fprintf_stderr, BLI_assert,
         load_fb, load_tex, load_rb, update_fb, update_tex, update_rb.

Ltac run :=
  repeat first
    [ progress unfold_m
    | progress cbn beta iota delta
        [fbs texs rbs next_addr GG_currentfb G_debug gl_errors gl_trace stderr
         set_fbs set_texs set_rbs set_next_addr set_currentfb set_gl_errors
         set_gl_trace set_stderr is_null negb andb orb]
    | rewrite lookup_insert_eq
    | match goal with
      | H : ?m !! ?k = Some _ |- context [?m !! ?k] => rewrite H
      | H : ?b = true |- context [if ?b then _ else _] => rewrite H
      | H : ?b = false |- context [if ?b then _ else _] => rewrite H
      end ].

Lemma bind_Ok {A B} (m : M A) (k : A → M B) s a s' :
  m s = Ok a s' → bind m k s = k a s'.
Proof. intros H. unfold bind. by rewrite H. Qed.

Lemma bind_inv_Ok {A B} (m : M A) (k : A → M B) s b s2 :
  bind m k s = Ok b s2 → ∃ a s1, m s = Ok a s1 ∧ k a s1 = Ok b s2.
Proof. unfold bind. destruct (m s) as [a s1| |]; [eauto | done | done]. Qed.

Lemma slot_index_valid slot :
  0 <= slot < 4 → slot_index slot = Some (Z.to_nat slot).
Proof.
  intros H. unfold slot_index, GPU_FB_MAX_SLOTS.
  replace (0 <=? slot) with true by lia.
  replace (slot <? 4) with true by lia. done.
Qed.

Lemma slot_index_of_nat (i : nat) :
  (i < 4)%nat → slot_index (Z.of_nat i) = Some i.
Proof. intros H. rewrite slot_index_valid by lia. by rewrite Nat2Z.id. Qed.

(** ** What a successful attach and detach do to the heap *)

Lemma attach_target_spec fb tex fv tv target slot mip s :
  fbs s !! fb = Some fv → texs s !! tex = Some tv → slot < 4 →
  (tex_depth tv = false → 0 <= slot ∧ length (colortex fv) = 4%nat) →
  ∃ s', GPU_framebuffer_texture_attach_target (Some fb) (Some tex) target slot mip s
          = Ok true s'
    ∧ fbs s' = <[fb := fb_attach_tex tv tex slot fv]> (fbs s)
    ∧ texs s' = <[tex := tex_set_fb (Some fb) slot tv]> (texs s)
    ∧ rbs s' = rbs s
    ∧ GG_currentfb s' = fb_object fv.
Proof.
  intros Hfb Htex Hslot Hcol.
  unfold GPU_framebuffer_texture_attach_target, fb_attach_tex.
  replace (GPU_FB_MAX_SLOTS <=? slot) with false by (unfold GPU_FB_MAX_SLOTS; lia).
  unfold GPU_texture_stencil, GPU_texture_depth, GPU_texture_opengl_bindcode,
    GPU_texture_framebuffer_set, GPU_texture_bound_number, store_colortex, arr_write.
  destruct (tex_depth tv) eqn:Hd.
  - destruct (G_debug s) eqn:Hdbg; run;
      [destruct (tex_number tv =? -1); run|]; eauto 10.
  - destruct (Hcol eq_refl) as [H0 Hlen].
    rewrite slot_index_valid by lia.
    destruct (G_debug s) eqn:Hdbg; run;
      [destruct (tex_number tv =? -1); run|];
      (destruct (decide _) as [_|Hn]; [run; eauto 10 | exfalso; apply Hn; lia]).
Qed.

Lemma detach_target_unattached tex tv target s :
  texs s !! tex = Some tv → tex_fb tv = None →
  GPU_framebuffer_texture_detach_target (Some tex) target s = Ok tt s.
Proof.
  intros Htex Hfb.
  unfold GPU_framebuffer_texture_detach_target, GPU_texture_framebuffer,
    GPU_texture_framebuffer_attachment.
  run. rewrite Hfb. by run.
Qed.

Lemma detach_target_spec fb tex fv tv target s :
  texs s !! tex = Some tv → tex_fb tv = Some fb → fbs s !! fb = Some fv →
  (tex_depth tv = false →
     0 <= tex_fb_attachment tv < 4
     ∧ colortex fv !! Z.to_nat (tex_fb_attachment tv) = Some (Some tex)) →
  ∃ s', GPU_framebuffer_texture_detach_target (Some tex) target s = Ok tt s'
    ∧ fbs s' = <[fb := fb_detach_tex tv fv]> (fbs s)
    ∧ texs s' = <[tex := tex_set_fb None (-1) tv]> (texs s)
    ∧ rbs s' = rbs s
    ∧ GG_currentfb s' = fb_object fv.
Proof.
  intros Htex Hback Hfb Hcol.
  unfold GPU_framebuffer_texture_detach_target, GPU_texture_framebuffer,
    GPU_texture_framebuffer_attachment, GPU_texture_stencil, GPU_texture_depth,
    GPU_texture_framebuffer_set, load_colortex, store_colortex, arr_read, arr_write,
    fb_detach_tex.
  run. rewrite Hback. run.
  destruct (tex_depth tv) eqn:Hd.
  - destruct (GG_currentfb s =? fb_object fv) eqn:Hcur; run;
      destruct (tex_stencil tv); run;
      (eexists; split; [reflexivity|]; repeat split; try done; by apply Z.eqb_eq).
  - destruct (Hcol eq_refl) as [Hrange Hcur_slot].
    assert (Hlen : (Z.to_nat (tex_fb_attachment tv) < length (colortex fv))%nat)
      by (eapply lookup_lt_Some; eauto).
    rewrite slot_index_valid by lia.
    destruct (GG_currentfb s =? fb_object fv) eqn:Hcur; run;
      rewrite andb_false_r; run;
      rewrite bool_decide_eq_true_2 by done; run;
      (destruct (decide _) as [_|Hn]; [run | done]);
      (eexists; split; [reflexivity|]; repeat split; try done; by apply Z.eqb_eq).
Qed.

(** * Attach and detach *)

(** C6: for every target, surface, mip level and slot index with
    slot >= GPU_FB_MAX_SLOTS (4), both the texture attach and the
    renderbuffer attach return failure, and the run changes nothing but the
    message log: the framebuffer, texture and renderbuffer structs, the
    bound handle and the OpenGL call trace are as before. *)
Theorem attach_slot_out_of_range dev fb tex rb target slot mip s :
  GPU_FB_MAX_SLOTS <= slot →
  let s' := set_stderr (stderr s ++ [slot_unsupported_msg]) s in
  GPU_framebuffer_texture_attach_target fb tex target slot mip s = Ok false s'
  ∧ GPU_framebuffer_renderbuffer_attach dev fb rb slot s = Ok false s'
  ∧ (∀ t tv, tex = Some t → texs s !! t = Some tv →
       GPU_framebuffer_texture_attach fb tex slot mip s = Ok false s')
  ∧ fbs s' = fbs s ∧ texs s' = texs s ∧ rbs s' = rbs s
  ∧ GG_currentfb s' = GG_currentfb s ∧ gl_trace s' = gl_trace s.
Proof.
  intros Hslot s'.
  assert (Hge : (GPU_FB_MAX_SLOTS <=? slot) = true) by lia.
  assert (Htgt : ∀ tgt, GPU_framebuffer_texture_attach_target fb tex tgt slot mip s
                        = Ok false s').
  { intros tgt. unfold GPU_framebuffer_texture_attach_target. rewrite Hge. by run. }
  split; [apply Htgt|].
  split.
  { unfold GPU_framebuffer_renderbuffer_attach. rewrite Hge. by run. }
  split; [|done].
  intros t tv -> Ht.
  unfold GPU_framebuffer_texture_attach, GPU_texture_target.
  run. apply Htgt.
Qed.

Lemma attach_slot_out_of_range_witness :
  GPU_framebuffer_texture_attach_target (Some 1%positive) (Some 2%positive)
      GL_TEXTURE_2D 4 0 st_unattached
    = Ok false (set_stderr [slot_unsupported_msg] st_unattached)
  ∧ GPU_framebuffer_renderbuffer_attach dev_full (Some 1%positive) (Some 9%positive)
      4 st_unattached
    = Ok false (set_stderr [slot_unsupported_msg] st_unattached).
Proof.
  pose proof (attach_slot_out_of_range dev_full (Some 1%positive) (Some 2%positive)
                (Some 9%positive) GL_TEXTURE_2D 4 0 st_unattached) as H.
  destruct H as (H1 & H2 & _); [unfold GPU_FB_MAX_SLOTS; lia|].
  split; [exact H1 | exact H2].
Defined.

(** C10: for a depth or depth-stencil texture and any slot value s < 4,
    negative ones included, attach stores the texture in the single depth
    slot of the framebuffer and leaves the four colour slot entries (and
    the handle and the renderbuffer entries) as they were, so the slot
    argument does not select where the texture is stored; the
    back-reference of the texture is nonetheless (framebuffer, s).  The
    following detach clears the depth slot only, whatever s was recorded,
    and leaves the back-reference (NULL, -1). *)
Theorem depth_attach_ignores_slot fb tex fv tv target target' slot mip s :
  fbs s !! fb = Some fv → texs s !! tex = Some tv →
  tex_depth tv = true → slot < 4 →
  ∃ s1 s2 fv1 tv1 fv2 tv2,
    GPU_framebuffer_texture_attach_target (Some fb) (Some tex) target slot mip s
      = Ok true s1
    ∧ fbs s1 !! fb = Some fv1
    ∧ depthtex fv1 = Some tex
    ∧ colortex fv1 = colortex fv
    ∧ fb_object fv1 = fb_object fv ∧ colorrb fv1 = colorrb fv ∧ depthrb fv1 = depthrb fv
    ∧ texs s1 !! tex = Some tv1
    ∧ tex_fb tv1 = Some fb ∧ tex_fb_attachment tv1 = slot
    ∧ GPU_framebuffer_texture_detach_target (Some tex) target' s1 = Ok tt s2
    ∧ fbs s2 !! fb = Some fv2
    ∧ depthtex fv2 = None
    ∧ colortex fv2 = colortex fv
    ∧ fb_object fv2 = fb_object fv ∧ colorrb fv2 = colorrb fv ∧ depthrb fv2 = depthrb fv
    ∧ texs s2 !! tex = Some tv2
    ∧ tex_fb tv2 = None ∧ tex_fb_attachment tv2 = -1.
Proof.
  intros Hfb Htex Hd Hslot.
  destruct (attach_target_spec fb tex fv tv target slot mip s Hfb Htex Hslot)
    as (s1 & Hrun1 & Hfbs1 & Htexs1 & _ & _); [congruence|].
  unfold fb_attach_tex in Hfbs1. rewrite Hd in Hfbs1.
  assert (Hfb1 : fbs s1 !! fb = Some (with_depthtex (Some tex) fv))
    by (rewrite Hfbs1; apply lookup_insert_eq).
  assert (Htex1 : texs s1 !! tex = Some (tex_set_fb (Some fb) slot tv))
    by (rewrite Htexs1; apply lookup_insert_eq).
  destruct (detach_target_spec fb tex _ _ target' s1 Htex1 eq_refl Hfb1)
    as (s2 & Hrun2 & Hfbs2 & Htexs2 & _ & _); [cbn; congruence|].
  unfold fb_detach_tex in Hfbs2. cbn [tex_set_fb tex_depth] in Hfbs2.
  rewrite Hd in Hfbs2.
  exists s1, s2, (with_depthtex (Some tex) fv), (tex_set_fb (Some fb) slot tv),
    (with_depthtex None (with_depthtex (Some tex) fv)),
    (tex_set_fb None (-1) (tex_set_fb (Some fb) slot tv)).
  split; [exact Hrun1|]. split; [exact Hfb1|].
  do 5 (split; [reflexivity|]).
  split; [exact Htex1|]. do 2 (split; [reflexivity|]).
  split; [exact Hrun2|].
  split; [rewrite Hfbs2; apply lookup_insert_eq|].
  do 5 (split; [reflexivity|]).
  split; [rewrite Htexs2; apply lookup_insert_eq|].
  split; reflexivity.
Qed.

Lemma depth_attach_ignores_slot_witness :
  ∃ s1 s2 fv1 tv1 fv2 tv2,
    GPU_framebuffer_texture_attach_target (Some 1%positive) (Some 3%positive)
      GL_TEXTURE_2D 2 0 st_unattached = Ok true s1
    ∧ fbs s1 !! 1%positive = Some fv1
    ∧ depthtex fv1 = Some 3%positive
    ∧ colortex fv1 = colortex (ex_fb_empty 11)
    ∧ fb_object fv1 = fb_object (ex_fb_empty 11)
    ∧ colorrb fv1 = colorrb (ex_fb_empty 11) ∧ depthrb fv1 = depthrb (ex_fb_empty 11)
    ∧ texs s1 !! 3%positive = Some tv1
    ∧ tex_fb tv1 = Some 1%positive ∧ tex_fb_attachment tv1 = 2
    ∧ GPU_framebuffer_texture_detach_target (Some 3%positive) GL_TEXTURE_2D s1 = Ok tt s2
    ∧ fbs s2 !! 1%positive = Some fv2
    ∧ depthtex fv2 = None
    ∧ colortex fv2 = colortex (ex_fb_empty 11)
    ∧ fb_object fv2 = fb_object (ex_fb_empty 11)
    ∧ colorrb fv2 = colorrb (ex_fb_empty 11) ∧ depthrb fv2 = depthrb (ex_fb_empty 11)
    ∧ texs s2 !! 3%positive = Some tv2
    ∧ tex_fb tv2 = None ∧ tex_fb_attachment tv2 = -1.
Proof.
  apply (depth_attach_ignores_slot 1%positive 3%positive (ex_fb_empty 11)
           (ex_depth_tex 64 64 None (-1)) GL_TEXTURE_2D GL_TEXTURE_2D 2 0 st_unattached);
    [reflexivity | reflexivity | reflexivity | lia].
Defined.

Lemma fb_detach_attach_id tv tex slot fv fb :
  0 <= slot < 4 →
  fb_slot_entry tv slot fv = Some None →
  fb_detach_tex (tex_set_fb fb slot tv) (fb_attach_tex tv tex slot fv) = fv.
Proof.
  intros Hslot Hentry.
  unfold fb_detach_tex, fb_attach_tex, fb_slot_entry in *.
  cbn [tex_set_fb tex_depth tex_fb_attachment].
  destruct (tex_depth tv); destruct fv as [o ct dt cr dr]; cbn in *.
  - injection Hentry as ->. reflexivity.
  - unfold with_colortex. cbn. f_equal.
    rewrite list_insert_insert_eq. by apply list_insert_id.
Qed.

Lemma tex_set_fb_unattached tv fb slot :
  tex_unattached tv → tex_set_fb None (-1) (tex_set_fb fb slot tv) = tv.
Proof. intros [H1 H2]. destruct tv; cbn in *. by subst. Qed.

(** C7: for a texture attached nowhere, a target and a valid slot whose
    entry for the texture's role is empty, attach followed by detach brings
    the heap back: every framebuffer struct (so the target's slots), every
    texture struct (so the back-reference) and every renderbuffer struct is
    what it was before the attach. *)
Theorem attach_detach_round_trip fb tex fv tv target target' slot mip s :
  fbs s !! fb = Some fv → texs s !! tex = Some tv →
  length (colortex fv) = 4%nat → 0 <= slot < 4 →
  tex_unattached tv → fb_slot_entry tv slot fv = Some None →
  ∃ s1 s2,
    GPU_framebuffer_texture_attach_target (Some fb) (Some tex) target slot mip s
      = Ok true s1
    ∧ fbs s1 !! fb = Some (fb_attach_tex tv tex slot fv)
    ∧ fb_slot_entry tv slot (fb_attach_tex tv tex slot fv) = Some (Some tex)
    ∧ texs s1 !! tex = Some (tex_set_fb (Some fb) slot tv)
    ∧ GPU_framebuffer_texture_detach_target (Some tex) target' s1 = Ok tt s2
    ∧ fbs s2 = fbs s ∧ texs s2 = texs s ∧ rbs s2 = rbs s.
Proof.
  intros Hfb Htex Hlen Hslot Hun Hentry.
  destruct (attach_target_spec fb tex fv tv target slot mip s Hfb Htex)
    as (s1 & Hrun1 & Hfbs1 & Htexs1 & Hrbs1 & _); [lia | intros _; split; [lia|done] |].
  assert (Hfb1 : fbs s1 !! fb = Some (fb_attach_tex tv tex slot fv))
    by (rewrite Hfbs1; apply lookup_insert_eq).
  assert (Htex1 : texs s1 !! tex = Some (tex_set_fb (Some fb) slot tv))
    by (rewrite Htexs1; apply lookup_insert_eq).
  assert (Hheld : fb_slot_entry tv slot (fb_attach_tex tv tex slot fv) = Some (Some tex)).
  { unfold fb_slot_entry, fb_attach_tex. destruct (tex_depth tv); [done|].
    cbn. apply list_lookup_insert_eq. lia. }
  destruct (detach_target_spec fb tex _ _ target' s1 Htex1 eq_refl Hfb1)
    as (s2 & Hrun2 & Hfbs2 & Htexs2 & Hrbs2 & _).
  { cbn [tex_set_fb tex_depth tex_fb_attachment]. intros Hd. split; [done|].
    unfold fb_slot_entry in Hheld. by rewrite Hd in Hheld. }
  exists s1, s2. repeat split; try done.
  - rewrite Hfbs2, Hfbs1, insert_insert_eq, fb_detach_attach_id by done.
    by apply insert_id.
  - rewrite Htexs2, Htexs1, insert_insert_eq, tex_set_fb_unattached by done.
    by apply insert_id.
  - congruence.
Qed.

Lemma attach_detach_round_trip_witness :
  ∃ s1 s2,
    GPU_framebuffer_texture_attach_target (Some 1%positive) (Some 2%positive)
      GL_TEXTURE_2D 2 0 st_unattached = Ok true s1
    ∧ fbs s1 !! 1%positive
        = Some (fb_attach_tex (ex_color_tex 64 64 None (-1)) 2%positive 2 (ex_fb_empty 11))
    ∧ fb_slot_entry (ex_color_tex 64 64 None (-1)) 2
        (fb_attach_tex (ex_color_tex 64 64 None (-1)) 2%positive 2 (ex_fb_empty 11))
        = Some (Some 2%positive)
    ∧ texs s1 !! 2%positive
        = Some (tex_set_fb (Some 1%positive) 2 (ex_color_tex 64 64 None (-1)))
    ∧ GPU_framebuffer_texture_detach_target (Some 2%positive) GL_TEXTURE_2D s1 = Ok tt s2
    ∧ fbs s2 = fbs st_unattached ∧ texs s2 = texs st_unattached
    ∧ rbs s2 = rbs st_unattached.
Proof.
  apply (attach_detach_round_trip 1%positive 2%positive (ex_fb_empty 11)
           (ex_color_tex 64 64 None (-1)) GL_TEXTURE_2D GL_TEXTURE_2D 2 0 st_unattached);
    [reflexivity | reflexivity | reflexivity | lia | split; reflexivity | reflexivity].
Defined.

(** C1, as the code has it: attaching a texture that is attached to target
    T1 to another target T2 at slot2 makes the back-reference (T2, slot2)
    and puts the texture in T2's entry, so the back-reference and the entry
    of the target it names agree; T1's struct is not touched, so its former
    entry still holds the texture. *)
Theorem reattach_keeps_old_entry fb1 fb2 tex fv1 fv2 tv target slot slot2 mip s :
  fb1 ≠ fb2 →
  fbs s !! fb1 = Some fv1 → fbs s !! fb2 = Some fv2 → texs s !! tex = Some tv →
  tex_fb tv = Some fb1 → tex_fb_attachment tv = slot →
  fb_slot_entry tv slot fv1 = Some (Some tex) →
  length (colortex fv2) = 4%nat → 0 <= slot2 < 4 →
  ∃ s' tv' fv2',
    GPU_framebuffer_texture_attach_target (Some fb2) (Some tex) target slot2 mip s
      = Ok true s'
    ∧ texs s' !! tex = Some tv'
    ∧ tex_fb tv' = Some fb2 ∧ tex_fb_attachment tv' = slot2
    ∧ fbs s' !! fb2 = Some fv2'
    ∧ fb_slot_entry tv' slot2 fv2' = Some (Some tex)
    ∧ fbs s' !! fb1 = Some fv1
    ∧ fb_slot_entry tv' slot fv1 = Some (Some tex).
Proof.
  intros Hne Hfb1 Hfb2 Htex Hback Hatt Hentry Hlen Hslot2.
  destruct (attach_target_spec fb2 tex fv2 tv target slot2 mip s Hfb2 Htex)
    as (s' & Hrun & Hfbs & Htexs & _ & _); [lia | intros _; split; [lia|done] |].
  exists s', (tex_set_fb (Some fb2) slot2 tv), (fb_attach_tex tv tex slot2 fv2).
  repeat split; try done.
  - rewrite Htexs. apply lookup_insert_eq.
  - rewrite Hfbs. apply lookup_insert_eq.
  - unfold fb_slot_entry, fb_attach_tex. cbn [tex_set_fb tex_depth].
    destruct (tex_depth tv); [done|]. cbn. apply list_lookup_insert_eq. lia.
  - rewrite Hfbs, lookup_insert_ne by done. done.
Qed.

Lemma reattach_keeps_old_entry_witness :
  ∃ s' tv' fv2',
    GPU_framebuffer_texture_attach_target (Some 2%positive) (Some 3%positive)
      GL_TEXTURE_2D 1 0 st_two_targets = Ok true s'
    ∧ texs s' !! 3%positive = Some tv'
    ∧ tex_fb tv' = Some 2%positive ∧ tex_fb_attachment tv' = 1
    ∧ fbs s' !! 2%positive = Some fv2'
    ∧ fb_slot_entry tv' 1 fv2' = Some (Some 3%positive)
    ∧ fbs s' !! 1%positive
        = Some (mkFB 11 [Some 3%positive; None; None; None] None
                     [None; None; None; None] None)
    ∧ fb_slot_entry tv' 0
        (mkFB 11 [Some 3%positive; None; None; None] None [None; None; None; None] None)
        = Some (Some 3%positive).
Proof.
  apply (reattach_keeps_old_entry 1%positive 2%positive 3%positive
           (mkFB 11 [Some 3%positive; None; None; None] None [None; None; None; None] None)
           (ex_fb_empty 12) (ex_color_tex 64 64 (Some 1%positive) 0)
           GL_TEXTURE_2D 0 1 0 st_two_targets);
    [discriminate | reflexivity | reflexivity | reflexivity | reflexivity
    | reflexivity | reflexivity | reflexivity | lia].
Defined.

(** C1 as stated fails: texture 3 sits in slot 0 of framebuffer 1; after it
    is attached to slot 1 of framebuffer 2 its back-reference is (2, 1), yet
    slot 0 of framebuffer 1 is not empty: it still holds texture 3, which is
    now listed in two slots. *)
Lemma reattach_old_entry_not_emptied :
  ∃ s' fv1' fv2',
    GPU_framebuffer_texture_attach_target (Some 2%positive) (Some 3%positive)
      GL_TEXTURE_2D 1 0 st_two_targets = Ok true s'
    ∧ texs s' !! 3%positive = Some (ex_color_tex 64 64 (Some 2%positive) 1)
    ∧ fbs s' !! 2%positive = Some fv2'
    ∧ colortex fv2' !! 1%nat = Some (Some 3%positive)
    ∧ fbs s' !! 1%positive = Some fv1'
    ∧ colortex fv1' !! 0%nat = Some (Some 3%positive)
    ∧ colortex fv1' !! 0%nat ≠ Some None.
Proof.
  eexists _, _, _. split; [vm_compute; reflexivity|].
  repeat (split; [reflexivity|]). discriminate.
Qed.

(** * Binding *)

Ltac run_slots :=
  repeat first
    [ progress run
    | rewrite slot_index_of_nat by lia
    | progress cbn [for_acc for_loop fb_object colortex depthtex colorrb depthrb
                    bl_attachments bl_tex bl_readattachement length app]
    | progress change (@lookup nat (option positive) (list (option positive)) _) with
        (@list_lookup (option positive))
    | progress cbn [list_lookup]
    | progress match goal with
      | |- context [Z.of_nat ?n =? 0] =>
          let v := eval vm_compute in (Z.of_nat n =? 0) in
          change (Z.of_nat n =? 0) with v
      end ].

Ltac same_state :=
  unfold set_currentfb, set_gl_trace;
  cbn [fbs texs rbs next_addr GG_currentfb G_debug gl_errors gl_trace stderr];
  rewrite <- ?app_assoc; reflexivity.

Lemma bind_run fb fv t tv s :
  fbs s !! fb = Some fv → length (colortex fv) = 4%nat →
  bind_viewport_tex fv = Some t → texs s !! t = Some tv →
  GPU_framebuffer_bind (Some fb) s
    = Ok tt (set_currentfb (fb_object fv)
               (set_gl_trace (gl_trace s ++ bind_calls fv (tex_w tv) (tex_h tv)) s)).
Proof.
  intros Hfb Hlen Hview Htex.
  destruct fv as [o ct dt cr dr]. cbn in Hlen.
  destruct ct as [|a [|b [|c [|d [|]]]]]; try discriminate. clear Hlen.
  unfold GPU_framebuffer_bind, bind_loop_body, load_colortex, arr_read,
    GPU_texture_width, GPU_texture_height.
  destruct a, b, c, d; vm_compute in Hview; simplify_eq.
  all: run_slots; same_state.
Qed.

Lemma bind_fault fb fv s :
  fbs s !! fb = Some fv → length (colortex fv) = 4%nat →
  (∀ t, bind_viewport_tex fv = Some t → texs s !! t = None) →
  GPU_framebuffer_bind (Some fb) s = Fault.
Proof.
  intros Hfb Hlen Hbad.
  destruct fv as [o ct dt cr dr]. cbn in Hlen.
  destruct ct as [|a [|b [|c [|d [|]]]]]; try discriminate. clear Hlen.
  unfold GPU_framebuffer_bind, bind_loop_body, load_colortex, arr_read,
    GPU_texture_width, GPU_texture_height.
  destruct a, b, c, d, dt;
    match type of Hbad with
    | context [bind_viewport_tex ?f] =>
        let v := eval vm_compute in (bind_viewport_tex f) in
        change (bind_viewport_tex f) with v in Hbad
    end;
    try pose proof (Hbad _ eq_refl) as Hnone;
    run_slots; rewrite ?Hnone; reflexivity.
Qed.

(** C3, as the code has it: for a target with an occupied colour slot or a
    depth texture, [GPU_framebuffer_bind] binds the target, sets the draw
    buffers to exactly the occupied colour slots in ascending order and the
    read buffer to the first of them (both to none when no colour slot is
    occupied), sets the viewport to the size of the texture in the LAST
    occupied colour slot (of the depth texture when there is none), and
    records the target's handle as the bound one. *)
Theorem bind_draws_occupied_slots fb fv t tv s :
  fbs s !! fb = Some fv → length (colortex fv) = 4%nat →
  bind_viewport_tex fv = Some t → texs s !! t = Some tv →
  ∃ s', GPU_framebuffer_bind (Some fb) s = Ok tt s'
    ∧ gl_trace s' = gl_trace s ++ bind_calls fv (tex_w tv) (tex_h tv)
    ∧ GG_currentfb s' = fb_object fv
    ∧ fbs s' = fbs s ∧ texs s' = texs s ∧ rbs s' = rbs s.
Proof.
  intros Hfb Hlen Hview Htex.
  eexists. split; [by eapply bind_run|]. done.
Qed.

Lemma bind_draws_occupied_slots_witness :
  ∃ s', GPU_framebuffer_bind (Some 1%positive) st_two_sizes = Ok tt s'
    ∧ gl_trace s'
      = [glBindFramebuffer GL_FRAMEBUFFER 11;
         glDrawBuffers 2 [GL_COLOR_ATTACHMENT0; GL_COLOR_ATTACHMENT0 + 1];
         glReadBuffer GL_COLOR_ATTACHMENT0;
         glViewport 0 0 128 256]
    ∧ GG_currentfb s' = 11
    ∧ fbs s' = fbs st_two_sizes ∧ texs s' = texs st_two_sizes
    ∧ rbs s' = rbs st_two_sizes.
Proof.
  apply (bind_draws_occupied_slots 1%positive
           (mkFB 11 [Some 2%positive; Some 3%positive; None; None] None
                 [None; None; None; None] None)
           3%positive (ex_color_tex 128 256 (Some 1%positive) 1) st_two_sizes);
    reflexivity.
Defined.

(** C3 as stated fails on the viewport: slot 0 holds a 64x64 texture, the
    first surface, and slot 1 a 128x256 one; the viewport call is
    [glViewport 0 0 128 256]. *)
Lemma bind_viewport_not_first_surface :
  ∃ s',
    GPU_framebuffer_bind (Some 1%positive) st_two_sizes = Ok tt s'
    ∧ first_surface (mkFB 11 [Some 2%positive; Some 3%positive; None; None] None
                          [None; None; None; None] None) = Some 2%positive
    ∧ texs st_two_sizes !! 2%positive = Some (ex_color_tex 64 64 (Some 1%positive) 0)
    ∧ last (gl_trace s') = Some (glViewport 0 0 128 256)
    ∧ last (gl_trace s') ≠ Some (glViewport 0 0 64 64).
Proof.
  eexists. split; [vm_compute; reflexivity|].
  split; [reflexivity|]. split; [reflexivity|]. split; [reflexivity | discriminate].
Qed.

(** C9: [GPU_framebuffer_bind] reads the size of [tex], which is a colour
    texture when a colour slot is occupied and [fb->depthtex] otherwise.
    With no colour slot occupied and no depth texture that pointer is NULL
    and the read is undefined behaviour; the call finishes only for a
    target with a colour texture or a depth texture, and (its textures being
    live) it does finish for every such target. *)
Theorem bind_needs_a_texture fb fv s :
  fbs s !! fb = Some fv → length (colortex fv) = 4%nat →
  (∀ t, bind_viewport_tex fv = Some t → is_Some (texs s !! t)) →
  (occupied_slots (colortex fv) = [] → depthtex fv = None →
     GPU_framebuffer_bind (Some fb) s = Fault)
  ∧ ((∃ s', GPU_framebuffer_bind (Some fb) s = Ok tt s')
     ↔ occupied_slots (colortex fv) ≠ [] ∨ depthtex fv ≠ None).
Proof.
  intros Hfb Hlen Hlive.
  assert (Hnone : occupied_slots (colortex fv) = [] → depthtex fv = None →
                  bind_viewport_tex fv = None).
  { intros H1 H2. unfold bind_viewport_tex. by rewrite H1, H2. }
  split.
  - intros H1 H2. eapply bind_fault; eauto.
    intros t Ht. rewrite Hnone in Ht by done. done.
  - split.
    + intros [s' Hrun].
      destruct (occupied_slots (colortex fv)) eqn:Hocc; [|by left].
      destruct (depthtex fv) eqn:Hdt; [by right|].
      rewrite (bind_fault fb fv s) in Hrun; [done.. |].
      intros t Ht. rewrite Hnone in Ht by done. done.
    + intros Hsome.
      destruct (bind_viewport_tex fv) as [t|] eqn:Hview.
      * destruct (Hlive t eq_refl) as [tv Htv].
        eexists. by eapply bind_run.
      * exfalso. unfold bind_viewport_tex in Hview.
        destruct fv as [o ct dt cr dr]. cbn in *.
        destruct ct as [|a [|b [|c [|d [|]]]]]; try discriminate.
        destruct a, b, c, d; vm_compute in Hview; try discriminate.
        destruct Hsome as [H|H]; [by vm_compute in H | congruence].
Qed.

Lemma bind_needs_a_texture_witness :
  GPU_framebuffer_bind (Some 1%positive) st_unattached = Fault.
Proof.
  refine (proj1 (bind_needs_a_texture 1%positive (ex_fb_empty 11) st_unattached
                   _ _ _) _ _).
  - reflexivity.
  - reflexivity.
  - intros t Ht. discriminate Ht.
  - reflexivity.
  - reflexivity.
Defined.

(** * Offscreen blit *)

Lemma offscreen_size_run s0 s ofs w h :
  ofs_size s0 ofs w h → texs s = texs s0 → rbs s = rbs s0 →
  GPU_offscreen_width ofs s = Ok w s ∧ GPU_offscreen_height ofs s = Ok h s.
Proof.
  unfold ofs_size, GPU_offscreen_width, GPU_offscreen_height,
    GPU_texture_width, GPU_texture_height, GPU_renderbuffer_width,
    GPU_renderbuffer_height.
  intros Hsize Ht Hr.
  destruct (ofs_color ofs) as [c|].
  - destruct Hsize as (tv & Hc & <- & <-). rewrite <- Ht in Hc. by run.
  - destruct (ofs_rbcolor ofs) as [r|].
    + destruct Hsize as (rv & Hc & <- & <-). rewrite <- Hr in Hc. by run.
    + destruct Hsize as [-> ->]. by run.
Qed.

(** C5: with [color] and [depth] both false the blit stops at its
    assertion, the error of the operation, before any OpenGL call is made,
    so nothing is copied.  With at least one of them true it binds the
    source for reading and the destination for drawing, copies the rectangle
    whose width and height are the minima of the two buffers' widths and
    heights, unstretched, and ends with the destination's framebuffer bound
    and recorded as the current one. *)
Theorem offscreen_blit_spec srcofs dstofs :
  (∀ s, GPU_offscreen_blit srcofs dstofs false false s = AssertFailed)
  ∧ (∀ color depth sfb dfb sf df ws hs wd hd s,
       color || depth = true →
       ofs_fb srcofs = Some sfb → fbs s !! sfb = Some sf →
       ofs_fb dstofs = Some dfb → fbs s !! dfb = Some df →
       ofs_size s srcofs ws hs → ofs_size s dstofs wd hd →
       ∃ s', GPU_offscreen_blit srcofs dstofs color depth s = Ok tt s'
         ∧ gl_trace s' = gl_trace s ++
             [glBindFramebuffer GL_READ_FRAMEBUFFER (fb_object sf);
              glBindFramebuffer GL_DRAW_FRAMEBUFFER (fb_object df);
              glDrawBuffer GL_COLOR_ATTACHMENT0;
              glReadBuffer GL_COLOR_ATTACHMENT0;
              glBlitFramebuffer 0 0 (Z.min ws wd) (Z.min hs hd)
                                0 0 (Z.min ws wd) (Z.min hs hd)
                                (blit_mask color depth) GL_NEAREST;
              glBindFramebuffer GL_FRAMEBUFFER (fb_object df);
              glDrawBuffer GL_COLOR_ATTACHMENT0;
              glReadBuffer GL_COLOR_ATTACHMENT0]
         ∧ GG_currentfb s' = fb_object df
         ∧ fbs s' = fbs s ∧ texs s' = texs s ∧ rbs s' = rbs s).
Proof.
  split.
  - intros s. reflexivity.
  - intros color depth sfb dfb sf df ws hs wd hd s Hflag Hsfb Hsf Hdfb Hdf Hsrc Hdst.
    unfold GPU_offscreen_blit, GPU_framebuffer_bind_simple, min_ff.
    rewrite Hflag, Hsfb, Hdfb. run.
    match goal with
    | |- context [GPU_offscreen_height srcofs ?st] =>
        destruct (offscreen_size_run s st srcofs ws hs Hsrc eq_refl eq_refl) as [Hw1 Hh1];
        destruct (offscreen_size_run s st dstofs wd hd Hdst eq_refl eq_refl) as [Hw2 Hh2]
    end.
    rewrite Hh1, Hh2, Hw1, Hw2. run.
    eexists. split; [reflexivity|].
    cbn [fbs texs rbs GG_currentfb gl_trace set_currentfb set_gl_trace].
    rewrite <- !app_assoc. done.
Qed.

Lemma offscreen_blit_spec_witness :
  GPU_offscreen_blit ex_ofs_src ex_ofs_dst false false st_two_offscreens = AssertFailed
  ∧ ∃ s', GPU_offscreen_blit ex_ofs_src ex_ofs_dst true false st_two_offscreens = Ok tt s'
      ∧ gl_trace s' =
          [glBindFramebuffer GL_READ_FRAMEBUFFER 11;
           glBindFramebuffer GL_DRAW_FRAMEBUFFER 12;
           glDrawBuffer GL_COLOR_ATTACHMENT0;
           glReadBuffer GL_COLOR_ATTACHMENT0;
           glBlitFramebuffer 0 0 48 32 0 0 48 32 GL_COLOR_BUFFER_BIT GL_NEAREST;
           glBindFramebuffer GL_FRAMEBUFFER 12;
           glDrawBuffer GL_COLOR_ATTACHMENT0;
           glReadBuffer GL_COLOR_ATTACHMENT0]
      ∧ GG_currentfb s' = 12
      ∧ fbs s' = fbs st_two_offscreens ∧ texs s' = texs st_two_offscreens
      ∧ rbs s' = rbs st_two_offscreens.
Proof.
  destruct (offscreen_blit_spec ex_ofs_src ex_ofs_dst) as [Hnone Hsome].
  split; [apply Hnone|].
  apply (Hsome true false 1%positive 2%positive
           (mkFB 11 [None; None; None; None] None [Some 3%positive; None; None; None] None)
           (mkFB 12 [None; None; None; None] None [Some 4%positive; None; None; None] None)
           64 32 48 40 st_two_offscreens);
    try reflexivity.
  - eexists. split; [reflexivity|]. split; reflexivity.
  - eexists. split; [reflexivity|]. split; reflexivity.
Defined.

(** * Freeing a framebuffer *)

Lemma consistent_tex_good s fb fv p t :
  fb_consistent s fb fv → tex_at fv p = Some (Some t) → tex_good s fb p t.
Proof.
  intros Hc Hat. destruct p as [|i]; cbn in Hat.
  - injection Hat as Hat. destruct (fc_depthtex _ _ _ Hc t Hat) as (tv & ? & ? & ?).
    by exists tv.
  - destruct (fc_colortex _ _ _ Hc i t Hat) as (tv & ? & ? & ? & ?).
    by exists tv.
Qed.

Lemma consistent_rb_good s fb fv p r :
  fb_consistent s fb fv → rb_at fv p = Some (Some r) → rb_good s fb p r.
Proof.
  intros Hc Hat. destruct p as [|i]; cbn in Hat.
  - injection Hat as Hat. destruct (fc_depthrb _ _ _ Hc r Hat) as (rv & ? & ? & ?).
    by exists rv.
  - destruct (fc_colorrb _ _ _ Hc i r Hat) as (rv & ? & ? & ? & ?).
    by exists rv.
Qed.

Lemma tex_good_inj s fb p p' t :
  tex_good s fb p t → tex_good s fb p' t → p = p'.
Proof.
  intros (tv & Ht & _ & Hp) (tv' & Ht' & _ & Hp').
  rewrite Ht in Ht'. injection Ht' as <-.
  destruct p, p'; try done; try (destruct Hp; congruence); try (destruct Hp'; congruence).
  destruct Hp as [_ Hp], Hp' as [_ Hp']. f_equal. lia.
Qed.

Lemma rb_good_inj s fb p p' r :
  rb_good s fb p r → rb_good s fb p' r → p = p'.
Proof.
  intros (rv & Hr & _ & Hp) (rv' & Hr' & _ & Hp').
  rewrite Hr in Hr'. injection Hr' as <-.
  destruct p, p'; try done; try (destruct Hp; congruence); try (destruct Hp'; congruence).
  destruct Hp as [_ Hp], Hp' as [_ Hp']. f_equal. lia.
Qed.

Lemma tex_at_clear_eq fv p o :
  tex_at fv p = Some o → tex_at (clear_tex p fv) p = Some None.
Proof.
  destruct p as [|i]; cbn; [done|].
  intros H. apply list_lookup_insert_eq. by eapply lookup_lt_Some.
Qed.

Lemma tex_at_clear_ne fv p p' :
  p ≠ p' → tex_at (clear_tex p fv) p' = tex_at fv p'.
Proof.
  destruct p as [|i], p' as [|j]; cbn; try done.
  intros H. apply list_lookup_insert_ne. congruence.
Qed.

Lemma rb_at_clear_eq fv p o :
  rb_at fv p = Some o → rb_at (clear_rb p fv) p = Some None.
Proof.
  destruct p as [|i]; cbn; [done|].
  intros H. apply list_lookup_insert_eq. by eapply lookup_lt_Some.
Qed.

Lemma rb_at_clear_ne fv p p' :
  p ≠ p' → rb_at (clear_rb p fv) p' = rb_at fv p'.
Proof.
  destruct p as [|i], p' as [|j]; cbn; try done.
  intros H. apply list_lookup_insert_ne. congruence.
Qed.

Lemma rb_at_clear_tex fv p p' : rb_at (clear_tex p fv) p' = rb_at fv p'.
Proof. by destruct p, p'. Qed.

Lemma tex_at_clear_rb fv p p' : tex_at (clear_rb p fv) p' = tex_at fv p'.
Proof. by destruct p, p'. Qed.

Lemma texture_detach_place fb fv p t s :
  fbs s !! fb = Some fv → length (colortex fv) = 4%nat →
  tex_at fv p = Some (Some t) → tex_good s fb p t →
  ∃ s' tv, GPU_framebuffer_texture_detach (Some t) s = Ok tt s'
    ∧ texs s !! t = Some tv
    ∧ fbs s' = <[fb := clear_tex p fv]> (fbs s)
    ∧ texs s' = <[t := tex_set_fb None (-1) tv]> (texs s)
    ∧ rbs s' = rbs s
    ∧ GG_currentfb s' = fb_object fv.
Proof.
  intros Hfb Hlen Hat (tv & Ht & Hback & Hp).
  destruct (detach_target_spec fb t fv tv (tex_target tv) s Ht Hback Hfb)
    as (s' & Hrun & Hfbs & Htexs & Hrbs & HGG).
  { intros Hd. destruct p as [|i]; [congruence|]. destruct Hp as [_ Hi].
    cbn in Hat. pose proof (lookup_lt_Some _ _ _ Hat).
    rewrite Hi, Nat2Z.id. split; [lia | done]. }
  exists s', tv. split.
  { unfold GPU_framebuffer_texture_detach, GPU_texture_target. run. done. }
  repeat split; try done.
  rewrite Hfbs. f_equal. unfold fb_detach_tex.
  destruct p as [|i]; [by rewrite Hp|].
  destruct Hp as [-> ->]. by rewrite Nat2Z.id.
Qed.

Lemma renderbuffer_detach_place fb fv p r s :
  fbs s !! fb = Some fv → length (colorrb fv) = 4%nat →
  rb_at fv p = Some (Some r) → rb_good s fb p r →
  ∃ s' rv, GPU_framebuffer_renderbuffer_detach (Some r) s = Ok tt s'
    ∧ rbs s !! r = Some rv
    ∧ fbs s' = <[fb := clear_rb p fv]> (fbs s)
    ∧ rbs s' = <[r := rb_set_fb None (-1) rv]> (rbs s)
    ∧ texs s' = texs s
    ∧ GG_currentfb s' = fb_object fv.
Proof.
  intros Hfb Hlen Hat (rv & Hr & Hback & Hp).
  unfold GPU_framebuffer_renderbuffer_detach, GPU_renderbuffer_framebuffer,
    GPU_renderbuffer_framebuffer_attachment, GPU_renderbuffer_depth,
    GPU_renderbuffer_framebuffer_set, load_colorrb, store_colorrb, arr_read, arr_write.
  run. rewrite Hback. run.
  destruct p as [|i].
  - cbn in Hat.
    destruct (GG_currentfb s =? fb_object fv) eqn:Hcur; run;
      (eexists _, _; split; [reflexivity|]; repeat split; try done; by apply Z.eqb_eq).
  - destruct Hp as [Hd Hi]. cbn in Hat.
    assert (Hlt : (i < 4)%nat) by (rewrite <- Hlen; by eapply lookup_lt_Some).
    rewrite Hi, slot_index_of_nat by done.
    destruct (GG_currentfb s =? fb_object fv) eqn:Hcur; run;
      rewrite bool_decide_eq_true_2 by done; run;
      (destruct (decide _) as [_|Hn]; [run | lia]);
      (eexists _, _; split; [reflexivity|]; repeat split; try done; by apply Z.eqb_eq).
Qed.

Lemma for_loop_inv (P : nat → state → Prop) body i n s :
  P i s →
  (∀ j s, (i ≤ j < i + n)%nat → P j s → ∃ s', body j s = Ok tt s' ∧ P (S j) s') →
  ∃ s', for_loop i n body s = Ok tt s' ∧ P (i + n)%nat s'.
Proof.
  revert i s. induction n as [|n IH]; intros i s Hi Hstep.
  - exists s. rewrite Nat.add_0_r. done.
  - destruct (Hstep i s) as (s1 & Hrun & Hnext); [lia | done |].
    destruct (IH (S i) s1 Hnext) as (s' & Hrest & Hend).
    { intros j sj Hj. apply Hstep. lia. }
    exists s'. cbn [for_loop]. rewrite (bind_Ok _ _ _ _ _ Hrun).
    replace (i + S n)%nat with (S i + n)%nat by lia. done.
Qed.

Lemma has_attachment_tex fv p t :
  tex_at fv p = Some (Some t) → has_attachment fv = true.
Proof.
  unfold has_attachment. destruct p as [|i]; cbn.
  - intros [= ->]. done.
  - intros Hat.
    assert (existsb (λ o, negb (is_null o)) (colortex fv) = true) as ->.
    { apply existsb_exists. exists (Some t). split; [|done].
      apply list_elem_of_In. by eapply list_elem_of_lookup_2. }
    by rewrite orb_true_r.
Qed.

Lemma has_attachment_rb fv p r :
  rb_at fv p = Some (Some r) → has_attachment fv = true.
Proof.
  unfold has_attachment. destruct p as [|i]; cbn.
  - intros [= ->]. cbn. by rewrite orb_true_r.
  - intros Hat.
    assert (existsb (λ o, negb (is_null o)) (colorrb fv) = true) as ->.
    { apply existsb_exists. exists (Some r). split; [|done].
      apply list_elem_of_In. by eapply list_elem_of_lookup_2. }
    by rewrite orb_true_r.
Qed.

Lemma all_none_replicate (l : list (option positive)) :
  length l = 4%nat → (∀ i, (i < 4)%nat → l !! i = Some None) →
  l = [None; None; None; None].
Proof.
  intros Hlen Hall.
  destruct l as [|a [|b [|c [|d [|]]]]]; try discriminate.
  pose proof (Hall 0%nat ltac:(lia)) as H0. pose proof (Hall 1%nat ltac:(lia)) as H1.
  pose proof (Hall 2%nat ltac:(lia)) as H2. pose proof (Hall 3%nat ltac:(lia)) as H3.
  cbn in *. congruence.
Qed.

Lemma no_attachment fv :
  length (colortex fv) = 4%nat → length (colorrb fv) = 4%nat →
  depthtex fv = None → (∀ i, (i < 4)%nat → colortex fv !! i = Some None) →
  depthrb fv = None → (∀ i, (i < 4)%nat → colorrb fv !! i = Some None) →
  has_attachment fv = false.
Proof.
  intros H1 H2 H3 H4 H5 H6. unfold has_attachment.
  rewrite (all_none_replicate _ H1 H4), (all_none_replicate _ H2 H6), H3, H5.
  reflexivity.
Qed.

Section FreeProof.

Variable s0 : state.
Variable fb : positive.
Variable fv0 : GPUFrameBuffer.
Hypothesis Hcons : fb_consistent s0 fb fv0.

Lemma free_inv_init : free_inv s0 fb fv0 s0 fv0.
Proof.
  split; try (by destruct Hcons); try (by left); try done.
Qed.

Lemma free_inv_untouched_tex s fv p t :
  free_inv s0 fb fv0 s fv → tex_at fv p = Some (Some t) →
  tex_at fv0 p = Some (Some t) ∧ texs s !! t = texs s0 !! t.
Proof.
  intros Hinv Hat.
  assert (is_Some (tex_at fv0 p)) as [o Ho].
  { destruct p as [|i]; cbn in *; [eauto|].
    apply lookup_lt_is_Some. rewrite (fc_len_tex _ _ _ Hcons).
    rewrite <- (fi_len_tex _ _ _ _ _ Hinv). by eapply lookup_lt_Some. }
  destruct o as [t0|].
  - destruct (fi_tex _ _ _ _ _ Hinv p t0 Ho) as [[H1 H2]|[H1 _]]; [|congruence].
    assert (t0 = t) as -> by congruence. done.
  - pose proof (fi_tex_none _ _ _ _ _ Hinv p Ho). congruence.
Qed.

Lemma free_inv_untouched_rb s fv p r :
  free_inv s0 fb fv0 s fv → rb_at fv p = Some (Some r) →
  rb_at fv0 p = Some (Some r) ∧ rbs s !! r = rbs s0 !! r.
Proof.
  intros Hinv Hat.
  assert (is_Some (rb_at fv0 p)) as [o Ho].
  { destruct p as [|i]; cbn in *; [eauto|].
    apply lookup_lt_is_Some. rewrite (fc_len_rb _ _ _ Hcons).
    rewrite <- (fi_len_rb _ _ _ _ _ Hinv). by eapply lookup_lt_Some. }
  destruct o as [r0|].
  - destruct (fi_rb _ _ _ _ _ Hinv p r0 Ho) as [[H1 H2]|[H1 _]]; [|congruence].
    assert (r0 = r) as -> by congruence. done.
  - pose proof (fi_rb_none _ _ _ _ _ Hinv p Ho). congruence.
Qed.

Lemma free_inv_step_tex s fv p t :
  free_inv s0 fb fv0 s fv → tex_at fv p = Some (Some t) →
  ∃ s', GPU_framebuffer_texture_detach (Some t) s = Ok tt s'
    ∧ free_inv s0 fb fv0 s' (clear_tex p fv).
Proof.
  intros Hinv Hat.
  destruct (free_inv_untouched_tex s fv p t Hinv Hat) as [Hat0 Hsame].
  pose proof (consistent_tex_good _ _ _ _ _ Hcons Hat0) as Hgood0.
  assert (Hgood : tex_good s fb p t).
  { destruct Hgood0 as (tv & ? & ?). exists tv. by rewrite Hsame. }
  destruct (texture_detach_place fb fv p t s (fi_lookup _ _ _ _ _ Hinv)
              (fi_len_tex _ _ _ _ _ Hinv) Hat Hgood)
    as (s' & tv & Hrun & Ht & Hfbs & Htexs & Hrbs & HGG).
  exists s'. split; [done|].
  assert (Hother : ∀ p' t', p' ≠ p → tex_at fv0 p' = Some (Some t') → t' ≠ t).
  { intros p' t' Hne Hat' ->. apply Hne.
    eapply tex_good_inj; [|exact Hgood0]. by eapply consistent_tex_good. }
  split.
  - rewrite Hfbs. apply lookup_insert_eq.
  - rewrite <- (fi_object _ _ _ _ _ Hinv). by destruct p.
  - rewrite <- (fi_len_tex _ _ _ _ _ Hinv). destruct p; cbn; [done|].
    apply length_insert.
  - rewrite <- (fi_len_rb _ _ _ _ _ Hinv). by destruct p.
  - intros p' t' Hat'. destruct (decide (p' = p)) as [->|Hne].
    + assert (t' = t) as -> by congruence. right. split.
      * by eapply tex_at_clear_eq.
      * exists (tex_set_fb None (-1) tv). rewrite Htexs, lookup_insert_eq. done.
    + pose proof (Hother p' t' Hne Hat') as Hneq.
      rewrite tex_at_clear_ne by done.
      destruct (fi_tex _ _ _ _ _ Hinv p' t' Hat') as [[H1 H2]|[H1 (tv' & H2 & H3)]].
      * left. split; [done|]. rewrite Htexs, lookup_insert_ne by done. done.
      * right. split; [done|]. exists tv'. rewrite Htexs, lookup_insert_ne by done. done.
  - intros p' Hnone. assert (p' ≠ p) by congruence.
    rewrite tex_at_clear_ne by done. by apply (fi_tex_none _ _ _ _ _ Hinv).
  - intros p' r Hat'. rewrite rb_at_clear_tex.
    destruct (fi_rb _ _ _ _ _ Hinv p' r Hat') as [[H1 H2]|[H1 (rv & H2 & H3)]].
    + left. by rewrite Hrbs.
    + right. split; [done|]. exists rv. by rewrite Hrbs.
  - intros p' Hnone. rewrite rb_at_clear_tex. by apply (fi_rb_none _ _ _ _ _ Hinv).
  - right. split.
    + rewrite HGG. apply (fi_object _ _ _ _ _ Hinv).
    + by eapply has_attachment_tex.
Qed.

Lemma free_inv_step_rb s fv p r :
  free_inv s0 fb fv0 s fv → rb_at fv p = Some (Some r) →
  ∃ s', GPU_framebuffer_renderbuffer_detach (Some r) s = Ok tt s'
    ∧ free_inv s0 fb fv0 s' (clear_rb p fv).
Proof.
  intros Hinv Hat.
  destruct (free_inv_untouched_rb s fv p r Hinv Hat) as [Hat0 Hsame].
  pose proof (consistent_rb_good _ _ _ _ _ Hcons Hat0) as Hgood0.
  assert (Hgood : rb_good s fb p r).
  { destruct Hgood0 as (rv & ? & ?). exists rv. by rewrite Hsame. }
  destruct (renderbuffer_detach_place fb fv p r s (fi_lookup _ _ _ _ _ Hinv)
              (fi_len_rb _ _ _ _ _ Hinv) Hat Hgood)
    as (s' & rv & Hrun & Hr & Hfbs & Hrbs & Htexs & HGG).
  exists s'. split; [done|].
  assert (Hother : ∀ p' r', p' ≠ p → rb_at fv0 p' = Some (Some r') → r' ≠ r).
  { intros p' r' Hne Hat' ->. apply Hne.
    eapply rb_good_inj; [|exact Hgood0]. by eapply consistent_rb_good. }
  split.
  - rewrite Hfbs. apply lookup_insert_eq.
  - rewrite <- (fi_object _ _ _ _ _ Hinv). by destruct p.
  - rewrite <- (fi_len_tex _ _ _ _ _ Hinv). by destruct p.
  - rewrite <- (fi_len_rb _ _ _ _ _ Hinv). destruct p; cbn; [done|].
    apply length_insert.
  - intros p' t Hat'. rewrite tex_at_clear_rb.
    destruct (fi_tex _ _ _ _ _ Hinv p' t Hat') as [[H1 H2]|[H1 (tv & H2 & H3)]].
    + left. by rewrite Htexs.
    + right. split; [done|]. exists tv. by rewrite Htexs.
  - intros p' Hnone. rewrite tex_at_clear_rb. by apply (fi_tex_none _ _ _ _ _ Hinv).
  - intros p' r' Hat'. destruct (decide (p' = p)) as [->|Hne].
    + assert (r' = r) as -> by congruence. right. split.
      * by eapply rb_at_clear_eq.
      * exists (rb_set_fb None (-1) rv). rewrite Hrbs, lookup_insert_eq. done.
    + pose proof (Hother p' r' Hne Hat') as Hneq.
      rewrite rb_at_clear_ne by done.
      destruct (fi_rb _ _ _ _ _ Hinv p' r' Hat') as [[H1 H2]|[H1 (rv' & H2 & H3)]].
      * left. split; [done|]. rewrite Hrbs, lookup_insert_ne by done. done.
      * right. split; [done|]. exists rv'. rewrite Hrbs, lookup_insert_ne by done. done.
  - intros p' Hnone. assert (p' ≠ p) by congruence.
    rewrite rb_at_clear_ne by done. by apply (fi_rb_none _ _ _ _ _ Hinv).
  - right. split.
    + rewrite HGG. apply (fi_object _ _ _ _ _ Hinv).
    + by eapply has_attachment_rb.
Qed.

End FreeProof.

Lemma load_fb_Ok a v s : fbs s !! a = Some v → load_fb (Some a) s = Ok v s.
Proof. intros H. unfold load_fb. by rewrite H. Qed.

Lemma load_colortex_Ok a fv j o s :
  fbs s !! a = Some fv → (j < 4)%nat → colortex fv !! j = Some o →
  load_colortex (Some a) (Z.of_nat j) s = Ok o s.
Proof.
  intros Hfb Hj Ho. unfold load_colortex, arr_read.
  rewrite (bind_Ok _ _ _ _ _ (load_fb_Ok _ _ _ Hfb)).
  rewrite slot_index_of_nat by done. by rewrite Ho.
Qed.

Lemma load_colorrb_Ok a fv j o s :
  fbs s !! a = Some fv → (j < 4)%nat → colorrb fv !! j = Some o →
  load_colorrb (Some a) (Z.of_nat j) s = Ok o s.
Proof.
  intros Hfb Hj Ho. unfold load_colorrb, arr_read.
  rewrite (bind_Ok _ _ _ _ _ (load_fb_Ok _ _ _ Hfb)).
  rewrite slot_index_of_nat by done. by rewrite Ho.
Qed.

Section FreePhases.

Variable s0 : state.
Variable fb : positive.
Variable fv0 : GPUFrameBuffer.
Hypothesis Hcons : fb_consistent s0 fb fv0.

Lemma free_phase_depthtex s fv :
  free_inv s0 fb fv0 s fv →
  ∃ s' fv',
    when (negb (is_null (depthtex fv))) (GPU_framebuffer_texture_detach (depthtex fv)) s
      = Ok tt s'
    ∧ free_inv s0 fb fv0 s' fv' ∧ depthtex fv' = None.
Proof.
  intros Hinv. destruct (depthtex fv) as [t|] eqn:Hdt.
  - destruct (free_inv_step_tex s0 fb fv0 Hcons s fv PDepth t Hinv) as (s' & Hrun & Hinv').
    { cbn. by rewrite Hdt. }
    exists s', (clear_tex PDepth fv). done.
  - exists s, fv. done.
Qed.

Lemma free_phase_colortex s fv :
  free_inv s0 fb fv0 s fv → depthtex fv = None →
  ∃ s' fv',
    for_loop 0 4 (free_detach_colortex (Some fb)) s = Ok tt s'
    ∧ free_inv s0 fb fv0 s' fv' ∧ tex_cleared fv'.
Proof.
  intros Hinv Hdt.
  destruct (for_loop_inv
    (λ j s, ∃ fv, free_inv s0 fb fv0 s fv ∧ depthtex fv = None
                  ∧ ∀ i, (i < j)%nat → colortex fv !! i = Some None)
    (free_detach_colortex (Some fb)) 0 4 s) as (s' & Hrun & fv' & Hinv' & Hdt' & Hall).
  - exists fv. split; [done|]. split; [done|]. intros i Hi. lia.
  - clear s fv Hinv Hdt. intros j s Hj (fv & Hinv & Hdt & Hall).
    assert (is_Some (colortex fv !! j)) as [o Ho].
    { apply lookup_lt_is_Some. rewrite (fi_len_tex _ _ _ _ _ Hinv). lia. }
    assert (Hj4 : (j < 4)%nat) by lia.
    unfold free_detach_colortex.
    rewrite (bind_Ok _ _ _ _ _
               (load_colortex_Ok _ _ _ _ _ (fi_lookup _ _ _ _ _ Hinv) Hj4 Ho)).
    cbn [is_null negb when].
    destruct o as [t|].
    + destruct (free_inv_step_tex s0 fb fv0 Hcons s fv (PColor j) t Hinv Ho)
        as (s' & Hrun & Hinv').
      exists s'. split; [exact Hrun|]. exists (clear_tex (PColor j) fv).
      split; [done|]. split; [done|].
      intros i Hi. cbn. destruct (decide (i = j)) as [->|Hne].
      * apply list_lookup_insert_eq. rewrite (fi_len_tex _ _ _ _ _ Hinv). lia.
      * rewrite list_lookup_insert_ne by done. apply Hall. lia.
    + exists s. split; [done|]. exists fv. split; [done|]. split; [done|].
      intros i Hi. destruct (decide (i = j)) as [->|Hne]; [done|]. apply Hall. lia.
  - exists s', fv'. done.
Qed.

Lemma free_phase_depthrb s fv :
  free_inv s0 fb fv0 s fv → tex_cleared fv →
  ∃ s' fv',
    when (negb (is_null (depthrb fv))) (GPU_framebuffer_renderbuffer_detach (depthrb fv)) s
      = Ok tt s'
    ∧ free_inv s0 fb fv0 s' fv' ∧ tex_cleared fv' ∧ depthrb fv' = None.
Proof.
  intros Hinv Htex. destruct (depthrb fv) as [r|] eqn:Hdr.
  - destruct (free_inv_step_rb s0 fb fv0 Hcons s fv PDepth r Hinv) as (s' & Hrun & Hinv').
    { cbn. by rewrite Hdr. }
    exists s', (clear_rb PDepth fv). done.
  - exists s, fv. done.
Qed.

Lemma free_phase_colorrb s fv :
  free_inv s0 fb fv0 s fv → tex_cleared fv → depthrb fv = None →
  ∃ s' fv',
    for_loop 0 4 (free_detach_colorrb (Some fb)) s = Ok tt s'
    ∧ free_inv s0 fb fv0 s' fv' ∧ tex_cleared fv' ∧ rb_cleared fv'.
Proof.
  intros Hinv Htex Hdr.
  destruct (for_loop_inv
    (λ j s, ∃ fv, free_inv s0 fb fv0 s fv ∧ tex_cleared fv ∧ depthrb fv = None
                  ∧ ∀ i, (i < j)%nat → colorrb fv !! i = Some None)
    (free_detach_colorrb (Some fb)) 0 4 s)
    as (s' & Hrun & fv' & Hinv' & Htex' & Hdr' & Hall).
  - exists fv. split; [done|]. split; [done|]. split; [done|]. intros i Hi. lia.
  - clear s fv Hinv Htex Hdr. intros j s Hj (fv & Hinv & Htex & Hdr & Hall).
    assert (is_Some (colorrb fv !! j)) as [o Ho].
    { apply lookup_lt_is_Some. rewrite (fi_len_rb _ _ _ _ _ Hinv). lia. }
    assert (Hj4 : (j < 4)%nat) by lia.
    unfold free_detach_colorrb.
    rewrite (bind_Ok _ _ _ _ _
               (load_colorrb_Ok _ _ _ _ _ (fi_lookup _ _ _ _ _ Hinv) Hj4 Ho)).
    cbn [is_null negb when].
    destruct o as [r|].
    + destruct (free_inv_step_rb s0 fb fv0 Hcons s fv (PColor j) r Hinv Ho)
        as (s' & Hrun & Hinv').
      exists s'. split; [exact Hrun|]. exists (clear_rb (PColor j) fv).
      split; [done|]. split; [done|]. split; [done|].
      intros i Hi. cbn. destruct (decide (i = j)) as [->|Hne].
      * apply list_lookup_insert_eq. rewrite (fi_len_rb _ _ _ _ _ Hinv). lia.
      * rewrite list_lookup_insert_ne by done. apply Hall. lia.
    + exists s. split; [done|]. exists fv. split; [done|]. split; [done|].
      split; [done|].
      intros i Hi. destruct (decide (i = j)) as [->|Hne]; [done|]. apply Hall. lia.
  - exists s', fv'. done.
Qed.

Lemma free_detach_all_run :
  ∃ s1 fv1,
    free_detach_all (Some fb) s0 = Ok tt s1
    ∧ free_inv s0 fb fv0 s1 fv1 ∧ tex_cleared fv1 ∧ rb_cleared fv1.
Proof.
  destruct (free_phase_depthtex s0 fv0 (free_inv_init s0 fb fv0 Hcons))
    as (sa & fva & Hrun_a & Hinv_a & Hdt_a).
  destruct (free_phase_colortex sa fva Hinv_a Hdt_a)
    as (sb & fvb & Hrun_b & Hinv_b & Htex_b).
  destruct (free_phase_depthrb sb fvb Hinv_b Htex_b)
    as (sc & fvc & Hrun_c & Hinv_c & Htex_c & Hdr_c).
  destruct (free_phase_colorrb sc fvc Hinv_c Htex_c Hdr_c)
    as (sd & fvd & Hrun_d & Hinv_d & Htex_d & Hrb_d).
  exists sd, fvd. split; [|done].
  unfold free_detach_all.
  rewrite (bind_Ok _ _ _ _ _ (load_fb_Ok _ _ _ (fc_lookup _ _ _ Hcons))).
  rewrite (bind_Ok _ _ _ _ _ Hrun_a).
  rewrite (bind_Ok _ _ _ _ _ Hrun_b).
  rewrite (bind_Ok _ _ _ _ _ (load_fb_Ok _ _ _ (fi_lookup _ _ _ _ _ Hinv_b))).
  rewrite (bind_Ok _ _ _ _ _ Hrun_c).
  exact Hrun_d.
Qed.

End FreePhases.

Lemma free_release_run fb fv s :
  fbs s !! fb = Some fv →
  ∃ s', free_release (Some fb) s = Ok tt s'
    ∧ fbs s' = delete fb (fbs s) ∧ texs s' = texs s ∧ rbs s' = rbs s
    ∧ GG_currentfb s' = (if GG_currentfb s =? fb_object fv then 0 else GG_currentfb s)
    ∧ gl_trace s' = gl_trace s ++ release_calls (fb_object fv) (GG_currentfb s).
Proof.
  intros Hfb. unfold free_release, MEM_freeN_fb, release_calls. run.
  destruct (fb_object fv =? 0) eqn:Hobj; run.
  - eexists. split; [reflexivity|]. cbn. rewrite app_nil_r.
    repeat split; try done.
    apply Z.eqb_eq in Hobj. rewrite Hobj.
    destruct (GG_currentfb s =? 0) eqn:Hcur; [|done]. by apply Z.eqb_eq in Hcur.
  - destruct (GG_currentfb s =? fb_object fv) eqn:Hcur; run.
    + eexists. split; [reflexivity|]. cbn. rewrite <- !app_assoc. done.
    + eexists. split; [reflexivity|]. cbn. done.
Qed.

(** C8: for a target whose every occupied slot holds a surface that points
    back to it (any number k of colour slots from 0 to 4, with or without a
    depth surface, textures and renderbuffers alike), [GPU_framebuffer_free]
    finishes, also when nothing is attached, and leaves every previously
    attached surface with an empty back-reference.  The bound handle is
    reset to 0 exactly when the freed handle equals the bound handle at the
    test, that is after the force-detaches, each of which binds the target:
    the bound handle is then the target's own when anything was attached and
    the one bound at the call otherwise. *)
Theorem framebuffer_free_detaches_all fb fv s :
  fb_consistent s fb fv →
  ∃ s1 s',
    free_detach_all (Some fb) s = Ok tt s1
    ∧ free_release (Some fb) s1 = Ok tt s'
    ∧ GPU_framebuffer_free (Some fb) s = Ok tt s'
    ∧ (∀ p t, tex_at fv p = Some (Some t) → tex_detached s' t)
    ∧ (∀ p r, rb_at fv p = Some (Some r) → rb_detached s' r)
    ∧ fbs s' !! fb = None
    ∧ GG_currentfb s1 = (if has_attachment fv then fb_object fv else GG_currentfb s)
    ∧ GG_currentfb s' = (if GG_currentfb s1 =? fb_object fv then 0 else GG_currentfb s1)
    ∧ gl_trace s' = gl_trace s1 ++ release_calls (fb_object fv) (GG_currentfb s1).
Proof.
  intros Hcons.
  destruct (free_detach_all_run s fb fv Hcons)
    as (s1 & fv1 & Hrun1 & Hinv & [Hdt Hct] & [Hdr Hcr]).
  destruct (free_release_run fb fv1 s1 (fi_lookup _ _ _ _ _ Hinv))
    as (s' & Hrun2 & Hfbs & Htexs & Hrbs & HGG & Htrace).
  rewrite (fi_object _ _ _ _ _ Hinv) in HGG, Htrace.
  exists s1, s'. split; [done|]. split; [done|]. split.
  { unfold GPU_framebuffer_free. by rewrite (bind_Ok _ _ _ _ _ Hrun1). }
  split.
  { intros p t Hat.
    destruct (fi_tex _ _ _ _ _ Hinv p t Hat) as [[Hheld _]|[_ (tv & Htv & Hun)]].
    - exfalso. destruct p as [|i]; cbn in Hheld, Hat; [congruence|].
      rewrite Hct in Hheld; [done|].
      rewrite <- (fc_len_tex _ _ _ Hcons). by eapply lookup_lt_Some.
    - exists tv. by rewrite Htexs. }
  split.
  { intros p r Hat.
    destruct (fi_rb _ _ _ _ _ Hinv p r Hat) as [[Hheld _]|[_ (rv & Hrv & Hun)]].
    - exfalso. destruct p as [|i]; cbn in Hheld, Hat; [congruence|].
      rewrite Hcr in Hheld; [done|].
      rewrite <- (fc_len_rb _ _ _ Hcons). by eapply lookup_lt_Some.
    - exists rv. by rewrite Hrbs. }
  split; [rewrite Hfbs; apply lookup_delete_eq|].
  split; [|done].
  destruct (fi_bound _ _ _ _ _ Hinv) as [[HG Heq]|[HG Hatt]].
  - subst fv1. rewrite HG.
    rewrite no_attachment; try done; by destruct Hcons.
  - by rewrite HG, Hatt.
Qed.

Lemma framebuffer_free_detaches_all_witness :
  ∃ s1 s',
    free_detach_all (Some 1%positive) st_attached = Ok tt s1
    ∧ free_release (Some 1%positive) s1 = Ok tt s'
    ∧ GPU_framebuffer_free (Some 1%positive) st_attached = Ok tt s'
    ∧ (∀ p t, tex_at (mkFB 11 [None; Some 2%positive; None; None] (Some 3%positive)
                          [Some 4%positive; None; None; None] None) p = Some (Some t)
              → tex_detached s' t)
    ∧ (∀ p r, rb_at (mkFB 11 [None; Some 2%positive; None; None] (Some 3%positive)
                         [Some 4%positive; None; None; None] None) p = Some (Some r)
              → rb_detached s' r)
    ∧ fbs s' !! 1%positive = None
    ∧ GG_currentfb s1 = 11
    ∧ GG_currentfb s' = (if GG_currentfb s1 =? 11 then 0 else GG_currentfb s1)
    ∧ gl_trace s' = gl_trace s1 ++ release_calls 11 (GG_currentfb s1).
Proof.
  apply (framebuffer_free_detaches_all 1%positive
           (mkFB 11 [None; Some 2%positive; None; None] (Some 3%positive)
                 [Some 4%positive; None; None; None] None) st_attached).
  split; try reflexivity.
  - intros [|[|[|[|i]]]] t H; try discriminate H.
    injection H as <-. eexists. repeat split; reflexivity.
  - intros t H. injection H as <-. eexists. repeat split; reflexivity.
  - intros [|[|[|[|i]]]] r H; try discriminate H.
    injection H as <-. eexists. repeat split; reflexivity.
  - intros r H. discriminate H.
Defined.

(** The target of [st_unattached] has no attachment and handle 7 is bound:
    freeing it finishes and leaves handle 7 bound. *)
Lemma framebuffer_free_empty_example :
  ∃ s', GPU_framebuffer_free (Some 1%positive) st_unattached = Ok tt s'
    ∧ GG_currentfb s' = 7 ∧ fbs s' !! 1%positive = None.
Proof. eexists. split; [vm_compute; reflexivity|]. split; reflexivity. Qed.

(** The target of [st_attached] holds surfaces while handle 7 is bound:
    freeing it ends with no handle bound. *)
Lemma framebuffer_free_attached_example :
  ∃ s', GPU_framebuffer_free (Some 1%positive) st_attached = Ok tt s'
    ∧ GG_currentfb st_attached = 7 ∧ GG_currentfb s' = 0.
Proof. eexists. split; [vm_compute; reflexivity|]. split; reflexivity. Qed.

(** * Offscreen creation *)

Lemma texture_attach_null fb slot mip s :
  GPU_framebuffer_texture_attach fb None slot mip s = Fault.
Proof. reflexivity. Qed.

Lemma free_and_fail_None ofs s r s' :
  free_and_fail ofs s = Ok r s' → r = None.
Proof.
  unfold free_and_fail. intros H.
  apply bind_inv_Ok in H as (? & s1 & _ & H). unfold ret in H. congruence.
Qed.

Ltac inv_fail H :=
  match type of H with
  | free_and_fail _ _ = Ok (Some _) _ =>
      apply free_and_fail_None in H; discriminate H
  end.

Lemma offscreen_create_color_inv dev width height samples data_type mode ofs s o s' :
  offscreen_create_color dev width height samples data_type mode ofs s = Ok (Some o) s' →
  ofs_depth ofs = None →
  mode_has mode GPU_OFFSCREEN_RENDERBUFFER_COLOR = true
  ∧ ∃ rb, o = ofs_with_rbcolor (Some rb) ofs.
Proof.
  unfold offscreen_create_color. intros H Hnodepth.
  destruct (mode_has mode GPU_OFFSCREEN_RENDERBUFFER_COLOR).
  - split; [done|].
    apply bind_inv_Ok in H as ([rb|] & s1 & _ & H); cbn [is_null] in H; [|inv_fail H].
    apply bind_inv_Ok in H as ([] & s2 & _ & H); cbn [negb] in H; [|inv_fail H].
    exists rb. unfold ret in H. congruence.
  - exfalso.
    apply bind_inv_Ok in H as ([t|] & s1 & _ & H); cbn [is_null] in H; [|inv_fail H].
    cbn [ofs_depth ofs_with_color] in H. rewrite Hnodepth in H.
    apply bind_inv_Ok in H as (ok & s2 & Hatt & _).
    by rewrite texture_attach_null in Hatt.
Qed.

Lemma offscreen_create_depth_inv dev width height samples data_type mode ofs s o s' :
  offscreen_create_depth dev width height samples data_type mode ofs s = Ok (Some o) s' →
  ofs_color ofs = None →
  mode_has mode GPU_OFFSCREEN_RENDERBUFFER_DEPTH = true
  ∧ ∃ rb, o = ofs_with_rbdepth (Some rb) ofs.
Proof.
  unfold offscreen_create_depth. intros H Hnocolor.
  destruct (mode_has mode GPU_OFFSCREEN_RENDERBUFFER_DEPTH).
  - split; [done|].
    apply bind_inv_Ok in H as ([rb|] & s1 & _ & H); cbn [is_null] in H; [|inv_fail H].
    apply bind_inv_Ok in H as ([] & s2 & _ & H); cbn [negb] in H; [|inv_fail H].
    exists rb. unfold ret in H. congruence.
  - exfalso.
    apply bind_inv_Ok in H as ([t|] & s1 & _ & H); cbn [is_null] in H; [|inv_fail H].
    apply bind_inv_Ok in H as (? & s2 & _ & H).
    cbn [ofs_color ofs_with_depth] in H. rewrite Hnocolor in H.
    apply bind_inv_Ok in H as (ok & s3 & Hatt & _).
    by rewrite texture_attach_null in Hatt.
Qed.

Lemma offscreen_create_finish_inv dev ofs s o s' :
  offscreen_create_finish dev ofs s = Ok (Some o) s' → o = ofs.
Proof.
  unfold offscreen_create_finish. intros H.
  apply bind_inv_Ok in H as ([] & s1 & _ & H); cbn [negb] in H; [|inv_fail H].
  apply bind_inv_Ok in H as (? & s2 & _ & H). unfold ret in H. congruence.
Qed.

(** Every offscreen buffer that [GPU_offscreen_create] returns is backed by
    two renderbuffers and carries the clamped sample count. *)
Lemma offscreen_create_inv dev width height samples data_type mode s o s' :
  GPU_offscreen_create dev width height samples data_type mode s = Ok (Some o) s' →
  mode_has mode GPU_OFFSCREEN_RENDERBUFFER_COLOR = true
  ∧ mode_has mode GPU_OFFSCREEN_RENDERBUFFER_DEPTH = true
  ∧ ofs_samples o = clamp_samples dev samples mode
  ∧ ofs_color o = None ∧ ofs_depth o = None
  ∧ is_Some (ofs_fb o) ∧ is_Some (ofs_rbcolor o) ∧ is_Some (ofs_rbdepth o).
Proof.
  unfold GPU_offscreen_create. intros H.
  apply bind_inv_Ok in H as ([fb|] & s1 & _ & H); cbn [is_null] in H; [|inv_fail H].
  apply bind_inv_Ok in H as ([o1|] & s2 & Hcolor & H); [|discriminate H].
  apply bind_inv_Ok in H as ([o2|] & s3 & Hdepth & H); [|discriminate H].
  apply offscreen_create_finish_inv in H as ->.
  apply offscreen_create_color_inv in Hcolor as [Hc [rbc ->]]; [|done].
  apply offscreen_create_depth_inv in Hdepth as [Hd [rbd ->]]; [|done].
  cbn. repeat split; eauto.
Qed.

(** In a mode with a texture-backed colour or depth surface the call never
    returns an offscreen buffer, whatever the device answers. *)
Lemma offscreen_create_texture_mode_never_succeeds
    dev width height samples data_type mode s o s' :
  mode_has mode GPU_OFFSCREEN_RENDERBUFFER_COLOR = false
  ∨ mode_has mode GPU_OFFSCREEN_RENDERBUFFER_DEPTH = false →
  GPU_offscreen_create dev width height samples data_type mode s ≠ Ok (Some o) s'.
Proof.
  intros Hmode H. apply offscreen_create_inv in H as (Hc & Hd & _).
  destruct Hmode; congruence.
Qed.

(** The two texture branches name each other's surface: on a device that
    grants every request, the call with a texture-backed colour surface
    (mode 0, and mode GPU_OFFSCREEN_RENDERBUFFER_DEPTH) attaches
    [ofs->depth], still NULL, after creating the colour texture, and the
    call with a texture-backed depth surface only (mode
    GPU_OFFSCREEN_RENDERBUFFER_COLOR) attaches [ofs->color], NULL in that
    mode, after creating the depth texture: each run dereferences NULL and
    returns nothing. *)
Lemma offscreen_create_attaches_null_texture :
  GPU_offscreen_create dev_full 64 32 0 GPU_RGBA8 0 st_empty = Fault
  ∧ GPU_offscreen_create dev_full 64 32 0 GPU_RGBA8
      GPU_OFFSCREEN_RENDERBUFFER_DEPTH st_empty = Fault
  ∧ GPU_offscreen_create dev_full 64 32 0 GPU_RGBA8
      GPU_OFFSCREEN_RENDERBUFFER_COLOR st_empty = Fault.
Proof. repeat split; vm_compute; reflexivity. Qed.

(** With both surfaces renderbuffer-backed the same device gives an object
    whose two renderbuffers sit in colour slot 0 and in the depth slot and
    point back to slot 0 of the internal framebuffer. *)
Lemma offscreen_create_renderbuffers_example :
  ∃ s' fv rc rd,
    GPU_offscreen_create dev_full 64 32 0 GPU_RGBA8 mode_renderbuffers st_empty
      = Ok (Some (mkOfs (Some 1%positive) None None (Some 2%positive) (Some 3%positive) 0)) s'
    ∧ fbs s' !! 1%positive = Some fv
    ∧ colorrb fv !! 0%nat = Some (Some 2%positive) ∧ depthrb fv = Some 3%positive
    ∧ rbs s' !! 2%positive = Some rc ∧ rb_fb rc = Some 1%positive ∧ rb_fb_attachment rc = 0
    ∧ rbs s' !! 3%positive = Some rd ∧ rb_fb rd = Some 1%positive ∧ rb_fb_attachment rd = 0
    ∧ GG_currentfb s' = 0.
Proof.
  eexists _, _, _, _. split; [vm_compute; reflexivity|].
  repeat split; reflexivity.
Qed.

Lemma clamp_samples_unsupported dev samples mode :
  samples ≠ 0 → multisample_unsupported dev mode = true →
  clamp_samples dev samples mode = 0.
Proof.
  intros Hs Hu. unfold clamp_samples. rewrite Hu.
  destruct (samples =? 0) eqn:E; [|done]. apply Z.eqb_eq in E. done.
Qed.

(** The clamp of [samples]: when a non-zero [samples] is requested and the
    device lacks the multisample-renderbuffer extension, or the
    multisample-texture extension while the colour or the depth surface is
    texture-backed, or the blit extension, the call runs exactly as the call
    with [samples = 0] does, and every object it returns answers 0 to
    [GPU_offscreen_samples]. *)
Lemma offscreen_create_clamp dev width height samples data_type mode s :
  samples ≠ 0 → multisample_unsupported dev mode = true →
  GPU_offscreen_create dev width height samples data_type mode s
    = GPU_offscreen_create dev width height 0 data_type mode s
  ∧ ∀ ofs s',
      GPU_offscreen_create dev width height samples data_type mode s = Ok (Some ofs) s' →
      GPU_offscreen_samples ofs = 0.
Proof.
  intros Hpos Hunsup. split.
  - unfold GPU_offscreen_create.
    rewrite (clamp_samples_unsupported dev samples mode) by done.
    reflexivity.
  - intros ofs s' H. apply offscreen_create_inv in H as (_ & _ & Hs & _).
    unfold GPU_offscreen_samples. rewrite Hs.
    by apply clamp_samples_unsupported.
Qed.

(** On a device without the blit extension a request for 8 samples with
    both surfaces renderbuffer-backed returns an object, and its sample
    count is 0. *)
Lemma offscreen_create_clamp_example :
  ∃ s', GPU_offscreen_create dev_no_blit 64 32 8 GPU_RGBA8 mode_renderbuffers st_empty
          = Ok (Some (mkOfs (Some 1%positive) None None (Some 2%positive)
                            (Some 3%positive) 0)) s'.
Proof. eexists. vm_compute. reflexivity. Qed.

(** C4, at the failing input: 8 samples are requested with texture-backed
    surfaces (mode 0) on a device that lacks the multisample-texture
    extension and grants every request.  The capability test holds and
    [samples] is clamped to 0, as the claim says, but no object whose
    [samples()] is 0 is produced: the run then attaches [ofs->depth], still
    NULL, and dereferences it. *)
Theorem offscreen_create_unsupported_multisample_faults :
  multisample_unsupported dev_no_texture_multisample 0 = true
  ∧ clamp_samples dev_no_texture_multisample 8 0 = 0
  ∧ GPU_offscreen_create dev_no_texture_multisample 64 32 8 GPU_RGBA8 0 st_empty = Fault.
Proof. repeat split; vm_compute; reflexivity. Qed.
(** * Creating and validating a framebuffer *)

(** X1: when the device hands out a framebuffer name, [GPU_framebuffer_create]
    returns a new struct with that handle and nothing attached, leaves the
    device bound to the default framebuffer and does not touch
    [GG.currentfb] or any other struct. *)
Theorem framebuffer_create_success dev s :
  dev_gen_framebuffer dev (gl_trace s) ≠ 0 →
  let a := next_addr s in
  let name := dev_gen_framebuffer dev (gl_trace s) in
  ∃ s', GPU_framebuffer_create dev s = Ok (Some a) s'
    ∧ fbs s' = <[a := fb_new name]> (fbs s)
    ∧ texs s' = texs s ∧ rbs s' = rbs s
    ∧ GG_currentfb s' = GG_currentfb s
    ∧ next_addr s' = Pos.succ a
    ∧ stderr s' = stderr s
    ∧ gl_trace s' = gl_trace s ++
        [glGenFramebuffers name; glBindFramebuffer GL_FRAMEBUFFER name;
         glReadBuffer GL_NONE; glDrawBuffer GL_NONE;
         glBindFramebuffer GL_FRAMEBUFFER 0].
Proof.
  intros Hname a name.
  unfold GPU_framebuffer_create, MEM_callocN. run.
  fold a. fold name.
  destruct (name =? 0) eqn:E; [apply Z.eqb_eq in E; done|]. run.
  eexists. split; [reflexivity|]. cbn. unfold fb_new, with_object. cbn.
  rewrite insert_insert_eq, <- !app_assoc. done.
Qed.

Lemma framebuffer_create_success_witness :
  ∃ s', GPU_framebuffer_create dev_full st_empty = Ok (Some 1%positive) s'
    ∧ fbs s' = <[1%positive := fb_new 1]> (fbs st_empty)
    ∧ texs s' = texs st_empty ∧ rbs s' = rbs st_empty
    ∧ GG_currentfb s' = GG_currentfb st_empty
    ∧ next_addr s' = 2%positive
    ∧ stderr s' = stderr st_empty
    ∧ gl_trace s' = gl_trace st_empty ++
        [glGenFramebuffers 1; glBindFramebuffer GL_FRAMEBUFFER 1;
         glReadBuffer GL_NONE; glDrawBuffer GL_NONE;
         glBindFramebuffer GL_FRAMEBUFFER 0].
Proof.
  apply (framebuffer_create_success dev_full st_empty). discriminate.
Defined.

(** X2: when the device hands out no name, [GPU_framebuffer_create] prints
    its message, releases the struct it allocated and returns NULL: with a
    fresh allocation address every heap is as before, no delete or bind
    call is made and [GG.currentfb] is unchanged. *)
Theorem framebuffer_create_failure dev s :
  dev_gen_framebuffer dev (gl_trace s) = 0 →
  fbs s !! next_addr s = None →
  ∃ s', GPU_framebuffer_create dev s = Ok None s'
    ∧ fbs s' = fbs s ∧ texs s' = texs s ∧ rbs s' = rbs s
    ∧ GG_currentfb s' = GG_currentfb s
    ∧ stderr s' = stderr s ++ ["GPUFFrameBuffer: framebuffer gen failed."]
    ∧ gl_trace s' = gl_trace s ++ [glGenFramebuffers 0].
Proof.
  intros Hname Hfresh.
  unfold GPU_framebuffer_create, MEM_callocN. run. rewrite Hname.
  change (0 =? 0) with true. run.
  unfold GPU_framebuffer_free, free_detach_all, free_release, free_detach_colortex,
    free_detach_colorrb, load_colortex, load_colorrb, arr_read, MEM_freeN_fb.
  unfold with_object. cbn [replicate]. run_slots.
  change (0 =? 0) with true. run_slots.
  eexists. split; [reflexivity|]. cbn.
  rewrite !insert_insert_eq, delete_insert_eq. repeat split; try done.
  by apply delete_id.
Qed.

Lemma framebuffer_create_failure_witness :
  ∃ s', GPU_framebuffer_create dev_no_alloc st_unattached = Ok None s'
    ∧ fbs s' = fbs st_unattached ∧ texs s' = texs st_unattached
    ∧ rbs s' = rbs st_unattached
    ∧ GG_currentfb s' = GG_currentfb st_unattached
    ∧ stderr s' = stderr st_unattached ++ ["GPUFFrameBuffer: framebuffer gen failed."]
    ∧ gl_trace s' = gl_trace st_unattached ++ [glGenFramebuffers 0].
Proof.
  apply (framebuffer_create_failure dev_no_alloc st_unattached); reflexivity.
Defined.

(** X3: [GPU_framebuffer_check_valid] binds the framebuffer and returns
    whether the device reports it complete.  When complete the framebuffer
    stays bound and recorded as current; otherwise the default framebuffer
    is bound again, [GG.currentfb] is 0 and one line naming the status is
    printed.  No struct changes either way. *)
Theorem check_valid_spec dev fb fv s :
  fbs s !! fb = Some fv →
  let status :=
    dev_framebuffer_status dev
      (gl_trace s ++ [glBindFramebuffer GL_FRAMEBUFFER (fb_object fv)]) in
  let complete := status =? GL_FRAMEBUFFER_COMPLETE in
  ∃ s', GPU_framebuffer_check_valid dev (Some fb) s = Ok complete s'
    ∧ fbs s' = fbs s ∧ texs s' = texs s ∧ rbs s' = rbs s
    ∧ GG_currentfb s' = (if complete then fb_object fv else 0)
    ∧ stderr s' = stderr s ++
        (if complete then []
         else ["GPUFrameBuffer: framebuffer status " +:+ status_name status])
    ∧ gl_trace s' = gl_trace s ++
        [glBindFramebuffer GL_FRAMEBUFFER (fb_object fv);
         glCheckFramebufferStatus GL_FRAMEBUFFER] ++
        (if complete || (fb_object fv =? 0) then []
         else [glBindFramebuffer GL_FRAMEBUFFER 0]).
Proof.
  intros Hfb status complete.
  unfold GPU_framebuffer_check_valid, GPU_framebuffer_restore,
    gpu_print_framebuffer_error.
  run. fold status. fold complete.
  destruct complete eqn:Hc; run.
  - eexists. split; [reflexivity|]. cbn. rewrite app_nil_r, <- !app_assoc. done.
  - destruct (fb_object fv =? 0) eqn:Hobj; run.
    + eexists. split; [reflexivity|]. cbn.
      apply Z.eqb_eq in Hobj. rewrite <- !app_assoc. done.
    + eexists. split; [reflexivity|]. cbn. rewrite <- !app_assoc. done.
Qed.

Lemma check_valid_spec_witness :
  ∃ s', GPU_framebuffer_check_valid dev_incomplete (Some 1%positive) st_unattached
          = Ok false s'
    ∧ fbs s' = fbs st_unattached ∧ texs s' = texs st_unattached
    ∧ rbs s' = rbs st_unattached
    ∧ GG_currentfb s' = 0
    ∧ stderr s' =
        ["GPUFrameBuffer: framebuffer status GL_FRAMEBUFFER_INCOMPLETE_MISSING_ATTACHMENT"]
    ∧ gl_trace s' =
        [glBindFramebuffer GL_FRAMEBUFFER 11;
         glCheckFramebufferStatus GL_FRAMEBUFFER;
         glBindFramebuffer GL_FRAMEBUFFER 0].
Proof.
  apply (check_valid_spec dev_incomplete 1%positive (ex_fb_empty 11) st_unattached).
  reflexivity.
Defined.

(** X4: after [GPU_framebuffer_restore] no framebuffer is current: the
    bind call is made only if one was, a second restore changes nothing,
    and [GPU_framebuffer_bound] then answers true only for a struct whose
    handle is 0. *)
Theorem restore_unbinds fb fv s :
  fbs s !! fb = Some fv →
  ∃ s', GPU_framebuffer_restore s = Ok tt s'
    ∧ GG_currentfb s' = 0
    ∧ fbs s' = fbs s ∧ texs s' = texs s ∧ rbs s' = rbs s
    ∧ gl_trace s' = gl_trace s ++
        (if GG_currentfb s =? 0 then [] else [glBindFramebuffer GL_FRAMEBUFFER 0])
    ∧ GPU_framebuffer_restore s' = Ok tt s'
    ∧ GPU_framebuffer_bound (Some fb) s' = Ok (fb_object fv =? 0) s'.
Proof.
  intros Hfb. unfold GPU_framebuffer_restore, GPU_framebuffer_bound. run.
  destruct (GG_currentfb s =? 0) eqn:Hcur; run.
  - apply Z.eqb_eq in Hcur. exists s. rewrite app_nil_r. run. rewrite Hcur. change (0 =? 0) with true. done.
  - eexists. split; [reflexivity|]. run. done.
Qed.

Lemma restore_unbinds_witness :
  ∃ s', GPU_framebuffer_restore st_unattached = Ok tt s'
    ∧ GG_currentfb s' = 0
    ∧ fbs s' = fbs st_unattached ∧ texs s' = texs st_unattached
    ∧ rbs s' = rbs st_unattached
    ∧ gl_trace s' = [glBindFramebuffer GL_FRAMEBUFFER 0]
    ∧ GPU_framebuffer_restore s' = Ok tt s'
    ∧ GPU_framebuffer_bound (Some 1%positive) s' = Ok false s'.
Proof.
  apply (restore_unbinds 1%positive (ex_fb_empty 11) st_unattached). reflexivity.
Defined.

(** X5: [GPU_framebuffer_bind_simple] reads no attachment, so it finishes
    for a framebuffer with nothing attached as well; afterwards
    [GPU_framebuffer_bound] is true for it, and true for another struct
    exactly when the two handles are equal. *)
Theorem bind_simple_then_bound fb fb' fv fv' s :
  fbs s !! fb = Some fv → fbs s !! fb' = Some fv' →
  ∃ s', GPU_framebuffer_bind_simple (Some fb) s = Ok tt s'
    ∧ GPU_framebuffer_bound (Some fb) s' = Ok true s'
    ∧ GPU_framebuffer_bound (Some fb') s' = Ok (fb_object fv' =? fb_object fv) s'
    ∧ fbs s' = fbs s ∧ texs s' = texs s ∧ rbs s' = rbs s
    ∧ gl_trace s' = gl_trace s ++
        [glBindFramebuffer GL_FRAMEBUFFER (fb_object fv);
         glDrawBuffer GL_COLOR_ATTACHMENT0; glReadBuffer GL_COLOR_ATTACHMENT0].
Proof.
  intros Hfb Hfb'. unfold GPU_framebuffer_bind_simple, GPU_framebuffer_bound. run.
  eexists. split; [reflexivity|]. run. rewrite Z.eqb_refl, <- !app_assoc. done.
Qed.

Lemma bind_simple_then_bound_witness :
  ∃ s', GPU_framebuffer_bind_simple (Some 2%positive) st_two_targets = Ok tt s'
    ∧ GPU_framebuffer_bound (Some 2%positive) s' = Ok true s'
    ∧ GPU_framebuffer_bound (Some 1%positive) s' = Ok false s'
    ∧ fbs s' = fbs st_two_targets ∧ texs s' = texs st_two_targets
    ∧ rbs s' = rbs st_two_targets
    ∧ gl_trace s' =
        [glBindFramebuffer GL_FRAMEBUFFER 12;
         glDrawBuffer GL_COLOR_ATTACHMENT0; glReadBuffer GL_COLOR_ATTACHMENT0].
Proof.
  apply (bind_simple_then_bound 2%positive 1%positive (ex_fb_empty 12)
           (mkFB 11 [Some 3%positive; None; None; None] None
                 [None; None; None; None] None) st_two_targets);
    reflexivity.
Defined.

(** * Renderbuffer attachments *)

Lemma drain_errors_pending q : errors_pending q → drain_errors q = [].
Proof.
  induction 1 as [|e q He _ IH]; [done|]. cbn.
  destruct (e =? GL_NO_ERROR) eqn:E; [apply Z.eqb_eq in E; done | done].
Qed.

Lemma renderbuffer_attach_run dev fb rb fv rv slot s :
  fbs s !! fb = Some fv → rbs s !! rb = Some rv → slot < 4 →
  (rb_depth rv = false → 0 <= slot ∧ length (colorrb fv) = 4%nat) →
  errors_pending (gl_errors s) →
  let e := dev_attach_error dev
             (gl_trace s ++ [glBindFramebuffer GL_FRAMEBUFFER (fb_object fv)]) in
  let calls := [glBindFramebuffer GL_FRAMEBUFFER (fb_object fv);
                glFramebufferRenderbuffer GL_FRAMEBUFFER (rb_attachment_point rv slot)
                  GL_RENDERBUFFER (rb_bindcode rv)] in
  ∃ s', GPU_framebuffer_renderbuffer_attach dev (Some fb) (Some rb) slot s
          = Ok (negb (e =? GL_INVALID_OPERATION)) s'
    ∧ texs s' = texs s ∧ gl_errors s' = [] ∧ next_addr s' = next_addr s
    ∧ if e =? GL_INVALID_OPERATION then
        fbs s' = fbs s ∧ rbs s' = rbs s ∧ GG_currentfb s' = 0
        ∧ stderr s' = stderr s ++ ["GPUFrameBuffer: framebuffer status unknown"]
        ∧ gl_trace s' = gl_trace s ++ calls ++
            (if fb_object fv =? 0 then [] else [glBindFramebuffer GL_FRAMEBUFFER 0])
      else
        fbs s' = <[fb := fb_attach_rb rv rb slot fv]> (fbs s)
        ∧ rbs s' = <[rb := rb_set_fb (Some fb) slot rv]> (rbs s)
        ∧ GG_currentfb s' = fb_object fv
        ∧ stderr s' = stderr s
        ∧ gl_trace s' = gl_trace s ++ calls.
Proof.
  intros Hfb Hrb Hslot Hcol Hpend e calls.
  unfold GPU_framebuffer_renderbuffer_attach.
  replace (GPU_FB_MAX_SLOTS <=? slot) with false by (unfold GPU_FB_MAX_SLOTS; lia).
  unfold GPU_renderbuffer_depth, GPU_renderbuffer_bindcode, clean_gl_errors,
    glFramebufferRenderbufferEXT, glGetError, GPU_framebuffer_restore,
    gpu_print_framebuffer_error, GPU_renderbuffer_framebuffer_set, store_colorrb,
    arr_write, fb_attach_rb, rb_attachment_point.
  run. rewrite (drain_errors_pending _ Hpend). fold e.
  assert (Hzero_ne : (e =? GL_NO_ERROR) = true → (e =? GL_INVALID_OPERATION) = false).
  { intros H. apply Z.eqb_eq in H. by rewrite H. }
  destruct (e =? GL_NO_ERROR) eqn:Hzero; run_slots;
    [rewrite (Hzero_ne eq_refl);
     change (GL_NO_ERROR =? GL_INVALID_OPERATION) with false
    |destruct (e =? GL_INVALID_OPERATION) eqn:Hinv]; run_slots.
  all: try (destruct (fb_object fv =? 0) eqn:Hobj; run_slots).
  all: try (destruct (rb_depth rv) eqn:Hd; run_slots;
            [|destruct (Hcol eq_refl) as [H0 Hlen];
              rewrite slot_index_valid by lia;
              destruct (decide _) as [_|Hn]; [|exfalso; apply Hn; lia]; run_slots]).
  all: eexists; (split; [reflexivity|]); cbn; subst calls;
       unfold rb_attachment_point; rewrite ?Hd, ?app_nil_r, <- ?app_assoc;
       try (apply Z.eqb_eq in Hobj; rewrite ?Hobj);
       try (apply Z.eqb_eq in Hinv; rewrite ?Hinv); done.
Qed.

(** X6: a renderbuffer attach to a valid slot that the device does not
    answer with GL_INVALID_OPERATION succeeds, whatever other error the
    device raises and whatever stale errors were pending: a depth
    renderbuffer goes to the depth slot and leaves the colour slots alone, a
    colour one goes to colour slot [slot]; the back-reference becomes
    (fb, slot), the framebuffer is left bound and the error queue empty. *)
Theorem renderbuffer_attach_success dev fb rb fv rv slot s :
  fbs s !! fb = Some fv → rbs s !! rb = Some rv → slot < 4 →
  (rb_depth rv = false → 0 <= slot ∧ length (colorrb fv) = 4%nat) →
  errors_pending (gl_errors s) →
  dev_attach_error dev (gl_trace s ++ [glBindFramebuffer GL_FRAMEBUFFER (fb_object fv)])
    ≠ GL_INVALID_OPERATION →
  ∃ s', GPU_framebuffer_renderbuffer_attach dev (Some fb) (Some rb) slot s = Ok true s'
    ∧ fbs s' = <[fb := fb_attach_rb rv rb slot fv]> (fbs s)
    ∧ fb_rb_entry rv slot (fb_attach_rb rv rb slot fv) = Some (Some rb)
    ∧ rbs s' = <[rb := rb_set_fb (Some fb) slot rv]> (rbs s)
    ∧ texs s' = texs s
    ∧ GG_currentfb s' = fb_object fv
    ∧ gl_errors s' = [] ∧ stderr s' = stderr s
    ∧ gl_trace s' = gl_trace s ++
        [glBindFramebuffer GL_FRAMEBUFFER (fb_object fv);
         glFramebufferRenderbuffer GL_FRAMEBUFFER (rb_attachment_point rv slot)
           GL_RENDERBUFFER (rb_bindcode rv)].
Proof.
  intros Hfb Hrb Hslot Hcol Hpend Herr.
  destruct (renderbuffer_attach_run dev fb rb fv rv slot s Hfb Hrb Hslot Hcol Hpend)
    as (s' & Hrun & Htexs & Hq & _ & Hrest).
  destruct (_ =? GL_INVALID_OPERATION) eqn:E in Hrun, Hrest;
    [apply Z.eqb_eq in E; done|].
  destruct Hrest as (? & ? & ? & ? & ?).
  exists s'. repeat split; try done.
  unfold fb_rb_entry, fb_attach_rb. destruct (rb_depth rv) eqn:Hd; [done|].
  destruct (Hcol eq_refl). cbn. apply list_lookup_insert_eq. lia.
Qed.

Lemma renderbuffer_attach_success_witness :
  ∃ s', GPU_framebuffer_renderbuffer_attach dev_full (Some 1%positive) (Some 3%positive)
          2 st_rb_unattached = Ok true s'
    ∧ fbs s' = <[1%positive := with_depthrb (Some 3%positive) (ex_fb_empty 11)]>
                 (fbs st_rb_unattached)
    ∧ fb_rb_entry (mkRB 64 64 0 None (-1) true 32) 2
        (with_depthrb (Some 3%positive) (ex_fb_empty 11)) = Some (Some 3%positive)
    ∧ rbs s' = <[3%positive := mkRB 64 64 0 (Some 1%positive) 2 true 32]>
                 (rbs st_rb_unattached)
    ∧ texs s' = texs st_rb_unattached
    ∧ GG_currentfb s' = 11
    ∧ gl_errors s' = [] ∧ stderr s' = stderr st_rb_unattached
    ∧ gl_trace s' =
        [glBindFramebuffer GL_FRAMEBUFFER 11;
         glFramebufferRenderbuffer GL_FRAMEBUFFER GL_DEPTH_ATTACHMENT GL_RENDERBUFFER 32].
Proof.
  apply (renderbuffer_attach_success dev_full 1%positive 3%positive (ex_fb_empty 11)
           (mkRB 64 64 0 None (-1) true 32) 2 st_rb_unattached);
    try reflexivity; try lia; try discriminate.
  repeat constructor. discriminate.
Defined.

(** X7: when the device answers the attach call with GL_INVALID_OPERATION,
    the renderbuffer attach returns failure with every struct as before (no
    slot entry, no back-reference), but not the binding: the default
    framebuffer is bound and [GG.currentfb] is 0.  The line it prints names
    the status "unknown", the error code being no framebuffer status. *)
Theorem renderbuffer_attach_rejected dev fb rb fv rv slot s :
  fbs s !! fb = Some fv → rbs s !! rb = Some rv → slot < 4 →
  (rb_depth rv = false → 0 <= slot ∧ length (colorrb fv) = 4%nat) →
  errors_pending (gl_errors s) →
  dev_attach_error dev (gl_trace s ++ [glBindFramebuffer GL_FRAMEBUFFER (fb_object fv)])
    = GL_INVALID_OPERATION →
  ∃ s', GPU_framebuffer_renderbuffer_attach dev (Some fb) (Some rb) slot s = Ok false s'
    ∧ fbs s' = fbs s ∧ rbs s' = rbs s ∧ texs s' = texs s
    ∧ GG_currentfb s' = 0
    ∧ gl_errors s' = []
    ∧ stderr s' = stderr s ++ ["GPUFrameBuffer: framebuffer status unknown"].
Proof.
  intros Hfb Hrb Hslot Hcol Hpend Herr.
  destruct (renderbuffer_attach_run dev fb rb fv rv slot s Hfb Hrb Hslot Hcol Hpend)
    as (s' & Hrun & Htexs & Hq & _ & Hrest).
  rewrite Herr in Hrun, Hrest. cbn in Hrun, Hrest.
  destruct Hrest as (? & ? & ? & ? & ?).
  exists s'. done.
Qed.

Lemma renderbuffer_attach_rejected_witness :
  ∃ s', GPU_framebuffer_renderbuffer_attach dev_reject_attach (Some 1%positive)
          (Some 2%positive) 0 st_rb_unattached = Ok false s'
    ∧ fbs s' = fbs st_rb_unattached ∧ rbs s' = rbs st_rb_unattached
    ∧ texs s' = texs st_rb_unattached
    ∧ GG_currentfb s' = 0
    ∧ gl_errors s' = []
    ∧ stderr s' = stderr st_rb_unattached ++ ["GPUFrameBuffer: framebuffer status unknown"].
Proof.
  apply (renderbuffer_attach_rejected dev_reject_attach 1%positive 2%positive
           (ex_fb_empty 11) (mkRB 64 64 0 None (-1) false 31) 0 st_rb_unattached);
    try reflexivity; try lia.
  - intros _. split; [lia | reflexivity].
  - repeat constructor. discriminate.
Defined.

Lemma renderbuffer_detach_unattached rb rv s :
  rbs s !! rb = Some rv → rb_fb rv = None →
  GPU_framebuffer_renderbuffer_detach (Some rb) s = Ok tt s.
Proof.
  intros Hrb Hfb.
  unfold GPU_framebuffer_renderbuffer_detach, GPU_renderbuffer_framebuffer,
    GPU_renderbuffer_framebuffer_attachment.
  run. rewrite Hfb. by run.
Qed.

(** X8: for a renderbuffer and an empty entry of its role in a valid slot,
    a successful attach followed by detach gives the framebuffer struct
    back as it was and leaves the back-reference (NULL, -1), whatever index
    it recorded before (0 in a renderbuffer fresh from
    [GPU_renderbuffer_create]); one more detach then changes nothing. *)
Theorem renderbuffer_attach_detach_round_trip dev fb rb fv rv slot s :
  fbs s !! fb = Some fv → rbs s !! rb = Some rv →
  length (colorrb fv) = 4%nat → 0 <= slot < 4 →
  fb_rb_entry rv slot fv = Some None →
  errors_pending (gl_errors s) →
  dev_attach_error dev (gl_trace s ++ [glBindFramebuffer GL_FRAMEBUFFER (fb_object fv)])
    ≠ GL_INVALID_OPERATION →
  ∃ s1 s2,
    GPU_framebuffer_renderbuffer_attach dev (Some fb) (Some rb) slot s = Ok true s1
    ∧ GPU_framebuffer_renderbuffer_detach (Some rb) s1 = Ok tt s2
    ∧ fbs s2 = fbs s ∧ texs s2 = texs s
    ∧ rbs s2 = <[rb := rb_set_fb None (-1) rv]> (rbs s)
    ∧ GPU_framebuffer_renderbuffer_detach (Some rb) s2 = Ok tt s2.
Proof.
  intros Hfb Hrb Hlen Hslot Hentry Hpend Herr.
  destruct (renderbuffer_attach_run dev fb rb fv rv slot s Hfb Hrb) as
    (s1 & Hrun1 & Htexs1 & _ & _ & Hrest); [lia | intros _; split; [lia|done] | done |].
  destruct (_ =? GL_INVALID_OPERATION) eqn:E in Hrun1, Hrest;
    [apply Z.eqb_eq in E; done|].
  destruct Hrest as (Hfbs1 & Hrbs1 & _).
  set (p := if rb_depth rv then PDepth else PColor (Z.to_nat slot)).
  assert (Hfb1 : fbs s1 !! fb = Some (fb_attach_rb rv rb slot fv))
    by (rewrite Hfbs1; apply lookup_insert_eq).
  assert (Hrb1 : rbs s1 !! rb = Some (rb_set_fb (Some fb) slot rv))
    by (rewrite Hrbs1; apply lookup_insert_eq).
  assert (Hat : rb_at (fb_attach_rb rv rb slot fv) p = Some (Some rb)).
  { unfold p, fb_attach_rb. destruct (rb_depth rv); cbn; [done|].
    apply list_lookup_insert_eq. lia. }
  assert (Hclear : clear_rb p (fb_attach_rb rv rb slot fv) = fv).
  { unfold p, fb_attach_rb, fb_rb_entry in *.
    destruct (rb_depth rv); destruct fv as [o ct dt cr dr]; cbn in *.
    - injection Hentry as ->. reflexivity.
    - unfold with_colorrb. cbn. f_equal.
      rewrite list_insert_insert_eq. by apply list_insert_id. }
  destruct (renderbuffer_detach_place fb _ p rb s1 Hfb1) as
    (s2 & rv1 & Hrun2 & Hrv1 & Hfbs2 & Hrbs2 & Htexs2 & _).
  { unfold fb_attach_rb. destruct (rb_depth rv); cbn; [done|]. by rewrite length_insert. }
  { done. }
  { exists (rb_set_fb (Some fb) slot rv). split; [done|]. split; [done|].
    unfold p. cbn. destruct (rb_depth rv); [done|]. split; [done|]. lia. }
  assert (rv1 = rb_set_fb (Some fb) slot rv) as -> by congruence.
  exists s1, s2. split; [done|]. split; [done|].
  assert (Hrbs2' : rbs s2 = <[rb := rb_set_fb None (-1) rv]> (rbs s)).
  { rewrite Hrbs2, Hrbs1, insert_insert_eq. done. }
  repeat split.
  - rewrite Hfbs2, Hfbs1, insert_insert_eq, Hclear. by apply insert_id.
  - congruence.
  - done.
  - apply (renderbuffer_detach_unattached rb (rb_set_fb None (-1) rv)); [|reflexivity].
    rewrite Hrbs2'. apply lookup_insert_eq.
Qed.

Lemma renderbuffer_attach_detach_round_trip_witness :
  ∃ s1 s2,
    GPU_framebuffer_renderbuffer_attach dev_full (Some 1%positive) (Some 2%positive)
      1 st_rb_unattached = Ok true s1
    ∧ GPU_framebuffer_renderbuffer_detach (Some 2%positive) s1 = Ok tt s2
    ∧ fbs s2 = fbs st_rb_unattached ∧ texs s2 = texs st_rb_unattached
    ∧ rbs s2 = <[2%positive := rb_set_fb None (-1) (mkRB 64 64 0 None (-1) false 31)]>
                 (rbs st_rb_unattached)
    ∧ GPU_framebuffer_renderbuffer_detach (Some 2%positive) s2 = Ok tt s2.
Proof.
  apply (renderbuffer_attach_detach_round_trip dev_full 1%positive 2%positive
           (ex_fb_empty 11) (mkRB 64 64 0 None (-1) false 31) 1 st_rb_unattached);
    try reflexivity; try lia; try discriminate.
  repeat constructor. discriminate.
Defined.

(** X9: detaching a texture whose back-reference is NULL changes nothing,
    so detach is idempotent: after a detach of an attached texture a second
    detach returns at once with the state as the first one left it. *)
Theorem texture_detach_idempotent tex :
  (∀ tv target s, texs s !! tex = Some tv → tex_fb tv = None →
     GPU_framebuffer_texture_detach_target (Some tex) target s = Ok tt s)
  ∧ (∀ fb fv tv target target' s,
       texs s !! tex = Some tv → tex_fb tv = Some fb → fbs s !! fb = Some fv →
       (tex_depth tv = false →
          0 <= tex_fb_attachment tv < 4
          ∧ colortex fv !! Z.to_nat (tex_fb_attachment tv) = Some (Some tex)) →
       ∃ s', GPU_framebuffer_texture_detach_target (Some tex) target s = Ok tt s'
         ∧ tex_detached s' tex
         ∧ GPU_framebuffer_texture_detach_target (Some tex) target' s' = Ok tt s').
Proof.
  split.
  - intros tv target s. apply detach_target_unattached.
  - intros fb fv tv target target' s Htex Hback Hfb Hcol.
    destruct (detach_target_spec fb tex fv tv target s Htex Hback Hfb Hcol)
      as (s' & Hrun & _ & Htexs & _).
    assert (Htex' : texs s' !! tex = Some (tex_set_fb None (-1) tv))
      by (rewrite Htexs; apply lookup_insert_eq).
    exists s'. split; [done|]. split.
    + by exists (tex_set_fb None (-1) tv).
    + by eapply detach_target_unattached.
Qed.

Lemma texture_detach_idempotent_witness :
  GPU_framebuffer_texture_detach_target (Some 2%positive) GL_TEXTURE_2D st_unattached
    = Ok tt st_unattached
  ∧ ∃ s', GPU_framebuffer_texture_detach_target (Some 3%positive) GL_TEXTURE_2D
            st_two_targets = Ok tt s'
      ∧ tex_detached s' 3%positive
      ∧ GPU_framebuffer_texture_detach_target (Some 3%positive) GL_TEXTURE_2D s' = Ok tt s'.
Proof.
  split.
  - apply (proj1 (texture_detach_idempotent 2%positive)
             (ex_color_tex 64 64 None (-1)) GL_TEXTURE_2D st_unattached);
      reflexivity.
  - apply (proj2 (texture_detach_idempotent 3%positive) 1%positive
             (mkFB 11 [Some 3%positive; None; None; None] None
                   [None; None; None; None] None)
             (ex_color_tex 64 64 (Some 1%positive) 0)
             GL_TEXTURE_2D GL_TEXTURE_2D st_two_targets);
      try reflexivity.
    intros _. split; [cbn; lia | reflexivity].
Defined.

(** * More on texture attach and detach *)

Lemma attach_target_effects fb tex fv tv target slot mip s :
  fbs s !! fb = Some fv → texs s !! tex = Some tv → slot < 4 →
  (tex_depth tv = false → 0 <= slot ∧ length (colortex fv) = 4%nat) →
  ∃ s', GPU_framebuffer_texture_attach_target (Some fb) (Some tex) target slot mip s
          = Ok true s'
    ∧ fbs s' = <[fb := fb_attach_tex tv tex slot fv]> (fbs s)
    ∧ texs s' = <[tex := tex_set_fb (Some fb) slot tv]> (texs s)
    ∧ GG_currentfb s' = fb_object fv
    ∧ stderr s' = stderr s ++ feedback_warning s tv
    ∧ gl_trace s' = gl_trace s ++
        [glBindFramebuffer GL_FRAMEBUFFER (fb_object fv);
         glFramebufferTexture GL_FRAMEBUFFER (attachment_point tv slot)
           (tex_bindcode tv) mip].
Proof.
  intros Hfb Htex Hslot Hcol.
  unfold GPU_framebuffer_texture_attach_target, fb_attach_tex, feedback_warning,
    attachment_point.
  replace (GPU_FB_MAX_SLOTS <=? slot) with false by (unfold GPU_FB_MAX_SLOTS; lia).
  unfold GPU_texture_stencil, GPU_texture_depth, GPU_texture_opengl_bindcode,
    GPU_texture_framebuffer_set, GPU_texture_bound_number, store_colortex, arr_write.
  destruct (tex_depth tv) eqn:Hd.
  - destruct (G_debug s) eqn:Hdbg; run;
      [destruct (tex_number tv =? -1); run|];
      (eexists; split; [reflexivity|]); cbn; rewrite ?app_nil_r, <- ?app_assoc; done.
  - destruct (Hcol eq_refl) as [H0 Hlen].
    rewrite slot_index_valid by lia.
    destruct (G_debug s) eqn:Hdbg; run;
      [destruct (tex_number tv =? -1); run|];
      (destruct (decide _) as [_|Hn]; [run | exfalso; apply Hn; lia]);
      (eexists; split; [reflexivity|]); cbn;
      rewrite ?andb_false_r, ?app_nil_r, <- ?app_assoc; done.
Qed.

Lemma detach_target_effects fb tex fv tv target s :
  texs s !! tex = Some tv → tex_fb tv = Some fb → fbs s !! fb = Some fv →
  (tex_depth tv = false →
     0 <= tex_fb_attachment tv < 4
     ∧ colortex fv !! Z.to_nat (tex_fb_attachment tv) = Some (Some tex)) →
  ∃ s', GPU_framebuffer_texture_detach_target (Some tex) target s = Ok tt s'
    ∧ fbs s' = <[fb := fb_detach_tex tv fv]> (fbs s)
    ∧ texs s' = <[tex := tex_set_fb None (-1) tv]> (texs s)
    ∧ stderr s' = stderr s
    ∧ gl_trace s' = gl_trace s ++ rebind_calls s fv ++
        [glFramebufferTexture GL_FRAMEBUFFER
           (attachment_point tv (tex_fb_attachment tv)) 0 0].
Proof.
  intros Htex Hback Hfb Hcol.
  unfold GPU_framebuffer_texture_detach_target, GPU_texture_framebuffer,
    GPU_texture_framebuffer_attachment, GPU_texture_stencil, GPU_texture_depth,
    GPU_texture_framebuffer_set, load_colortex, store_colortex, arr_read, arr_write,
    fb_detach_tex, rebind_calls, attachment_point.
  run. rewrite Hback. run.
  destruct (tex_depth tv) eqn:Hd.
  - destruct (GG_currentfb s =? fb_object fv) eqn:Hcur; run;
      destruct (tex_stencil tv); run;
      (eexists; split; [reflexivity|]); cbn; rewrite <- ?app_assoc; done.
  - destruct (Hcol eq_refl) as [Hrange Hcur_slot].
    assert (Hlen : (Z.to_nat (tex_fb_attachment tv) < length (colortex fv))%nat)
      by (eapply lookup_lt_Some; eauto).
    rewrite slot_index_valid by lia.
    destruct (GG_currentfb s =? fb_object fv) eqn:Hcur; run;
      rewrite andb_false_r; run;
      rewrite bool_decide_eq_true_2 by done; run;
      (destruct (decide _) as [_|Hn]; [run | done]);
      (eexists; split; [reflexivity|]); cbn; rewrite <- ?app_assoc; done.
Qed.

(** X10: a texture attach to a valid slot always succeeds and makes two
    OpenGL calls: the bind of the framebuffer and one attach at the point
    the texture's role selects (depth-stencil before depth before colour
    slot [slot]) at the mip level given.  In debug mode a texture that is
    bound to a texture unit gets the feedback-loop warning on stderr and is
    attached all the same; otherwise nothing is printed. *)
Theorem texture_attach_calls_and_warning fb tex fv tv target slot mip s :
  fbs s !! fb = Some fv → texs s !! tex = Some tv →
  length (colortex fv) = 4%nat → 0 <= slot < 4 →
  ∃ s', GPU_framebuffer_texture_attach_target (Some fb) (Some tex) target slot mip s
          = Ok true s'
    ∧ fbs s' !! fb = Some (fb_attach_tex tv tex slot fv)
    ∧ stderr s' = stderr s ++
        (if G_debug s && negb (tex_number tv =? -1) then [feedback_loop_msg] else [])
    ∧ gl_trace s' = gl_trace s ++
        [glBindFramebuffer GL_FRAMEBUFFER (fb_object fv);
         glFramebufferTexture GL_FRAMEBUFFER
           (if tex_stencil tv && tex_depth tv then GL_DEPTH_STENCIL_ATTACHMENT
            else if tex_depth tv then GL_DEPTH_ATTACHMENT
            else GL_COLOR_ATTACHMENT0 + slot)
           (tex_bindcode tv) mip].
Proof.
  intros Hfb Htex Hlen Hslot.
  destruct (attach_target_effects fb tex fv tv target slot mip s Hfb Htex)
    as (s' & Hrun & Hfbs & _ & _ & Herr & Htrace); [lia | intros _; split; [lia|done] |].
  exists s'. split; [done|]. split; [|done].
  rewrite Hfbs. apply lookup_insert_eq.
Qed.

Lemma texture_attach_calls_and_warning_witness :
  ∃ s', GPU_framebuffer_texture_attach_target (Some 1%positive) (Some 2%positive)
          GL_TEXTURE_2D 3 5 st_debug_bound = Ok true s'
    ∧ fbs s' !! 1%positive
        = Some (mkFB 11 [None; None; None; Some 2%positive] None
                     [None; None; None; None] None)
    ∧ stderr s' = [feedback_loop_msg]
    ∧ gl_trace s' =
        [glBindFramebuffer GL_FRAMEBUFFER 11;
         glFramebufferTexture GL_FRAMEBUFFER (GL_COLOR_ATTACHMENT0 + 3) 21 5].
Proof.
  apply (texture_attach_calls_and_warning 1%positive 2%positive (ex_fb_empty 11)
           (mkTex 64 64 GL_TEXTURE_2D 21 0 false false None (-1))
           GL_TEXTURE_2D 3 5 st_debug_bound);
    try reflexivity; lia.
Defined.

(** X11: a detach that follows the attach of the same texture finds the
    framebuffer still bound, so it makes no bind call: its only OpenGL call
    clears (texture 0, level 0) the very attachment point the attach
    used. *)
Theorem texture_attach_then_detach_calls fb tex fv tv target target' slot mip s :
  fbs s !! fb = Some fv → texs s !! tex = Some tv →
  length (colortex fv) = 4%nat → 0 <= slot < 4 →
  ∃ s1 s2,
    GPU_framebuffer_texture_attach_target (Some fb) (Some tex) target slot mip s
      = Ok true s1
    ∧ GPU_framebuffer_texture_detach_target (Some tex) target' s1 = Ok tt s2
    ∧ gl_trace s2 = gl_trace s ++
        [glBindFramebuffer GL_FRAMEBUFFER (fb_object fv);
         glFramebufferTexture GL_FRAMEBUFFER (attachment_point tv slot)
           (tex_bindcode tv) mip;
         glFramebufferTexture GL_FRAMEBUFFER (attachment_point tv slot) 0 0]
    ∧ GG_currentfb s2 = fb_object fv.
Proof.
  intros Hfb Htex Hlen Hslot.
  destruct (attach_target_effects fb tex fv tv target slot mip s Hfb Htex)
    as (s1 & Hrun1 & Hfbs1 & Htexs1 & HGG1 & _ & Htrace1);
    [lia | intros _; split; [lia|done] |].
  assert (Hfb1 : fbs s1 !! fb = Some (fb_attach_tex tv tex slot fv))
    by (rewrite Hfbs1; apply lookup_insert_eq).
  assert (Htex1 : texs s1 !! tex = Some (tex_set_fb (Some fb) slot tv))
    by (rewrite Htexs1; apply lookup_insert_eq).
  assert (Hobj : fb_object (fb_attach_tex tv tex slot fv) = fb_object fv).
  { unfold fb_attach_tex. by destruct (tex_depth tv). }
  destruct (detach_target_spec fb tex _ _ target' s1 Htex1 eq_refl Hfb1)
    as (s2' & Hrun2' & _ & _ & _ & HGG2).
  { cbn [tex_set_fb tex_depth tex_fb_attachment]. intros Hd. split; [done|].
    unfold fb_attach_tex. rewrite Hd. cbn. apply list_lookup_insert_eq. lia. }
  destruct (detach_target_effects fb tex _ _ target' s1 Htex1 eq_refl Hfb1)
    as (s2 & Hrun2 & _ & _ & _ & Htrace2).
  { cbn [tex_set_fb tex_depth tex_fb_attachment]. intros Hd. split; [done|].
    unfold fb_attach_tex. rewrite Hd. cbn. apply list_lookup_insert_eq. lia. }
  assert (s2' = s2) as -> by congruence.
  exists s1, s2. split; [done|]. split; [done|]. split; [|congruence].
  rewrite Htrace2, Htrace1. unfold rebind_calls. rewrite HGG1, Hobj, Z.eqb_refl.
  cbn [app]. rewrite <- app_assoc. reflexivity.
Qed.

Lemma texture_attach_then_detach_calls_witness :
  ∃ s1 s2,
    GPU_framebuffer_texture_attach_target (Some 1%positive) (Some 3%positive)
      GL_TEXTURE_2D 1 0 st_unattached = Ok true s1
    ∧ GPU_framebuffer_texture_detach_target (Some 3%positive) GL_TEXTURE_2D s1 = Ok tt s2
    ∧ gl_trace s2 =
        [glBindFramebuffer GL_FRAMEBUFFER 11;
         glFramebufferTexture GL_FRAMEBUFFER GL_DEPTH_ATTACHMENT 22 0;
         glFramebufferTexture GL_FRAMEBUFFER GL_DEPTH_ATTACHMENT 0 0]
    ∧ GG_currentfb s2 = 11.
Proof.
  apply (texture_attach_then_detach_calls 1%positive 3%positive (ex_fb_empty 11)
           (ex_depth_tex 64 64 None (-1)) GL_TEXTURE_2D GL_TEXTURE_2D 1 0 st_unattached);
    try reflexivity; lia.
Defined.

(** X12: the slot test of the attach functions is an upper bound only.  For
    a colour texture a negative slot passes it and indexes [fb->colortex]
    out of bounds: undefined behaviour, not a reported failure.  A colour
    renderbuffer does the same unless the device rejects the attachment
    first. *)
Theorem attach_negative_slot_faults dev fb fv slot s :
  fbs s !! fb = Some fv → slot < 0 →
  (∀ tex tv target mip,
     texs s !! tex = Some tv → tex_depth tv = false →
     GPU_framebuffer_texture_attach_target (Some fb) (Some tex) target slot mip s = Fault)
  ∧ (∀ rb rv,
       rbs s !! rb = Some rv → rb_depth rv = false →
       errors_pending (gl_errors s) →
       dev_attach_error dev
         (gl_trace s ++ [glBindFramebuffer GL_FRAMEBUFFER (fb_object fv)])
         ≠ GL_INVALID_OPERATION →
       GPU_framebuffer_renderbuffer_attach dev (Some fb) (Some rb) slot s = Fault).
Proof.
  intros Hfb Hslot.
  assert (Hidx : slot_index slot = None).
  { unfold slot_index. replace (0 <=? slot) with false by lia. done. }
  split.
  - intros tex tv target mip Htex Hd.
    unfold GPU_framebuffer_texture_attach_target.
    replace (GPU_FB_MAX_SLOTS <=? slot) with false by (unfold GPU_FB_MAX_SLOTS; lia).
    unfold GPU_texture_stencil, GPU_texture_depth, GPU_texture_opengl_bindcode,
      GPU_texture_framebuffer_set, GPU_texture_bound_number, store_colortex, arr_write.
    rewrite Hidx.
    destruct (G_debug s) eqn:Hdbg; run;
      [destruct (tex_number tv =? -1); run|]; reflexivity.
  - intros rb rv Hrb Hd Hpend Herr.
    unfold GPU_framebuffer_renderbuffer_attach.
    replace (GPU_FB_MAX_SLOTS <=? slot) with false by (unfold GPU_FB_MAX_SLOTS; lia).
    unfold GPU_renderbuffer_depth, GPU_renderbuffer_bindcode, clean_gl_errors,
      glFramebufferRenderbufferEXT, glGetError, GPU_renderbuffer_framebuffer_set,
      store_colorrb, arr_write.
    rewrite Hidx. run. rewrite (drain_errors_pending _ Hpend).
    set (e := dev_attach_error dev _) in *.
    destruct (e =? GL_NO_ERROR) eqn:Hzero; run_slots.
    + change (GL_NO_ERROR =? GL_INVALID_OPERATION) with false. run_slots. reflexivity.
    + destruct (e =? GL_INVALID_OPERATION) eqn:Hinv;
        [apply Z.eqb_eq in Hinv; done|]. run_slots. reflexivity.
Qed.

Lemma attach_negative_slot_faults_witness :
  GPU_framebuffer_texture_attach_target (Some 1%positive) (Some 2%positive)
    GL_TEXTURE_2D (-1) 0 st_unattached = Fault.
Proof.
  apply (proj1 (attach_negative_slot_faults dev_full 1%positive (ex_fb_empty 11) (-1)
                  st_unattached eq_refl ltac:(lia))
           2%positive (ex_color_tex 64 64 None (-1)) GL_TEXTURE_2D 0);
    reflexivity.
Defined.

(** X13: attach does not look at what the slot holds.  Attaching colour
    texture B to a slot that holds colour texture A overwrites the entry and
    leaves A's back-reference naming that slot; the next detach of A then
    stops at [BLI_assert(fb->colortex[fb_attachment] == tex)]. *)
Theorem attach_over_occupied_slot_breaks_detach a b fb fv av bv target target' slot mip s :
  fbs s !! fb = Some fv → length (colortex fv) = 4%nat → 0 <= slot < 4 →
  texs s !! a = Some av → tex_fb av = Some fb → tex_fb_attachment av = slot →
  tex_depth av = false → colortex fv !! Z.to_nat slot = Some (Some a) →
  texs s !! b = Some bv → tex_depth bv = false → a ≠ b →
  ∃ s1 fv1,
    GPU_framebuffer_texture_attach_target (Some fb) (Some b) target slot mip s
      = Ok true s1
    ∧ fbs s1 !! fb = Some fv1
    ∧ colortex fv1 !! Z.to_nat slot = Some (Some b)
    ∧ texs s1 !! a = Some av
    ∧ GPU_framebuffer_texture_detach_target (Some a) target' s1 = AssertFailed.
Proof.
  intros Hfb Hlen Hslot Ha Hback Hatt Hda Hheld Hb Hdb Hne.
  destruct (attach_target_spec fb b fv bv target slot mip s Hfb Hb)
    as (s1 & Hrun & Hfbs & Htexs & _ & HGG); [lia | intros _; split; [lia|done] |].
  unfold fb_attach_tex in Hfbs. rewrite Hdb in Hfbs.
  set (fv1 := with_colortex (<[Z.to_nat slot:=Some b]> (colortex fv)) fv) in *.
  assert (Hfb1 : fbs s1 !! fb = Some fv1) by (rewrite Hfbs; apply lookup_insert_eq).
  assert (Ha1 : texs s1 !! a = Some av).
  { rewrite Htexs, lookup_insert_ne by done. done. }
  assert (Hnew : colortex fv1 !! Z.to_nat slot = Some (Some b)).
  { cbn. apply list_lookup_insert_eq. lia. }
  exists s1, fv1. repeat split; try done.
  unfold GPU_framebuffer_texture_detach_target, GPU_texture_framebuffer,
    GPU_texture_framebuffer_attachment, GPU_texture_stencil, GPU_texture_depth,
    load_colortex, arr_read.
  run. rewrite Hback. run.
  replace (GG_currentfb s1 =? fb_object fv1) with true
    by (rewrite HGG; symmetry; apply Z.eqb_refl).
  run. rewrite andb_false_r. run. rewrite Hatt, slot_index_valid by lia.
  change (@lookup nat (option positive) (list (option positive)) _) with
    (@list_lookup (option positive)) in Hnew.
  change (@lookup nat (option positive) (list (option positive)) _) with
    (@list_lookup (option positive)).
  rewrite Hnew. run.
  rewrite bool_decide_eq_false_2 by congruence. reflexivity.
Qed.

Lemma attach_over_occupied_slot_breaks_detach_witness :
  ∃ s1 fv1,
    GPU_framebuffer_texture_attach_target (Some 1%positive) (Some 3%positive)
      GL_TEXTURE_2D 0 0 st_slot_taken = Ok true s1
    ∧ fbs s1 !! 1%positive = Some fv1
    ∧ colortex fv1 !! Z.to_nat 0 = Some (Some 3%positive)
    ∧ texs s1 !! 2%positive = Some (ex_color_tex 64 64 (Some 1%positive) 0)
    ∧ GPU_framebuffer_texture_detach_target (Some 2%positive) GL_TEXTURE_2D s1
        = AssertFailed.
Proof.
  apply (attach_over_occupied_slot_breaks_detach 2%positive 3%positive 1%positive
           (mkFB 11 [Some 2%positive; None; None; None] None [None; None; None; None] None)
           (ex_color_tex 64 64 (Some 1%positive) 0) (ex_color_tex 32 32 None (-1))
           GL_TEXTURE_2D GL_TEXTURE_2D 0 0 st_slot_taken);
    try reflexivity; try lia; discriminate.
Defined.

(** * Renderbuffers *)

(** X14: when the device hands out a renderbuffer name,
    [GPU_renderbuffer_create] returns a new struct with the requested
    width, height and sample count as given (none of them is checked), the
    depth flag of the requested type and the back-reference (NULL, 0); it
    reserves multisample storage exactly when [samples > 0], with the depth
    format for a depth buffer and the format of [data_type] (GL_RGBA8 for
    any unlisted one) otherwise, and leaves no renderbuffer bound. *)
Theorem renderbuffer_create_success dev width height samples data_type type s :
  dev_gen_renderbuffer dev (gl_trace s) ≠ 0 →
  let a := next_addr s in
  let name := dev_gen_renderbuffer dev (gl_trace s) in
  ∃ s', GPU_renderbuffer_create dev width height samples data_type type s = Ok (Some a) s'
    ∧ rbs s' = <[a := mkRB width height samples None 0 (rb_type_depth type) name]> (rbs s)
    ∧ fbs s' = fbs s ∧ texs s' = texs s
    ∧ GG_currentfb s' = GG_currentfb s
    ∧ next_addr s' = Pos.succ a
    ∧ gl_errors s' = gl_errors s ∧ stderr s' = stderr s
    ∧ gl_trace s' = gl_trace s ++
        [glGenRenderbuffers name; glBindRenderbuffer GL_RENDERBUFFER name;
         rb_storage_call width height samples (rb_type_format data_type type);
         glBindRenderbuffer GL_RENDERBUFFER 0].
Proof.
  intros Hname a name.
  unfold GPU_renderbuffer_create, MEM_callocN, rb_storage_call, rb_type_format,
    rb_type_depth. run.
  fold a. fold name.
  destruct (name =? 0) eqn:E; [apply Z.eqb_eq in E; done|]. run.
  destruct (0 <? samples); run;
    (eexists; split; [reflexivity|]); cbn;
    rewrite insert_insert_eq, <- !app_assoc; done.
Qed.

Lemma renderbuffer_create_success_witness :
  ∃ s', GPU_renderbuffer_create dev_full 64 32 4 GPU_RGBA16F GPU_RENDERBUFFER_COLOR
          st_empty = Ok (Some 1%positive) s'
    ∧ rbs s' = <[1%positive := mkRB 64 32 4 None 0 false 1]> (rbs st_empty)
    ∧ fbs s' = fbs st_empty ∧ texs s' = texs st_empty
    ∧ GG_currentfb s' = GG_currentfb st_empty
    ∧ next_addr s' = 2%positive
    ∧ gl_errors s' = gl_errors st_empty ∧ stderr s' = stderr st_empty
    ∧ gl_trace s' =
        [glGenRenderbuffers 1; glBindRenderbuffer GL_RENDERBUFFER 1;
         glRenderbufferStorageMultisample GL_RENDERBUFFER 4 GL_RGBA16F 64 32;
         glBindRenderbuffer GL_RENDERBUFFER 0].
Proof.
  apply (renderbuffer_create_success dev_full 64 32 4 GPU_RGBA16F
           GPU_RENDERBUFFER_COLOR st_empty).
  discriminate.
Defined.

(** X15: when the device hands out no name, [GPU_renderbuffer_create]
    prints its message, consuming one pending error flag for it, frees the
    struct it allocated without a delete call and returns NULL: with a fresh
    allocation address every heap is as before. *)
Theorem renderbuffer_create_failure dev width height samples data_type type s :
  dev_gen_renderbuffer dev (gl_trace s) = 0 →
  rbs s !! next_addr s = None →
  ∃ s', GPU_renderbuffer_create dev width height samples data_type type s = Ok None s'
    ∧ rbs s' = rbs s ∧ fbs s' = fbs s ∧ texs s' = texs s
    ∧ GG_currentfb s' = GG_currentfb s
    ∧ gl_errors s' = tail (gl_errors s)
    ∧ stderr s' = stderr s ++ ["GPURenderBuffer: render buffer creation failed: %d"]
    ∧ gl_trace s' = gl_trace s ++ [glGenRenderbuffers 0].
Proof.
  intros Hname Hfresh.
  unfold GPU_renderbuffer_create, MEM_callocN, GPU_renderbuffer_free, MEM_freeN_rb,
    glGetError. run.
  rewrite Hname. change (0 =? 0) with true. run.
  destruct (gl_errors s) as [|e q] eqn:Hq; run;
    cbn [rb_bindcode]; change (0 =? 0) with true; run;
    (eexists; split; [reflexivity|]); cbn;
    rewrite delete_insert_eq; repeat split; try done; by apply delete_id.
Qed.

Lemma renderbuffer_create_failure_witness :
  ∃ s', GPU_renderbuffer_create dev_no_alloc 64 32 0 GPU_RGBA8 GPU_RENDERBUFFER_DEPTH
          st_rb_unattached = Ok None s'
    ∧ rbs s' = rbs st_rb_unattached ∧ fbs s' = fbs st_rb_unattached
    ∧ texs s' = texs st_rb_unattached
    ∧ GG_currentfb s' = GG_currentfb st_rb_unattached
    ∧ gl_errors s' = []
    ∧ stderr s' = stderr st_rb_unattached
                  ++ ["GPURenderBuffer: render buffer creation failed: %d"]
    ∧ gl_trace s' = gl_trace st_rb_unattached ++ [glGenRenderbuffers 0].
Proof.
  apply (renderbuffer_create_failure dev_no_alloc 64 32 0 GPU_RGBA8
           GPU_RENDERBUFFER_DEPTH st_rb_unattached); reflexivity.
Defined.

(** X16: [GPU_renderbuffer_free] never touches a framebuffer.  Freeing a
    renderbuffer that is still attached leaves the framebuffer's slot entry
    pointing at the freed struct, and the first thing that follows the
    entry, such as [GPU_framebuffer_free] of that framebuffer, is a use
    after free. *)
Theorem renderbuffer_free_keeps_entry fb obj rb rv i s :
  (i < 4)%nat →
  fbs s !! fb
    = Some (with_colorrb (<[i := Some rb]> [None; None; None; None]) (fb_new obj)) →
  rbs s !! rb = Some rv →
  ∃ s', GPU_renderbuffer_free (Some rb) s = Ok tt s'
    ∧ fbs s' = fbs s
    ∧ rbs s' = delete rb (rbs s)
    ∧ texs s' = texs s
    ∧ gl_trace s' = gl_trace s ++
        (if rb_bindcode rv =? 0 then [] else [glDeleteRenderbuffers (rb_bindcode rv)])
    ∧ GPU_framebuffer_free (Some fb) s' = Fault.
Proof.
  intros Hi Hfb Hrb.
  unfold GPU_renderbuffer_free, MEM_freeN_rb. run.
  assert (Hfault : ∀ s', fbs s' = fbs s → rbs s' = delete rb (rbs s) →
            GPU_framebuffer_free (Some fb) s' = Fault).
  { intros s' Hfbs Hrbs. rewrite <- Hfbs in Hfb.
    assert (Hgone : rbs s' !! rb = None) by (rewrite Hrbs; apply lookup_delete_eq).
    unfold GPU_framebuffer_free, free_detach_all, free_release, free_detach_colortex,
      free_detach_colorrb, load_colortex, load_colorrb, arr_read,
      GPU_framebuffer_renderbuffer_detach, GPU_renderbuffer_framebuffer,
      GPU_renderbuffer_framebuffer_attachment.
    unfold fb_new, with_colorrb in *. cbn [colortex depthtex colorrb depthrb fb_object] in *.
    destruct i as [|[|[|[|i]]]]; [| | | |lia];
      cbn -[lookup] in Hfb;
      run_slots; rewrite Hgone; reflexivity. }
  destruct (rb_bindcode rv =? 0) eqn:Hcode; run;
    (eexists; split; [reflexivity|]); cbn; rewrite ?app_nil_r;
    repeat split; try done; by apply Hfault.
Qed.

Lemma renderbuffer_free_keeps_entry_witness :
  ∃ s', GPU_renderbuffer_free (Some 3%positive) st_two_offscreens = Ok tt s'
    ∧ fbs s' = fbs st_two_offscreens
    ∧ rbs s' = delete 3%positive (rbs st_two_offscreens)
    ∧ texs s' = texs st_two_offscreens
    ∧ gl_trace s' = gl_trace st_two_offscreens ++ [glDeleteRenderbuffers 31]
    ∧ GPU_framebuffer_free (Some 1%positive) s' = Fault.
Proof.
  apply (renderbuffer_free_keeps_entry 1%positive 11 3%positive
           (mkRB 64 32 0 (Some 1%positive) 0 false 31) 0%nat st_two_offscreens);
    [lia | reflexivity | reflexivity].
Defined.

(** * The other bind variants *)

(** X17: [GPU_framebuffer_bind_no_save] does not test the slot it is given.
    With a live texture in colour slot [slot] it selects that slot as draw
    and read buffer, sets the viewport to the texture's size and records
    the framebuffer as current; with the slot empty it reads the size
    through a NULL pointer. *)
Theorem bind_no_save_needs_occupied_slot fb fv slot s :
  fbs s !! fb = Some fv → 0 <= slot < 4 →
  (∀ t tv, colortex fv !! Z.to_nat slot = Some (Some t) → texs s !! t = Some tv →
     ∃ s', GPU_framebuffer_bind_no_save (Some fb) slot s = Ok tt s'
       ∧ GG_currentfb s' = fb_object fv
       ∧ fbs s' = fbs s ∧ texs s' = texs s ∧ rbs s' = rbs s
       ∧ gl_trace s' = gl_trace s ++
           [glBindFramebuffer GL_FRAMEBUFFER (fb_object fv);
            glDrawBuffer (GL_COLOR_ATTACHMENT0 + slot);
            glReadBuffer (GL_COLOR_ATTACHMENT0 + slot);
            glViewport 0 0 (tex_w tv) (tex_h tv)])
  ∧ (colortex fv !! Z.to_nat slot = Some None →
     GPU_framebuffer_bind_no_save (Some fb) slot s = Fault).
Proof.
  intros Hfb Hslot.
  unfold GPU_framebuffer_bind_no_save, load_colortex, arr_read,
    GPU_texture_width, GPU_texture_height.
  rewrite slot_index_valid by done.
  split.
  - intros t tv Hheld Htex. run.
    eexists. split; [reflexivity|]. cbn. rewrite <- !app_assoc. done.
  - intros Hempty. run. reflexivity.
Qed.

Lemma bind_no_save_needs_occupied_slot_witness :
  (∃ s', GPU_framebuffer_bind_no_save (Some 1%positive) 1 st_two_sizes = Ok tt s'
     ∧ GG_currentfb s' = 11
     ∧ fbs s' = fbs st_two_sizes ∧ texs s' = texs st_two_sizes
     ∧ rbs s' = rbs st_two_sizes
     ∧ gl_trace s' =
         [glBindFramebuffer GL_FRAMEBUFFER 11;
          glDrawBuffer (GL_COLOR_ATTACHMENT0 + 1);
          glReadBuffer (GL_COLOR_ATTACHMENT0 + 1);
          glViewport 0 0 128 256])
  ∧ GPU_framebuffer_bind_no_save (Some 1%positive) 2 st_two_sizes = Fault.
Proof.
  split.
  - apply (proj1 (bind_no_save_needs_occupied_slot 1%positive
                    (mkFB 11 [Some 2%positive; Some 3%positive; None; None] None
                          [None; None; None; None] None) 1 st_two_sizes
                    eq_refl ltac:(lia))
             3%positive (ex_color_tex 128 256 (Some 1%positive) 1));
      reflexivity.
  - apply (proj2 (bind_no_save_needs_occupied_slot 1%positive
                    (mkFB 11 [Some 2%positive; Some 3%positive; None; None] None
                          [None; None; None; None] None) 2 st_two_sizes
                    eq_refl ltac:(lia))).
    reflexivity.
Defined.

(** X18: [GPU_framebuffer_bind_all_attachments] reads no texture, so unlike
    [GPU_framebuffer_bind] it finishes for every framebuffer, with nothing
    attached as well.  It sets the draw buffers to exactly the occupied
    colour slots in ascending order (none of them for an empty
    framebuffer), sets no viewport, and selects colour attachment 0 as read
    buffer whether or not slot 0 is occupied. *)
Theorem bind_all_attachments_total fb fv s :
  fbs s !! fb = Some fv → length (colortex fv) = 4%nat →
  ∃ s', GPU_framebuffer_bind_all_attachments (Some fb) s = Ok tt s'
    ∧ GG_currentfb s' = fb_object fv
    ∧ fbs s' = fbs s ∧ texs s' = texs s ∧ rbs s' = rbs s
    ∧ gl_trace s' = gl_trace s ++
        [glBindFramebuffer GL_FRAMEBUFFER (fb_object fv);
         glDrawBuffers (Z.of_nat (length (occupied_slots (colortex fv))))
                       (color_attachment <$> occupied_slots (colortex fv));
         glReadBuffer GL_COLOR_ATTACHMENT0].
Proof.
  intros Hfb Hlen.
  destruct fv as [o ct dt cr dr]. cbn in Hlen.
  destruct ct as [|a [|b [|c [|d [|]]]]]; try discriminate. clear Hlen.
  unfold GPU_framebuffer_bind_all_attachments, bind_all_loop_body, load_colortex,
    arr_read.
  destruct a, b, c, d; run_slots;
    (eexists; split; [reflexivity|]); cbn [fbs texs rbs GG_currentfb gl_trace
      set_currentfb set_gl_trace fb_object colortex];
    rewrite <- !app_assoc; repeat split; reflexivity.
Qed.

Lemma bind_all_attachments_total_witness :
  ∃ s', GPU_framebuffer_bind_all_attachments (Some 1%positive) st_unattached = Ok tt s'
    ∧ GG_currentfb s' = 11
    ∧ fbs s' = fbs st_unattached ∧ texs s' = texs st_unattached
    ∧ rbs s' = rbs st_unattached
    ∧ gl_trace s' =
        [glBindFramebuffer GL_FRAMEBUFFER 11; glDrawBuffers 0 [];
         glReadBuffer GL_COLOR_ATTACHMENT0].
Proof.
  apply (bind_all_attachments_total 1%positive (ex_fb_empty 11) st_unattached);
    reflexivity.
Defined.

(** * Offscreen buffers backed by renderbuffers *)

Ltac run_heap :=
  repeat first
    [ progress run_slots
    | rewrite lookup_insert_ne by congruence
    | rewrite lookup_delete_ne by congruence
    | rewrite decide_True by (cbn; lia)
    | rewrite bool_decide_eq_true_2 by reflexivity
    | progress change (slot_index 0) with (Some 0%nat)
    | progress cbn [insert list_insert]
    | progress cbn [rb_fb rb_fb_attachment rb_depth rb_bindcode rb_set_fb
                    with_colorrb with_depthrb bool_decide decide_rel] ].

Ltac split_if :=
  match goal with
  | |- context [if ?b then _ else _] => destruct b eqn:?
  end.

Ltac heap_eq :=
  apply map_eq; intros ?k;
  repeat first [rewrite lookup_delete | rewrite lookup_insert];
  repeat case_decide; subst; congruence.

Lemma offscreen_free_run a name cf df co do_ smp s :
  fbs s !! a = Some (ofs_fb_struct name cf df) →
  rb_owned s a false cf co → rb_owned s a true df do_ →
  ∃ s', GPU_offscreen_free (mkOfs (Some a) None None co do_ smp) s = Ok tt s'
    ∧ fbs s' = delete a (fbs s)
    ∧ rbs s' = delete_opt do_ (delete_opt co (rbs s))
    ∧ texs s' = texs s
    ∧ (GG_currentfb s' = GG_currentfb s ∨ GG_currentfb s' = 0)
    ∧ (GG_currentfb s = name → GG_currentfb s' = 0).
Proof.
  intros Hfb Hc Hd.
  unfold GPU_offscreen_free, GPU_renderbuffer_free, MEM_freeN_rb,
    GPU_framebuffer_free, free_detach_all, free_release, free_detach_colortex,
    free_detach_colorrb, MEM_freeN_fb,
    GPU_framebuffer_renderbuffer_detach, GPU_renderbuffer_framebuffer,
    GPU_renderbuffer_framebuffer_attachment, GPU_renderbuffer_framebuffer_set,
    GPU_renderbuffer_depth, store_colorrb, load_colortex, load_colorrb, arr_read,
    arr_write, BLI_assert, with_colorrb, with_depthrb, rb_set_fb.
  unfold ofs_fb_struct in Hfb. cbn [ofs_fb ofs_color ofs_depth ofs_rbcolor ofs_rbdepth].
  assert (Hne : ∀ rc rd, co = Some rc → do_ = Some rd → rc ≠ rd).
  { intros rc rd -> -> <-. cbn in Hc, Hd.
    destruct Hc as (cv & Hcv & Hcd & _), Hd as (dv & Hdv & Hdd & _). congruence. }
  destruct co as [rc|], do_ as [rd|]; cbn [rb_owned delete_opt] in *;
    try (specialize (Hne _ _ eq_refl eq_refl));
    try destruct Hc as (cv & Hcv & Hcd & [[-> Hcfb]|(-> & Hcfb & Hcatt)]);
    try destruct Hd as (dv & Hdv & Hdd & [[-> Hdfb]|(-> & Hdfb & Hdatt)]);
    try destruct cv as [cw ch cs cfb catt cdp cbc];
    try destruct dv as [dw dh ds dfb datt ddp dbc];
    cbn [rb_fb rb_depth rb_fb_attachment] in *; subst.
  all: repeat (run_heap; try split_if).
  all: eexists; (split; [reflexivity|]);
       cbn [fbs texs rbs GG_currentfb set_fbs set_texs set_rbs set_currentfb
            set_gl_trace].
  all: split; [heap_eq|]; (split; [heap_eq|]); (split; [reflexivity|]).
  all: repeat match goal with
       | H : negb _ = true |- _ => apply negb_true_iff in H
       | H : negb _ = false |- _ => apply negb_false_iff in H
       | H : (_ =? _) = true |- _ => apply Z.eqb_eq in H
       | H : (_ =? _) = false |- _ => apply Z.eqb_neq in H
       end.
  all: split; [first [left; congruence | right; congruence] | congruence].
Qed.

Lemma framebuffer_create_run dev s :
  fbs s !! next_addr s = None →
  let a := next_addr s in
  let name := dev_gen_framebuffer dev (gl_trace s) in
  ∃ s', GPU_framebuffer_create dev s = Ok (if name =? 0 then None else Some a) s'
    ∧ fbs s' = (if name =? 0 then fbs s else <[a := fb_new name]> (fbs s))
    ∧ texs s' = texs s ∧ rbs s' = rbs s
    ∧ GG_currentfb s' = GG_currentfb s
    ∧ next_addr s' = Pos.succ a
    ∧ gl_errors s' = gl_errors s.
Proof.
  intros Hfresh a name.
  unfold GPU_framebuffer_create, MEM_callocN. run.
  fold a. fold name.
  destruct (name =? 0) eqn:E; run.
  - unfold GPU_framebuffer_free, free_detach_all, free_release, free_detach_colortex,
      free_detach_colorrb, load_colortex, load_colorrb, arr_read, MEM_freeN_fb.
    unfold with_object. cbn [replicate]. run_slots.
    apply Z.eqb_eq in E. rewrite E. change (0 =? 0) with true. run_slots.
    eexists. split; [reflexivity|]. cbn.
    rewrite !insert_insert_eq, delete_insert_eq. repeat split; try done.
    by apply delete_id.
  - eexists. split; [reflexivity|]. cbn. unfold fb_new, with_object. cbn.
    rewrite insert_insert_eq. done.
Qed.

Lemma renderbuffer_create_run dev width height samples data_type type s :
  rbs s !! next_addr s = None →
  errors_pending (gl_errors s) →
  let a := next_addr s in
  let name := dev_gen_renderbuffer dev (gl_trace s) in
  ∃ s', GPU_renderbuffer_create dev width height samples data_type type s
          = Ok (if name =? 0 then None else Some a) s'
    ∧ rbs s' = (if name =? 0 then rbs s
                else <[a := mkRB width height samples None 0 (rb_type_depth type) name]>
                       (rbs s))
    ∧ fbs s' = fbs s ∧ texs s' = texs s
    ∧ GG_currentfb s' = GG_currentfb s
    ∧ next_addr s' = Pos.succ a
    ∧ errors_pending (gl_errors s').
Proof.
  intros Hfresh Hpend a name.
  unfold GPU_renderbuffer_create, MEM_callocN, GPU_renderbuffer_free, MEM_freeN_rb,
    glGetError, rb_type_depth. run.
  fold a. fold name.
  destruct (name =? 0) eqn:E; run.
  - destruct (gl_errors s) as [|e q] eqn:Hq; run;
      cbn [rb_bindcode]; apply Z.eqb_eq in E; rewrite E; change (0 =? 0) with true; run;
      (eexists; split; [reflexivity|]); cbn;
      rewrite delete_insert_eq; repeat split; try done;
      try (by apply delete_id).
    + rewrite Hq. constructor.
    + by inversion Hpend.
  - destruct (0 <? samples); run;
      (eexists; split; [reflexivity|]); cbn;
      rewrite insert_insert_eq; done.
Qed.

Lemma check_valid_run dev fb fv s :
  fbs s !! fb = Some fv →
  ∃ ok s', GPU_framebuffer_check_valid dev (Some fb) s = Ok ok s'
    ∧ fbs s' = fbs s ∧ texs s' = texs s ∧ rbs s' = rbs s
    ∧ GG_currentfb s' = (if ok then fb_object fv else 0).
Proof.
  intros Hfb.
  unfold GPU_framebuffer_check_valid, GPU_framebuffer_restore,
    gpu_print_framebuffer_error.
  run.
  destruct (_ =? GL_FRAMEBUFFER_COMPLETE) eqn:Hc; run.
  - eexists _, _. split; [reflexivity|]. cbn. done.
  - destruct (fb_object fv =? 0) eqn:Hobj; run;
      (eexists _, _; split; [reflexivity|]); cbn;
      try (apply Z.eqb_eq in Hobj); done.
Qed.

Lemma free_and_fail_run a name cf df co do_ smp s :
  fbs s !! a = Some (ofs_fb_struct name cf df) →
  rb_owned s a false cf co → rb_owned s a true df do_ →
  ∃ s', free_and_fail (mkOfs (Some a) None None co do_ smp) s = Ok None s'
    ∧ fbs s' = delete a (fbs s)
    ∧ rbs s' = delete_opt do_ (delete_opt co (rbs s))
    ∧ texs s' = texs s
    ∧ (GG_currentfb s' = GG_currentfb s ∨ GG_currentfb s' = 0)
    ∧ (GG_currentfb s = name → GG_currentfb s' = 0).
Proof.
  intros Hfb Hc Hd.
  destruct (offscreen_free_run a name cf df co do_ smp s Hfb Hc Hd) as (s' & Hrun & H).
  exists s'. split; [|done].
  unfold free_and_fail. by rewrite (bind_Ok _ _ _ _ _ Hrun).
Qed.

(** One renderbuffer half of [GPU_offscreen_create]: the renderbuffer is
    created and attached, or everything built so far is released. *)
Lemma offscreen_create_rb_run dev width height smp data_type type a name c co s :
  fbs s !! a = Some (ofs_fb_struct name c None) →
  rb_owned s a false c co →
  (rb_type_depth type = false → c = None ∧ co = None) →
  rbs s !! next_addr s = None →
  co ≠ Some (next_addr s) →
  errors_pending (gl_errors s) →
  let r := next_addr s in
  let ofs := mkOfs (Some a) None None co None smp in
  let set_rb p o := if rb_type_depth type then ofs_with_rbdepth p o
                    else ofs_with_rbcolor p o in
  ∃ res s',
    (do rb <- GPU_renderbuffer_create dev width height smp data_type type;
     let ofs := set_rb rb ofs in
     if is_null rb then free_and_fail ofs
     else
       do ok <- GPU_framebuffer_renderbuffer_attach dev (Some a) rb 0;
       if negb ok then free_and_fail ofs else ret (Some ofs)) s = Ok res s'
    ∧ texs s' = texs s
    ∧ match res with
      | None =>
          fbs s' = delete a (fbs s) ∧ rbs s' = delete_opt co (rbs s)
          ∧ (GG_currentfb s' = GG_currentfb s ∨ GG_currentfb s' = 0)
          ∧ (GG_currentfb s = name → GG_currentfb s' = 0)
      | Some o =>
          o = set_rb (Some r) ofs
          ∧ GG_currentfb s' = name
          ∧ next_addr s' = Pos.succ r
          ∧ errors_pending (gl_errors s')
          ∧ ∃ code,
              fbs s' = <[a := if rb_type_depth type then ofs_fb_struct name c (Some r)
                              else ofs_fb_struct name (Some r) None]> (fbs s)
              ∧ rbs s' = <[r := mkRB width height smp (Some a) 0 (rb_type_depth type) code]>
                           (rbs s)
      end.
Proof.
  intros Hfb Hown Htype Hfresh Hco Hpend r ofs set_rb.
  destruct (renderbuffer_create_run dev width height smp data_type type s Hfresh Hpend)
    as (s1 & Hrun1 & Hr1 & Hf1 & Ht1 & HG1 & Hn1 & Hq1).
  fold r in Hrun1, Hr1, Hn1, Hfresh, Hco. clearbody r.
  rewrite (bind_Ok _ _ _ _ _ Hrun1).
  assert (Hfb1 : fbs s1 !! a = Some (ofs_fb_struct name c None))
    by (rewrite Hf1; exact Hfb).
  destruct (dev_gen_renderbuffer dev (gl_trace s) =? 0) eqn:Ecode.
  { (* no name: release *)
    cbn [is_null].
    assert (Hofs : set_rb None ofs = ofs).
    { unfold set_rb. destruct (rb_type_depth type); [done|].
      by destruct (Htype eq_refl) as [_ ->]. }
    rewrite Hofs.
    destruct (free_and_fail_run a name c None co None smp s1 Hfb1)
      as (s' & Hrun & Hf & Hr & Ht & HG & HG').
    { unfold rb_owned in *. by rewrite Hr1. }
    { done. }
    exists None, s'. split; [done|].
    cbn [delete_opt] in Hr. rewrite Ht, Hf, Hr, Hf1, Hr1, <- HG1. done. }
  set (code := dev_gen_renderbuffer dev (gl_trace s)) in *.
  set (rv := mkRB width height smp None 0 (rb_type_depth type) code) in *.
  cbn [is_null].
  assert (Hrb1 : rbs s1 !! r = Some rv) by (rewrite Hr1; apply lookup_insert_eq).
  destruct (renderbuffer_attach_run dev a r _ rv 0 s1 Hfb1 Hrb1)
    as (s2 & Hrun2 & Ht2 & Hq2 & Hn2 & Hrest); [lia | done | done |].
  rewrite (bind_Ok _ _ _ _ _ Hrun2).
  destruct (_ =? GL_INVALID_OPERATION) eqn:Einv in Hrest |- *; cbn [negb].
  - (* rejected: release, the new renderbuffer included *)
    destruct Hrest as (Hf2 & Hr2 & HG2 & _).
    assert (Hfb2 : fbs s2 !! a = Some (ofs_fb_struct name c None))
      by (rewrite Hf2; exact Hfb1).
    assert (Hown2 : rb_owned s2 a false c co).
    { unfold rb_owned in *. destruct co as [rc|]; [|done].
      destruct Hown as (cv & Hcv & H). exists cv. split; [|done].
      rewrite Hr2, Hr1, lookup_insert_ne; [done|congruence]. }
    assert (Hnew : rb_owned s2 a (rb_type_depth type) None (Some r)).
    { exists rv. rewrite Hr2. split; [done|]. split; [done|]. by left. }
    assert (Hgone : ∀ m : gmap positive GPURenderBuffer,
              m !! r = None → delete r (delete_opt co (<[r := rv]> m)) = delete_opt co m).
    { intros m Hm. destruct co as [rc|]; cbn [delete_opt]; heap_eq. }
    destruct (rb_type_depth type) eqn:Edepth; unfold set_rb; cbn [ofs_with_rbdepth
      ofs_with_rbcolor ofs ofs_fb ofs_color ofs_depth ofs_rbcolor ofs_rbdepth ofs_samples].
    + destruct (free_and_fail_run a name c None co (Some r) smp s2 Hfb2 Hown2 Hnew)
        as (s' & Hrun & Hf & Hr & Ht & HG & _).
      assert (GG_currentfb s' = 0) by (destruct HG as [->|]; done).
      exists None, s'. split; [done|].
      cbn [delete_opt] in Hr.
      rewrite Ht, Ht2, Ht1, Hf, Hf2, Hf1, Hr, Hr2, Hr1, Hgone by done.
      repeat split; try done. by right.
    + destruct (Htype eq_refl) as [-> ->].
      destruct (free_and_fail_run a name None None (Some r) None smp s2 Hfb2 Hnew)
        as (s' & Hrun & Hf & Hr & Ht & HG & _); [done|].
      assert (GG_currentfb s' = 0) by (destruct HG as [->|]; done).
      exists None, s'. split; [done|].
      cbn [delete_opt] in Hr |- *.
      rewrite Ht, Ht2, Ht1, Hf, Hf2, Hf1, Hr, Hr2, Hr1, delete_insert_eq,
        (delete_id (rbs s) r) by done.
      repeat split; try done. by right.
  - (* attached *)
    destruct Hrest as (Hf2 & Hr2 & HG2 & _).
    exists (Some (set_rb (Some r) ofs)), s2. split; [done|].
    split; [by rewrite Ht2|]. split; [done|]. split; [done|].
    split; [by rewrite Hn2|]. split; [rewrite Hq2; constructor|].
    exists code. rewrite Hf2, Hr2, Hf1, Hr1, insert_insert_eq.
    unfold fb_attach_rb, rv, rb_set_fb. cbn [rb_depth rb_width rb_height rb_samples rb_bindcode].
    destruct (rb_type_depth type) eqn:Edepth; [done|].
    by destruct (Htype eq_refl) as [-> ->].
Qed.

Lemma offscreen_create_renderbuffers_run dev width height samples data_type mode s a :
  mode_has mode GPU_OFFSCREEN_RENDERBUFFER_COLOR = true →
  mode_has mode GPU_OFFSCREEN_RENDERBUFFER_DEPTH = true →
  next_addr s = a →
  fbs s !! a = None →
  rbs s !! Pos.succ a = None →
  rbs s !! Pos.succ (Pos.succ a) = None →
  errors_pending (gl_errors s) →
  let smp := clamp_samples dev samples mode in
  ∃ r s', GPU_offscreen_create dev width height samples data_type mode s = Ok r s'
    ∧ texs s' = texs s
    ∧ match r with
      | None =>
          fbs s' = fbs s ∧ rbs s' = rbs s
          ∧ (GG_currentfb s' = GG_currentfb s ∨ GG_currentfb s' = 0)
      | Some ofs =>
          ofs = mkOfs (Some a) None None (Some (Pos.succ a))
                      (Some (Pos.succ (Pos.succ a))) smp
          ∧ GG_currentfb s' = 0
          ∧ ∃ name nc nd,
              name ≠ 0
              ∧ fbs s' = <[a := ofs_fb_struct name (Some (Pos.succ a))
                                (Some (Pos.succ (Pos.succ a)))]> (fbs s)
              ∧ rbs s' =
                  <[Pos.succ (Pos.succ a) := mkRB width height smp (Some a) 0 true nd]>
                    (<[Pos.succ a := mkRB width height smp (Some a) 0 false nc]> (rbs s))
      end.
Proof.
  intros Hmc Hmd Ha Hfb Hrc Hrd Hpend smp.
  set (a1 := Pos.succ a) in *. set (a2 := Pos.succ a1) in *.
  assert (Ha12 : a1 ≠ a2) by apply Pos.succ_discr.
  unfold GPU_offscreen_create. fold smp.
  (* the framebuffer *)
  destruct (framebuffer_create_run dev s) as
    (s1 & Hrun1 & Hf1 & Ht1 & Hr1 & HG1 & Hn1 & Hq1); [by rewrite Ha|].
  rewrite Ha in Hrun1, Hf1, Hn1. fold a1 in Hn1.
  rewrite (bind_Ok _ _ _ _ _ Hrun1).
  destruct (dev_gen_framebuffer dev (gl_trace s) =? 0) eqn:Ename.
  { cbn [is_null ofs_with_fb]. unfold free_and_fail, GPU_offscreen_free. cbn. run.
    eexists None, s1. split; [reflexivity|]. rewrite Ht1, Hf1, Hr1, HG1. auto. }
  set (name := dev_gen_framebuffer dev (gl_trace s)) in *.
  cbn [is_null ofs_with_fb ofs_with_samples ofs_fb ofs_color ofs_depth ofs_rbcolor
       ofs_rbdepth ofs_samples].
  assert (Hfb1 : fbs s1 !! a = Some (ofs_fb_struct name None None))
    by (rewrite Hf1; apply lookup_insert_eq).
  assert (Hgone : delete a (<[a := fb_new name]> (fbs s)) = fbs s)
    by (rewrite delete_insert_eq; by apply delete_id).
  (* the colour renderbuffer *)
  destruct (offscreen_create_rb_run dev width height smp data_type GPU_RENDERBUFFER_COLOR
              a name None None s1 Hfb1) as (res & s2 & Hrun2 & Ht2 & Hres2);
    [done | done | by rewrite Hn1, Hr1 | done | by rewrite Hq1 |].
  assert (Hcolor : offscreen_create_color dev width height smp data_type mode
                     (mkOfs (Some a) None None None None smp) s1 = Ok res s2).
  { unfold offscreen_create_color. rewrite Hmc. exact Hrun2. }
  rewrite (bind_Ok _ _ _ _ _ Hcolor). clear Hrun2 Hcolor.
  rewrite Hn1 in Hres2. cbn [rb_type_depth delete_opt] in Hres2.
  destruct res as [o|]; cycle 1.
  { destruct Hres2 as (Hf2 & Hr2 & HG2 & _).
    eexists None, s2. split; [reflexivity|].
    rewrite Ht2, Ht1, Hf2, Hf1, Hr2, Hr1, Hgone. repeat split; try done.
    rewrite <- HG1. done. }
  destruct Hres2 as (-> & HG2 & Hn2 & Hq2 & nc & Hf2 & Hr2). fold a2 in Hn2.
  cbn [ofs_with_rbcolor ofs_fb ofs_color ofs_depth ofs_rbcolor ofs_rbdepth ofs_samples].
  rewrite Hf1, insert_insert_eq in Hf2. rewrite Hr1 in Hr2.
  assert (Hfb2 : fbs s2 !! a = Some (ofs_fb_struct name (Some a1) None))
    by (rewrite Hf2; apply lookup_insert_eq).
  (* the depth renderbuffer *)
  destruct (offscreen_create_rb_run dev width height smp data_type GPU_RENDERBUFFER_DEPTH
              a name (Some a1) (Some a1) s2 Hfb2) as (res & s3 & Hrun3 & Ht3 & Hres3).
  { eexists. rewrite Hr2, lookup_insert_eq. split; [done|]. split; [done|]. by right. }
  { done. }
  { rewrite Hn2, Hr2, lookup_insert_ne; done. }
  { rewrite Hn2. congruence. }
  { done. }
  assert (Hdepth : offscreen_create_depth dev width height smp data_type mode
                     (mkOfs (Some a) None None (Some a1) None smp) s2 = Ok res s3).
  { unfold offscreen_create_depth. rewrite Hmd. exact Hrun3. }
  rewrite (bind_Ok _ _ _ _ _ Hdepth). clear Hrun3 Hdepth.
  rewrite Hn2 in Hres3. cbn [rb_type_depth delete_opt] in Hres3.
  destruct res as [o|]; cycle 1.
  { destruct Hres3 as (Hf3 & Hr3 & _ & HG3).
    eexists None, s3. split; [reflexivity|].
    rewrite Ht3, Ht2, Ht1, Hf3, Hf2, Hr3, Hr2, !delete_insert_eq.
    rewrite (delete_id (fbs s)), (delete_id (rbs s)) by done.
    repeat split; try done. right. by apply HG3. }
  destruct Hres3 as (-> & HG3 & Hn3 & Hq3 & nd & Hf3 & Hr3).
  cbn [ofs_with_rbdepth ofs_fb ofs_color ofs_depth ofs_rbcolor ofs_rbdepth ofs_samples].
  rewrite Hf2, insert_insert_eq in Hf3. rewrite Hr2 in Hr3.
  assert (Hfb3 : fbs s3 !! a = Some (ofs_fb_struct name (Some a1) (Some a2)))
    by (rewrite Hf3; apply lookup_insert_eq).
  (* the validity check *)
  unfold offscreen_create_finish.
  destruct (check_valid_run dev a _ s3 Hfb3) as (ok & s4 & Hrun4 & Hf4 & Ht4 & Hr4 & HG4).
  cbn [ofs_fb]. rewrite (bind_Ok _ _ _ _ _ Hrun4).
  destruct ok; cbn [negb].
  - unfold GPU_framebuffer_restore. run.
    destruct (GG_currentfb s4 =? 0) eqn:Ecur; run;
      (eexists (Some _), _; split; [reflexivity|]);
      cbn [fbs texs rbs GG_currentfb set_currentfb set_gl_trace];
      rewrite ?Ht4, ?Ht3, ?Ht2, ?Ht1, ?Hf4, ?Hf3, ?Hr4, ?Hr3;
      (split; [done|]); (split; [done|]);
      (split; [by (try apply Z.eqb_eq in Ecur)|]);
      exists name, nc, nd; (split; [by apply Z.eqb_neq|]); done.
  - destruct (free_and_fail_run a name (Some a1) (Some a2) (Some a1) (Some a2) smp s4)
      as (s' & Hrun & Hf & Hr & Ht & HG & _).
    { by rewrite Hf4. }
    { eexists. rewrite Hr4, Hr3, lookup_insert_ne, lookup_insert_eq by done.
      split; [done|]. split; [done|]. by right. }
    { eexists. rewrite Hr4, Hr3, lookup_insert_eq.
      split; [done|]. split; [done|]. by right. }
    exists None, s'. split; [done|].
    cbn [delete_opt] in Hr.
    rewrite Ht, Ht4, Ht3, Ht2, Ht1, Hf, Hf4, Hf3, Hr, Hr4, Hr3.
    rewrite HG4 in HG.
    split; [done|]. split; [|split].
    + rewrite delete_insert_eq. by apply delete_id.
    + heap_eq.
    + right. by destruct HG.
Qed.

(** ** What a successful creation has built *)

Lemma framebuffer_create_Some dev s a s1 :
  GPU_framebuffer_create dev s = Ok (Some a) s1 →
  a = next_addr s
  ∧ ∃ name,
      fbs s1 = <[a := fb_new name]> (fbs s)
      ∧ rbs s1 = rbs s ∧ texs s1 = texs s ∧ next_addr s1 = Pos.succ a.
Proof.
  unfold GPU_framebuffer_create, MEM_callocN. run.
  destruct (dev_gen_framebuffer dev (gl_trace s) =? 0) eqn:E; run.
  - intros H. exfalso.
    repeat (apply bind_inv_Ok in H; destruct H as (? & ? & _ & H)).
    discriminate H.
  - intros H. injection H as <- <-. split; [done|].
    exists (dev_gen_framebuffer dev (gl_trace s)). cbn.
    unfold fb_new, with_object. cbn. rewrite insert_insert_eq. done.
Qed.

Lemma renderbuffer_create_Some dev width height samples data_type type s r s1 :
  GPU_renderbuffer_create dev width height samples data_type type s = Ok (Some r) s1 →
  r = next_addr s
  ∧ ∃ code,
      rbs s1 = <[r := mkRB width height samples None 0 (rb_type_depth type) code]> (rbs s)
      ∧ fbs s1 = fbs s ∧ texs s1 = texs s ∧ next_addr s1 = Pos.succ r.
Proof.
  unfold GPU_renderbuffer_create, MEM_callocN, rb_type_depth. run.
  destruct (dev_gen_renderbuffer dev (gl_trace s) =? 0) eqn:E; run.
  - intros H. exfalso.
    repeat (apply bind_inv_Ok in H; destruct H as (? & ? & _ & H)).
    discriminate H.
  - destruct (0 <? samples); run; intros H; injection H as <- <-;
      (split; [done|]); exists (dev_gen_renderbuffer dev (gl_trace s)); cbn;
      rewrite insert_insert_eq; done.
Qed.

Lemma renderbuffer_attach_true dev fb rb fv rv s s' :
  fbs s !! fb = Some fv → rbs s !! rb = Some rv → length (colorrb fv) = 4%nat →
  GPU_framebuffer_renderbuffer_attach dev (Some fb) (Some rb) 0 s = Ok true s' →
  fbs s' = <[fb := fb_attach_rb rv rb 0 fv]> (fbs s)
  ∧ rbs s' = <[rb := rb_set_fb (Some fb) 0 rv]> (rbs s)
  ∧ texs s' = texs s ∧ next_addr s' = next_addr s.
Proof.
  intros Hfb Hrb Hlen.
  unfold GPU_framebuffer_renderbuffer_attach.
  change (GPU_FB_MAX_SLOTS <=? 0) with false.
  unfold GPU_renderbuffer_depth, GPU_renderbuffer_bindcode, clean_gl_errors,
    glFramebufferRenderbufferEXT, glGetError, GPU_framebuffer_restore,
    gpu_print_framebuffer_error, GPU_renderbuffer_framebuffer_set, store_colorrb,
    arr_write, fb_attach_rb.
  change (slot_index 0) with (Some 0%nat).
  run.
  set (e := dev_attach_error dev _).
  destruct (drain_errors (gl_errors s)) as [|e0 q0];
    destruct (e =? GL_NO_ERROR); run_slots.
  all: match goal with
       | |- context [if ?b =? GL_INVALID_OPERATION then _ else _] =>
           destruct (b =? GL_INVALID_OPERATION)
       end; run_slots.
  all: try (destruct (fb_object fv =? 0); run_slots).
  all: try (intros H; discriminate H).
  all: destruct (rb_depth rv); run_slots;
       try (destruct (decide _) as [_|Hn]; [run_slots | exfalso; apply Hn; lia]);
       intros H; injection H as <-; done.
Qed.

Lemma offscreen_create_rb_Some dev width height smp data_type type a fv
    (k : option positive → GPUOffScreen) s o s' :
  fbs s !! a = Some fv → length (colorrb fv) = 4%nat →
  (do rb <- GPU_renderbuffer_create dev width height smp data_type type;
   let ofs := k rb in
   if is_null rb then free_and_fail ofs
   else
     do ok <- GPU_framebuffer_renderbuffer_attach dev (Some a) rb 0;
     if negb ok then free_and_fail ofs else ret (Some ofs)) s = Ok (Some o) s' →
  let r := next_addr s in
  ∃ code,
    o = k (Some r)
    ∧ fbs s' = <[a := fb_attach_rb (mkRB width height smp None 0 (rb_type_depth type) code)
                         r 0 fv]> (fbs s)
    ∧ rbs s' = <[r := mkRB width height smp (Some a) 0 (rb_type_depth type) code]> (rbs s)
    ∧ texs s' = texs s ∧ next_addr s' = Pos.succ r.
Proof.
  intros Hfb Hlen H r.
  apply bind_inv_Ok in H as ([rb|] & s1 & Hcreate & H); cbn [is_null] in H; [|inv_fail H].
  apply renderbuffer_create_Some in Hcreate as (-> & code & Hr1 & Hf1 & Ht1 & Hn1).
  fold r in Hr1, Hn1, H.
  apply bind_inv_Ok in H as ([] & s2 & Hattach & H); cbn [negb] in H; [|inv_fail H].
  unfold ret in H. injection H as <- <-.
  apply (renderbuffer_attach_true dev a r fv
           (mkRB width height smp None 0 (rb_type_depth type) code)) in Hattach
    as (Hf2 & Hr2 & Ht2 & Hn2);
    [|by rewrite Hf1|rewrite Hr1; apply lookup_insert_eq|done].
  exists code. split; [done|].
  rewrite Hf2, Hr2, Ht2, Hn2, Hf1, Hr1, Ht1, Hn1, insert_insert_eq. done.
Qed.

Lemma restore_heaps s s' :
  GPU_framebuffer_restore s = Ok tt s' →
  fbs s' = fbs s ∧ rbs s' = rbs s ∧ texs s' = texs s.
Proof.
  unfold GPU_framebuffer_restore. run.
  destruct (GG_currentfb s =? 0); run; intros H; injection H as <-; done.
Qed.

(** C2: for every call of [GPU_offscreen_create] that returns an object,
    the object has a framebuffer, a colour surface and a depth surface, and
    each surface it holds is attached to that framebuffer at slot 0 when the
    call returns: the surface is the entry of colour slot 0 (of the depth
    slot, for a depth surface) and its back-reference names the framebuffer
    and index 0.  This is stated for texture-backed and renderbuffer-backed
    surfaces alike; the surfaces of a returned object are renderbuffers (a
    run that creates a texture does not return an object, see C4). *)
Theorem offscreen_create_attaches_surfaces
    dev width height samples data_type mode s ofs s' :
  GPU_offscreen_create dev width height samples data_type mode s = Ok (Some ofs) s' →
  ∃ fb fv,
    ofs_fb ofs = Some fb ∧ fbs s' !! fb = Some fv
    ∧ (is_Some (ofs_color ofs) ∨ is_Some (ofs_rbcolor ofs))
    ∧ (is_Some (ofs_depth ofs) ∨ is_Some (ofs_rbdepth ofs))
    ∧ (∀ t, ofs_color ofs = Some t →
         colortex fv !! 0%nat = Some (Some t)
         ∧ ∃ tv, texs s' !! t = Some tv
                 ∧ tex_fb tv = Some fb ∧ tex_fb_attachment tv = 0)
    ∧ (∀ t, ofs_depth ofs = Some t →
         depthtex fv = Some t
         ∧ ∃ tv, texs s' !! t = Some tv
                 ∧ tex_fb tv = Some fb ∧ tex_fb_attachment tv = 0)
    ∧ (∀ r, ofs_rbcolor ofs = Some r →
         colorrb fv !! 0%nat = Some (Some r)
         ∧ ∃ rv, rbs s' !! r = Some rv
                 ∧ rb_fb rv = Some fb ∧ rb_fb_attachment rv = 0)
    ∧ (∀ r, ofs_rbdepth ofs = Some r →
         depthrb fv = Some r
         ∧ ∃ rv, rbs s' !! r = Some rv
                 ∧ rb_fb rv = Some fb ∧ rb_fb_attachment rv = 0).
Proof.
  intros Hrun.
  destruct (offscreen_create_inv _ _ _ _ _ _ _ _ _ Hrun) as (Hmc & Hmd & _).
  unfold GPU_offscreen_create in Hrun.
  apply bind_inv_Ok in Hrun as ([a|] & s1 & Hcreate & H); cbn [is_null] in H;
    [|inv_fail H].
  apply framebuffer_create_Some in Hcreate as (_ & name & Hf1 & Hr1 & Ht1 & Hn1).
  apply bind_inv_Ok in H as ([o1|] & s2 & Hcolor & H); [|discriminate H].
  apply bind_inv_Ok in H as ([o2|] & s3 & Hdepth & H); [|discriminate H].
  set (smp := clamp_samples dev samples mode) in *.
  set (ofs0 := mkOfs (Some a) None None None None smp).
  assert (Hfb1 : fbs s1 !! a = Some (fb_new name))
    by (rewrite Hf1; apply lookup_insert_eq).
  (* the colour renderbuffer *)
  unfold offscreen_create_color in Hcolor. rewrite Hmc in Hcolor.
  destruct (offscreen_create_rb_Some dev width height smp data_type
              GPU_RENDERBUFFER_COLOR a (fb_new name)
              (λ rb, ofs_with_rbcolor rb ofs0) s1 o1 s2 Hfb1 eq_refl Hcolor)
    as (nc & -> & Hf2 & Hr2 & Ht2 & Hn2).
  set (a1 := next_addr s1) in *.
  set (fvc := fb_attach_rb (mkRB width height smp None 0 false nc) a1 0 (fb_new name))
    in *.
  assert (Hfb2 : fbs s2 !! a = Some fvc) by (rewrite Hf2; apply lookup_insert_eq).
  (* the depth renderbuffer *)
  unfold offscreen_create_depth in Hdepth. rewrite Hmd in Hdepth.
  destruct (offscreen_create_rb_Some dev width height smp data_type
              GPU_RENDERBUFFER_DEPTH a fvc
              (λ rb, ofs_with_rbdepth rb (ofs_with_rbcolor (Some a1) ofs0))
              s2 o2 s3 Hfb2 eq_refl Hdepth)
    as (nd & -> & Hf3 & Hr3 & Ht3 & Hn3).
  rewrite Hn2 in Hf3, Hr3, Hn3.
  assert (Hne : a1 ≠ Pos.succ a1) by apply Pos.succ_discr.
  (* the validity check and the restore *)
  unfold offscreen_create_finish in H.
  apply bind_inv_Ok in H as ([] & s4 & Hvalid & H); cbn [negb] in H; [|inv_fail H].
  apply bind_inv_Ok in H as ([] & s5 & Hrestore & H).
  unfold ret in H. injection H as <- <-.
  change (GPU_framebuffer_check_valid dev (Some a) s3 = Ok true s4) in Hvalid.
  assert (Hfb3 : fbs s3 !! a
                 = Some (fb_attach_rb (mkRB width height smp None 0 true nd)
                                      (Pos.succ a1) 0 fvc))
    by (rewrite Hf3; apply lookup_insert_eq).
  destruct (check_valid_run dev a _ s3 Hfb3)
    as (ok & s4' & Hvalid' & Hf4 & Ht4 & Hr4 & _).
  rewrite Hvalid in Hvalid'. injection Hvalid' as <- <-.
  apply restore_heaps in Hrestore as (Hf5 & Hr5 & Ht5).
  eexists a, _. split; [reflexivity|].
  split; [rewrite Hf5, Hf4, Hf3; apply lookup_insert_eq|].
  cbn [ofs_color ofs_depth ofs_rbcolor ofs_rbdepth ofs_with_rbdepth ofs_with_rbcolor
       ofs_with_samples ofs_with_fb].
  split; [right; eauto|]. split; [right; eauto|].
  split; [intros t Ht; discriminate Ht|]. split; [intros t Ht; discriminate Ht|].
  split.
  - intros r Hr. injection Hr as <-. split; [reflexivity|].
    eexists. rewrite Hr5, Hr4, Hr3, Hr2, lookup_insert_ne, lookup_insert_eq by done.
    done.
  - intros r Hr. injection Hr as <-. rewrite Hn2. split; [reflexivity|].
    eexists. rewrite Hr5, Hr4, Hr3, lookup_insert_eq. done.
Qed.

Lemma offscreen_create_attaches_surfaces_witness :
  ∃ s' fb fv,
    GPU_offscreen_create dev_full 64 32 0 GPU_RGBA8 mode_renderbuffers st_empty
      = Ok (Some (mkOfs (Some 1%positive) None None (Some 2%positive)
                        (Some 3%positive) 0)) s'
    ∧ fbs s' !! fb = Some fv
    ∧ colorrb fv !! 0%nat = Some (Some 2%positive)
    ∧ depthrb fv = Some 3%positive
    ∧ (∃ rv, rbs s' !! 2%positive = Some rv
             ∧ rb_fb rv = Some fb ∧ rb_fb_attachment rv = 0)
    ∧ (∃ rv, rbs s' !! 3%positive = Some rv
             ∧ rb_fb rv = Some fb ∧ rb_fb_attachment rv = 0).
Proof.
  eexists.
  match goal with
  | |- ∃ fb fv, GPU_offscreen_create ?d ?w ?h ?n ?t ?m ?s = Ok (Some ?o) ?s' ∧ _ =>
      assert (Hcreate : GPU_offscreen_create d w h n t m s = Ok (Some o) s')
        by (vm_compute; reflexivity);
      destruct (offscreen_create_attaches_surfaces d w h n t m s o s' Hcreate)
        as (fb & fv & _ & Hfv & _ & _ & _ & _ & Hc & Hd)
  end.
  destruct (Hc 2%positive eq_refl) as (Hc1 & Hc2).
  destruct (Hd 3%positive eq_refl) as (Hd1 & Hd2).
  exists fb, fv. repeat split; assumption.
Defined.

(** X19: with both surfaces renderbuffer-backed, [GPU_offscreen_create]
    always returns, whatever the device answers: it never dereferences a
    missing struct and never trips an assertion.  When it returns NULL,
    because the device gave no name, rejected an attachment or found the
    framebuffer incomplete, every struct it had allocated is freed again:
    the heaps are exactly as before the call. *)
Theorem offscreen_create_failure_frees_all dev width height samples data_type mode s :
  mode_has mode GPU_OFFSCREEN_RENDERBUFFER_COLOR = true →
  mode_has mode GPU_OFFSCREEN_RENDERBUFFER_DEPTH = true →
  fbs s !! next_addr s = None →
  rbs s !! Pos.succ (next_addr s) = None →
  rbs s !! Pos.succ (Pos.succ (next_addr s)) = None →
  errors_pending (gl_errors s) →
  ∃ r s', GPU_offscreen_create dev width height samples data_type mode s = Ok r s'
    ∧ texs s' = texs s
    ∧ (r = None →
       fbs s' = fbs s ∧ rbs s' = rbs s
       ∧ (GG_currentfb s' = GG_currentfb s ∨ GG_currentfb s' = 0)).
Proof.
  intros Hmc Hmd Hfb Hrc Hrd Hpend.
  destruct (offscreen_create_renderbuffers_run dev width height samples data_type mode s
              (next_addr s) Hmc Hmd eq_refl Hfb Hrc Hrd Hpend)
    as (r & s' & Hrun & Ht & Hres).
  exists r, s'. split; [done|]. split; [done|]. by intros ->.
Qed.

Lemma offscreen_create_failure_frees_all_witness :
  ∃ r s', GPU_offscreen_create dev_incomplete 64 32 0 GPU_RGBA8 mode_renderbuffers
            st_rb_unattached = Ok r s'
    ∧ texs s' = texs st_rb_unattached
    ∧ (r = None →
       fbs s' = fbs st_rb_unattached ∧ rbs s' = rbs st_rb_unattached
       ∧ (GG_currentfb s' = GG_currentfb st_rb_unattached ∨ GG_currentfb s' = 0)).
Proof.
  apply (offscreen_create_failure_frees_all dev_incomplete 64 32 0 GPU_RGBA8
           mode_renderbuffers st_rb_unattached);
    try reflexivity.
  repeat constructor. discriminate.
Defined.

(** X20: every offscreen buffer that [GPU_offscreen_create] returns consists
    of a new framebuffer and two new renderbuffers of the requested width
    and height: the colour renderbuffer sits in colour slot 0, the depth
    renderbuffer in the depth slot, both point back to (framebuffer, 0), no
    texture is involved, the size and sample queries answer the requested
    size and the clamped sample count, and no framebuffer is left bound. *)
Theorem offscreen_create_result dev width height samples data_type mode s ofs s' :
  GPU_offscreen_create dev width height samples data_type mode s = Ok (Some ofs) s' →
  fbs s !! next_addr s = None →
  rbs s !! Pos.succ (next_addr s) = None →
  rbs s !! Pos.succ (Pos.succ (next_addr s)) = None →
  errors_pending (gl_errors s) →
  let a := next_addr s in
  let smp := clamp_samples dev samples mode in
  ofs = mkOfs (Some a) None None (Some (Pos.succ a)) (Some (Pos.succ (Pos.succ a))) smp
  ∧ GPU_offscreen_width ofs s' = Ok width s'
  ∧ GPU_offscreen_height ofs s' = Ok height s'
  ∧ GPU_offscreen_samples ofs = smp
  ∧ GG_currentfb s' = 0
  ∧ ∃ fv rc rd,
      fb_consistent s' a fv
      ∧ tex_cleared fv
      ∧ colorrb fv = [Some (Pos.succ a); None; None; None]
      ∧ depthrb fv = Some (Pos.succ (Pos.succ a))
      ∧ rbs s' !! Pos.succ a = Some rc ∧ rbs s' !! Pos.succ (Pos.succ a) = Some rd
      ∧ (rb_width rc, rb_height rc, rb_samples rc) = (width, height, smp)
      ∧ (rb_width rd, rb_height rd, rb_samples rd) = (width, height, smp)
      ∧ (rb_fb rc, rb_fb_attachment rc) = (Some a, 0)
      ∧ (rb_fb rd, rb_fb_attachment rd) = (Some a, 0).
Proof.
  intros Hrun Hfb Hrc Hrd Hpend a smp.
  destruct (offscreen_create_inv _ _ _ _ _ _ _ _ _ Hrun) as (Hmc & Hmd & _).
  destruct (offscreen_create_renderbuffers_run dev width height samples data_type mode s
              a Hmc Hmd eq_refl Hfb Hrc Hrd Hpend)
    as (r & s1 & Hrun1 & Ht & Hres).
  rewrite Hrun in Hrun1. injection Hrun1 as <- <-.
  destruct Hres as (-> & HG & name & nc & nd & Hname & Hf & Hr).
  fold smp in Hr |- *. clearbody a smp.
  assert (Hne : Pos.succ a ≠ Pos.succ (Pos.succ a)) by apply Pos.succ_discr.
  assert (Hc : rbs s' !! Pos.succ a = Some (mkRB width height smp (Some a) 0 false nc))
    by (rewrite Hr, lookup_insert_ne, lookup_insert_eq; done).
  assert (Hd : rbs s' !! Pos.succ (Pos.succ a)
               = Some (mkRB width height smp (Some a) 0 true nd))
    by (rewrite Hr, lookup_insert_eq; done).
  split; [done|].
  split; [unfold GPU_offscreen_width, GPU_renderbuffer_width; cbn; run; done|].
  split; [unfold GPU_offscreen_height, GPU_renderbuffer_height; cbn; run; done|].
  split; [done|]. split; [done|].
  exists (ofs_fb_struct name (Some (Pos.succ a)) (Some (Pos.succ (Pos.succ a)))),
    (mkRB width height smp (Some a) 0 false nc), (mkRB width height smp (Some a) 0 true nd).
  split; [|split; [|done]].
  - split; cbn.
    + rewrite Hf. apply lookup_insert_eq.
    + done.
    + done.
    + intros [|[|[|[|i]]]] t H; discriminate H.
    + intros t H; discriminate H.
    + intros [|[|[|[|i]]]] r H; try discriminate H.
      injection H as <-. eexists. split; [exact Hc|]. done.
    + intros r H. injection H as <-. eexists. split; [exact Hd|]. done.
  - split; [done|]. intros [|[|[|[|i]]]] Hi; try done. lia.
Qed.

Lemma offscreen_create_result_witness :
  ∃ s',
    GPU_offscreen_create dev_no_blit 64 32 8 GPU_RGBA8 mode_renderbuffers st_empty
      = Ok (Some (mkOfs (Some 1%positive) None None (Some 2%positive)
                        (Some 3%positive) 0)) s'
    ∧ GPU_offscreen_width (mkOfs (Some 1%positive) None None (Some 2%positive)
                                 (Some 3%positive) 0) s' = Ok 64 s'
    ∧ GPU_offscreen_height (mkOfs (Some 1%positive) None None (Some 2%positive)
                                  (Some 3%positive) 0) s' = Ok 32 s'
    ∧ GG_currentfb s' = 0.
Proof.
  eexists. split; [vm_compute; reflexivity|].
  match goal with
  | |- GPU_offscreen_width ?o ?s' = _ ∧ _ =>
      destruct (offscreen_create_result dev_no_blit 64 32 8 GPU_RGBA8 mode_renderbuffers
                  st_empty o s') as (_ & Hw & Hh & _ & HG & _)
  end; try reflexivity.
  - constructor.
  - split; [exact Hw|]. split; [exact Hh|exact HG].
Defined.

(** X21: freeing an offscreen buffer right after [GPU_offscreen_create]
    returned it undoes the creation: the framebuffer and both renderbuffers
    are detached and freed, every heap is as before the create call and no
    framebuffer is bound. *)
Theorem offscreen_create_free_round_trip dev width height samples data_type mode s ofs s' :
  GPU_offscreen_create dev width height samples data_type mode s = Ok (Some ofs) s' →
  fbs s !! next_addr s = None →
  rbs s !! Pos.succ (next_addr s) = None →
  rbs s !! Pos.succ (Pos.succ (next_addr s)) = None →
  errors_pending (gl_errors s) →
  ∃ s'', GPU_offscreen_free ofs s' = Ok tt s''
    ∧ fbs s'' = fbs s ∧ rbs s'' = rbs s ∧ texs s'' = texs s
    ∧ GG_currentfb s'' = 0.
Proof.
  intros Hrun Hfb Hrc Hrd Hpend.
  destruct (offscreen_create_inv _ _ _ _ _ _ _ _ _ Hrun) as (Hmc & Hmd & _).
  destruct (offscreen_create_renderbuffers_run dev width height samples data_type mode s
              (next_addr s) Hmc Hmd eq_refl Hfb Hrc Hrd Hpend)
    as (r & s1 & Hrun1 & Ht & Hres).
  rewrite Hrun in Hrun1. injection Hrun1 as <- <-.
  destruct Hres as (-> & HG & name & nc & nd & Hname & Hf & Hr).
  set (a := next_addr s) in *. clearbody a.
  assert (Hne : Pos.succ a ≠ Pos.succ (Pos.succ a)) by apply Pos.succ_discr.
  destruct (offscreen_free_run a name (Some (Pos.succ a)) (Some (Pos.succ (Pos.succ a)))
              (Some (Pos.succ a)) (Some (Pos.succ (Pos.succ a)))
              (clamp_samples dev samples mode) s')
    as (s'' & Hfree & Hf' & Hr' & Ht' & HG' & _).
  { rewrite Hf. apply lookup_insert_eq. }
  { eexists. rewrite Hr, lookup_insert_ne, lookup_insert_eq by done.
    split; [done|]. split; [done|]. by right. }
  { eexists. rewrite Hr, lookup_insert_eq. split; [done|]. split; [done|]. by right. }
  exists s''. split; [done|].
  cbn [delete_opt] in Hr'. rewrite Hf', Hr', Ht', Hf, Hr.
  split; [rewrite delete_insert_eq; by apply delete_id|].
  split; [heap_eq|]. split; [done|].
  destruct HG' as [->|]; done.
Qed.

Lemma offscreen_create_free_round_trip_witness :
  ∃ s' s'',
    GPU_offscreen_create dev_full 64 32 0 GPU_RGBA8 mode_renderbuffers st_rb_unattached
      = Ok (Some (mkOfs (Some 4%positive) None None (Some 5%positive)
                        (Some 6%positive) 0)) s'
    ∧ GPU_offscreen_free (mkOfs (Some 4%positive) None None (Some 5%positive)
                                (Some 6%positive) 0) s' = Ok tt s''
    ∧ fbs s'' = fbs st_rb_unattached ∧ rbs s'' = rbs st_rb_unattached
    ∧ texs s'' = texs st_rb_unattached
    ∧ GG_currentfb s'' = 0.
Proof.
  eexists.
  match goal with
  | |- ∃ s'', GPU_offscreen_create ?d ?w ?h ?n ?t ?m ?s = Ok (Some ?o) ?s' ∧ _ =>
      assert (Hcreate : GPU_offscreen_create d w h n t m s = Ok (Some o) s')
        by (vm_compute; reflexivity);
      destruct (offscreen_create_free_round_trip d w h n t m s o s' Hcreate)
        as (s'' & H)
  end; try reflexivity.
  - repeat constructor. discriminate.
  - exists s''. split; [exact Hcreate | exact H].
Defined.

(** X22: an offscreen buffer that [GPU_offscreen_create] returned has no
    texture to take a viewport from.  [GPU_offscreen_bind_simple] binds it
    and makes it the current framebuffer, but [GPU_framebuffer_bind] and
    [GPU_framebuffer_bind_no_save] on slot 0, the call made by
    [GPU_offscreen_bind] without save, read the size of a NULL texture;
    [GPU_offscreen_texture] and [GPU_offscreen_depth_texture] return NULL
    and [GPU_offscreen_color_texture] reads the bindcode of a NULL
    texture. *)
Theorem created_offscreen_binds_simple_only dev width height samples data_type mode s ofs s' :
  GPU_offscreen_create dev width height samples data_type mode s = Ok (Some ofs) s' →
  fbs s !! next_addr s = None →
  rbs s !! Pos.succ (next_addr s) = None →
  rbs s !! Pos.succ (Pos.succ (next_addr s)) = None →
  errors_pending (gl_errors s) →
  (∃ s'', GPU_offscreen_bind_simple ofs s' = Ok tt s''
     ∧ GG_currentfb s'' ≠ 0
     ∧ GPU_framebuffer_bound (ofs_fb ofs) s'' = Ok true s'')
  ∧ GPU_framebuffer_bind (ofs_fb ofs) s' = Fault
  ∧ GPU_framebuffer_bind_no_save (ofs_fb ofs) 0 s' = Fault
  ∧ GPU_offscreen_texture ofs = None
  ∧ GPU_offscreen_depth_texture ofs = None
  ∧ GPU_offscreen_color_texture ofs s' = Fault.
Proof.
  intros Hrun Hfb Hrc Hrd Hpend.
  destruct (offscreen_create_inv _ _ _ _ _ _ _ _ _ Hrun) as (Hmc & Hmd & _).
  destruct (offscreen_create_renderbuffers_run dev width height samples data_type mode s
              (next_addr s) Hmc Hmd eq_refl Hfb Hrc Hrd Hpend)
    as (r & s1 & Hrun1 & Ht & Hres).
  rewrite Hrun in Hrun1. injection Hrun1 as <- <-.
  destruct Hres as (-> & HG & name & nc & nd & Hname & Hf & Hr).
  set (a := next_addr s) in *. clearbody a.
  assert (Hfv : fbs s' !! a
                = Some (ofs_fb_struct name (Some (Pos.succ a)) (Some (Pos.succ (Pos.succ a)))))
    by (rewrite Hf; apply lookup_insert_eq).
  cbn [ofs_fb]. split; [|split; [|split; [|done]]].
  - unfold GPU_offscreen_bind_simple, GPU_framebuffer_bind_simple, GPU_framebuffer_bound.
    cbn [ofs_fb]. run. eexists. split; [reflexivity|]. run.
    split; [done|]. cbn [ofs_fb_struct fb_object]. by rewrite Z.eqb_refl.
  - apply (bind_fault a _ s' Hfv); [done|]. intros t H. discriminate H.
  - unfold GPU_framebuffer_bind_no_save, load_colortex, arr_read, GPU_texture_width.
    run. reflexivity.
Qed.

Lemma created_offscreen_binds_simple_only_witness :
  ∃ s',
    GPU_offscreen_create dev_full 64 32 0 GPU_RGBA8 mode_renderbuffers st_empty
      = Ok (Some (mkOfs (Some 1%positive) None None (Some 2%positive)
                        (Some 3%positive) 0)) s'
    ∧ GPU_framebuffer_bind (Some 1%positive) s' = Fault
    ∧ GPU_framebuffer_bind_no_save (Some 1%positive) 0 s' = Fault.
Proof.
  eexists.
  match goal with
  | |- GPU_offscreen_create ?d ?w ?h ?n ?t ?m ?s = Ok (Some ?o) ?s' ∧ _ =>
      assert (Hcreate : GPU_offscreen_create d w h n t m s = Ok (Some o) s')
        by (vm_compute; reflexivity);
      destruct (created_offscreen_binds_simple_only d w h n t m s o s' Hcreate)
        as (_ & Hbind & Hnosave & _)
  end; try reflexivity.
  - constructor.
  - split; [exact Hcreate|]. split; [exact Hbind | exact Hnosave].
Defined.

(** X23: [GPU_offscreen_free] of a renderbuffer-backed offscreen buffer, be
    it complete or only partly built (a renderbuffer missing, or created
    but not attached yet), finishes and frees exactly the buffer's own
    structs: its framebuffer and its renderbuffers are gone, every other
    framebuffer, renderbuffer and texture is untouched. *)
Theorem offscreen_free_frees_own_structs a name cf df co do_ smp s :
  fbs s !! a = Some (ofs_fb_struct name cf df) →
  rb_owned s a false cf co → rb_owned s a true df do_ →
  ∃ s', GPU_offscreen_free (mkOfs (Some a) None None co do_ smp) s = Ok tt s'
    ∧ fbs s' !! a = None
    ∧ (∀ r, co = Some r ∨ do_ = Some r → rbs s' !! r = None)
    ∧ (∀ k, k ≠ a → fbs s' !! k = fbs s !! k)
    ∧ (∀ k, co ≠ Some k → do_ ≠ Some k → rbs s' !! k = rbs s !! k)
    ∧ texs s' = texs s.
Proof.
  intros Hfb Hc Hd.
  destruct (offscreen_free_run a name cf df co do_ smp s Hfb Hc Hd)
    as (s' & Hrun & Hf & Hr & Ht & _).
  exists s'. split; [done|]. rewrite Hf, Hr.
  split; [apply lookup_delete_eq|].
  split; [|split; [|split; [|done]]].
  - intros r Hr'. destruct co as [rc|], do_ as [rd|]; cbn [delete_opt];
      destruct Hr' as [Heq|Heq]; try discriminate Heq; injection Heq as ->;
      rewrite ?lookup_delete; repeat case_decide; congruence.
  - intros k Hk. by rewrite lookup_delete_ne.
  - intros k Hkc Hkd. destruct co, do_; cbn [delete_opt];
      rewrite ?lookup_delete; repeat case_decide; congruence.
Qed.

Lemma offscreen_free_frees_own_structs_witness :
  ∃ s', GPU_offscreen_free (mkOfs (Some 1%positive) None None (Some 2%positive)
                                  (Some 3%positive) 0) st_rb_unattached = Ok tt s'
    ∧ fbs s' !! 1%positive = None
    ∧ (∀ r, Some 2%positive = Some r ∨ Some 3%positive = Some r → rbs s' !! r = None)
    ∧ (∀ k, k ≠ 1%positive → fbs s' !! k = fbs st_rb_unattached !! k)
    ∧ (∀ k, Some 2%positive ≠ Some k → Some 3%positive ≠ Some k →
         rbs s' !! k = rbs st_rb_unattached !! k)
    ∧ texs s' = texs st_rb_unattached.
Proof.
  apply (offscreen_free_frees_own_structs 1%positive 11 None None
           (Some 2%positive) (Some 3%positive) 0 st_rb_unattached).
  - reflexivity.
  - eexists. split; [reflexivity|]. split; [reflexivity|]. left. split; reflexivity.
  - eexists. split; [reflexivity|]. split; [reflexivity|]. left. split; reflexivity.
Defined.

(** * A stale slot entry at free *)

(** X24: attaching a texture that framebuffer [fb1] holds to another
    framebuffer [fb2] leaves the entry of [fb1] in place, and
    [GPU_framebuffer_free] of [fb1] follows that entry: it detaches the
    texture from [fb2], its owner by then.  After the free the slot of
    [fb2] is empty again and the texture is attached nowhere. *)
Theorem free_of_former_owner_detaches fb1 fb2 o1 i tex tv fv2 target slot2 mip s :
  fb1 ≠ fb2 → (i < 4)%nat →
  fbs s !! fb1
    = Some (with_colortex (<[i := Some tex]> [None; None; None; None]) (fb_new o1)) →
  fbs s !! fb2 = Some fv2 → length (colortex fv2) = 4%nat →
  texs s !! tex = Some tv → tex_depth tv = false → 0 <= slot2 < 4 →
  ∃ s1 s2 fv2',
    GPU_framebuffer_texture_attach_target (Some fb2) (Some tex) target slot2 mip s
      = Ok true s1
    ∧ colortex fv2' = <[Z.to_nat slot2 := None]> (colortex fv2)
    ∧ GPU_framebuffer_free (Some fb1) s1 = Ok tt s2
    ∧ fbs s2 !! fb1 = None
    ∧ fbs s2 !! fb2 = Some fv2'
    ∧ colortex fv2' !! Z.to_nat slot2 = Some None
    ∧ tex_detached s2 tex.
Proof.
  intros Hne Hi Hfb1 Hfb2 Hlen Htex Hcolor Hslot.
  destruct (attach_target_spec fb2 tex fv2 tv target slot2 mip s Hfb2 Htex)
    as (s1 & Hrun1 & Hf1 & Ht1 & _ & HG1); [lia | intros _; split; [lia|done] |].
  unfold fb_attach_tex in Hf1. rewrite Hcolor in Hf1.
  set (fv2a := with_colortex (<[Z.to_nat slot2 := Some tex]> (colortex fv2)) fv2) in *.
  set (tva := tex_set_fb (Some fb2) slot2 tv) in *.
  assert (Hfb1a : fbs s1 !! fb1 = fbs s !! fb1) by (rewrite Hf1; by apply lookup_insert_ne).
  assert (Hfb2a : fbs s1 !! fb2 = Some fv2a) by (rewrite Hf1; apply lookup_insert_eq).
  assert (Htexa : texs s1 !! tex = Some tva) by (rewrite Ht1; apply lookup_insert_eq).
  destruct (detach_target_spec fb2 tex fv2a tva (tex_target tva) s1 Htexa eq_refl Hfb2a)
    as (s2 & Hrun2 & Hf2 & Ht2 & _ & HG2).
  { intros _. cbn. split; [lia|]. apply list_lookup_insert_eq. lia. }
  assert (Hdetach : GPU_framebuffer_texture_detach (Some tex) s1 = Ok tt s2).
  { unfold GPU_framebuffer_texture_detach, GPU_texture_target. run. exact Hrun2. }
  set (fv2b := fb_detach_tex tva fv2a) in *.
  assert (Hfb1b : fbs s2 !! fb1 = fbs s !! fb1)
    by (rewrite Hf2, lookup_insert_ne by done; exact Hfb1a).
  rewrite Hfb1 in Hfb1a, Hfb1b.
  assert (Hfb2b : fbs s2 !! fb2 = Some fv2b) by (rewrite Hf2; apply lookup_insert_eq).
  assert (Htexb : tex_detached s2 tex).
  { eexists. rewrite Ht2, lookup_insert_eq. done. }
  assert (Hempty : colortex fv2b !! Z.to_nat slot2 = Some None).
  { unfold fv2b, fb_detach_tex, fv2a, tva. cbn.
    rewrite Hcolor. cbn. apply list_lookup_insert_eq. rewrite length_insert. lia. }
  assert (Hcol2 : colortex fv2b = <[Z.to_nat slot2 := None]> (colortex fv2)).
  { unfold fv2b, fb_detach_tex, fv2a, tva. cbn.
    rewrite Hcolor. cbn. apply list_insert_insert_eq. }
  assert (Hfree : ∃ s3, GPU_framebuffer_free (Some fb1) s1 = Ok tt s3
            ∧ fbs s3 = delete fb1 (fbs s2) ∧ texs s3 = texs s2).
  { clear Hrun1 Hrun2.
    unfold GPU_framebuffer_free, free_detach_all, free_release, free_detach_colortex,
      free_detach_colorrb, load_colortex, load_colorrb, arr_read, MEM_freeN_fb.
    unfold fb_new, with_colortex in Hfb1a, Hfb1b.
    cbn [colortex depthtex colorrb depthrb fb_object] in Hfb1a, Hfb1b.
    destruct i as [|[|[|[|i]]]]; [| | | |lia];
      cbn -[lookup] in Hfb1a, Hfb1b;
      run_slots; rewrite Hdetach; run_slots;
      (destruct (o1 =? 0); run_slots;
       [|destruct (GG_currentfb s2 =? o1); run_slots]);
      (eexists; split; [reflexivity|]); done. }
  destruct Hfree as (s3 & Hrun3 & Hf3 & Ht3).
  exists s1, s3, fv2b. split; [done|]. split; [done|]. split; [done|].
  split; [rewrite Hf3; apply lookup_delete_eq|].
  split; [rewrite Hf3, lookup_delete_ne by done; exact Hfb2b|].
  split; [done|].
  destruct Htexb as (tv' & Htv' & Hun). exists tv'. by rewrite Ht3.
Qed.

Lemma free_of_former_owner_detaches_witness :
  ∃ s1 s2 fv2',
    GPU_framebuffer_texture_attach_target (Some 2%positive) (Some 3%positive)
      GL_TEXTURE_2D 1 0 st_two_targets = Ok true s1
    ∧ colortex fv2' = <[Z.to_nat 1 := None]> (colortex (ex_fb_empty 12))
    ∧ GPU_framebuffer_free (Some 1%positive) s1 = Ok tt s2
    ∧ fbs s2 !! 1%positive = None
    ∧ fbs s2 !! 2%positive = Some fv2'
    ∧ colortex fv2' !! Z.to_nat 1 = Some None
    ∧ tex_detached s2 3%positive.
Proof.
  apply (free_of_former_owner_detaches 1%positive 2%positive 11 0%nat 3%positive
           (ex_color_tex 64 64 (Some 1%positive) 0) (ex_fb_empty 12)
           GL_TEXTURE_2D 1 0 st_two_targets);
    try reflexivity; try lia; discriminate.
Defined.
